(** * ICS multi-agent risk pipeline: a shallow embedding and its properties

    The development follows [backend/agents.py] (the cyber, operational and
    decision agents and the coordinator) and [backend/risk_mapping.py] (the
    sensor-to-risk mapper).

    Conventions of the embedding:
    - a Python [float] is an exact rational or NaN ([Py.pyfloat]); rounding
      error of binary64 arithmetic is not represented, NaN is (it arises from
      the mean of an empty array and makes every comparison false). The one
      exception is the quotient that the mapper rounds to three decimals:
      there the binary64 rounding decides decimal ties, and it is modelled
      ([Py.true_divide]);
    - code that can raise returns [Py.result]; a [try/except Exception] is a
      [match] on it;
    - a [dict] read by key is a [gmap string _] where the key may be missing,
      a record where the keys are fixed by a literal, and an association
      list where insertion order is observable;
    - collaborators that the coordinator only calls through a method
      (duck typing) are type classes. *)

From Stdlib Require Import QArith Qabs Qround Qminmax Lqa ZArith Lia.
From stdpp Require Import base strings gmap list pretty.

Local Open Scope string_scope.
Local Open Scope list_scope.

(* ================================================================== *)
(** ** Python and numpy primitives used by the source *)
(* ================================================================== *)

Module Py.

(** Floats: finite values are rationals. *)
Inductive pyfloat : Type :=
| Fin (q : Q)
| NaN.

Definition Qltb (x y : Q) : bool := (Qnum x * QDen y <? Qnum y * QDen x)%Z.

Definition flt (a b : pyfloat) : bool :=
  match a, b with
  | Fin x, Fin y => Qltb x y
  | _, _ => false
  end.

Definition fgt (a b : pyfloat) : bool := flt b a.

Definition feqb (a b : pyfloat) : bool :=
  match a, b with
  | Fin x, Fin y => Qeq_bool x y
  | _, _ => false
  end.

Definition lift2 (f : Q -> Q -> Q) (a b : pyfloat) : pyfloat :=
  match a, b with
  | Fin x, Fin y => Fin (f x y)
  | _, _ => NaN
  end.

Definition fadd := lift2 Qplus.
Definition fsub := lift2 Qminus.
Definition fmul := lift2 Qmult.

(** numpy float division; every call site of the source guards the zero
    divisor, where numpy would answer inf or nan. *)
Definition fdiv (a b : pyfloat) : pyfloat :=
  match a, b with
  | Fin x, Fin y => if Qeq_bool y 0 then NaN else Fin (x / y)
  | _, _ => NaN
  end.

Definition fabs (a : pyfloat) : pyfloat :=
  match a with
  | Fin x => Fin (Qabs x)
  | NaN => NaN
  end.

(** The builtin [min(a, b)]: [b] when [b < a], else [a]. *)
Definition py_min (a b : pyfloat) : pyfloat := if flt b a then b else a.

(** Equality of floats up to the representation of the rational. *)
Definition feq (a b : pyfloat) : Prop :=
  match a, b with
  | Fin x, Fin y => x == y
  | NaN, NaN => True
  | _, _ => False
  end.

(** Exceptions (all subclasses of [Exception]) and [str(e)]. *)
Inductive exn : Type :=
| KeyError (key : string)
| ValueError (msg : string)
| IndexError (msg : string)
| AttributeError (msg : string)
| TypeError (msg : string)
| OtherError (msg : string).

Definition str (e : exn) : string :=
  match e with
  | KeyError k => "'" ++ k ++ "'"
  | ValueError m | IndexError m | AttributeError m | TypeError m
  | OtherError m => m
  end.

Inductive result (A : Type) : Type :=
| Ok (a : A)
| Raise (e : exn).
Arguments Ok {A} a.
Arguments Raise {A} e.

#[export] Instance result_ret : MRet result := fun _ a => Ok a.
#[export] Instance result_bind : MBind result := fun _ _ f m =>
  match m with
  | Ok a => f a
  | Raise e => Raise e
  end.

(** Calling a method on [None]. *)
Definition none_has_no (method : string) : exn :=
  AttributeError ("'NoneType' object has no attribute '" ++ method ++ "'").

(** Values stored in the detection dictionary. *)
Inductive pyval : Type :=
| VBoolArr (l : list bool)
| VFloatArr (l : list Q)
| VIntArr (l : list Z)
| VInt (z : Z)
| VFloat (f : pyfloat).

Definition getitem {V} (d : gmap string V) (k : string) : result V :=
  match d !! k with
  | Some v => Ok v
  | None => Raise (KeyError k)
  end.

Definition as_floats (v : pyval) : result (list Q) :=
  match v with
  | VFloatArr l => Ok l
  | _ => Raise (TypeError "expected an array of floats")
  end.

Definition as_bools (v : pyval) : result (list bool) :=
  match v with
  | VBoolArr l => Ok l
  | _ => Raise (TypeError "expected an array of booleans")
  end.

Definition as_int (v : pyval) : result Z :=
  match v with
  | VInt z => Ok z
  | _ => Raise (TypeError "expected an int")
  end.

Definition as_float (v : pyval) : result pyfloat :=
  match v with
  | VFloat f => Ok f
  | _ => Raise (TypeError "expected a float")
  end.

(** numpy reductions. *)
Definition Qsum (l : list Q) : Q := foldr Qplus 0%Q l.

Definition Qmean (l : list Q) : Q := (Qsum l / inject_Z (Z.of_nat (length l)))%Q.

Definition np_mean (l : list Q) : pyfloat :=
  match l with
  | [] => NaN
  | _ => Fin (Qmean l)
  end.

Definition max_of (x y : Q) : Q := if Qltb x y then y else x.

Definition np_max (l : list Q) : result Q :=
  match l with
  | [] => Raise (ValueError
            "zero-size array to reduction operation maximum which has no identity")
  | x :: t => Ok (foldl max_of x t)
  end.

Definition bool_to_Q (b : bool) : Q := if b then 1%Q else 0%Q.

Definition count_true (l : list bool) : nat := length (filter (fun b => b = true) l).

Definition np_sum_flags (l : list bool) : Z := Z.of_nat (count_true l).

Definition np_mean_flags (l : list bool) : pyfloat := np_mean (bool_to_Q <$> l).

Definition np_any (l : list bool) : bool := existsb id l.

(** [a[mask]] for a boolean mask: the lengths must agree. *)
Fixpoint mask_select (a : list Q) (mask : list bool) : list Q :=
  match a, mask with
  | x :: a', b :: m' => if b then x :: mask_select a' m' else mask_select a' m'
  | _, _ => []
  end.

Definition bool_index (a : list Q) (mask : list bool) : result (list Q) :=
  if Nat.eqb (length a) (length mask) then Ok (mask_select a mask)
  else Raise (IndexError "boolean index did not match indexed array").

(** [round(x, ndigits)] on the value the float holds: to the nearest multiple
    of [10^-ndigits], a tie to the even one. The answer stands for the float
    nearest to that decimal. *)
Definition round_half_even (x : Q) : Z :=
  let f := Qfloor x in
  let r := (x - inject_Z f)%Q in
  if Qltb r (1 # 2) then f
  else if Qltb (1 # 2) r then (f + 1)%Z
  else if Z.even f then f else (f + 1)%Z.

Definition py_round (x : Q) (ndigits : nat) : Q :=
  let s := inject_Z (10 ^ Z.of_nat ndigits) in
  (inject_Z (round_half_even (x * s)) / s)%Q.

(** [2^e] for an integer exponent. *)
Definition pow2 (e : Z) : Q :=
  if (0 <=? e)%Z then inject_Z (2 ^ e) else 1 # Z.to_pos (2 ^ (- e)).

(** The exponent [e] of the binade of [n/d]: [2^e <= n/d < 2^(e+1)]. *)
Definition binade (n d : positive) : Z :=
  let k := (Z.log2 (Zpos n) - Z.log2 (Zpos d))%Z in
  if Qle_bool (pow2 k) (Zpos n # d) then k else (k - 1)%Z.

(** The binary64 number nearest to a rational, a tie to the even
    significand: 53 significant bits, down to the subnormal spacing
    [2^-1074]. Overflow is left out; the one use below stays within [0, 1]. *)
Definition b64 (x : Q) : Q :=
  match Qnum x with
  | Z0 => 0%Q
  | Zpos n | Zneg n =>
      let ulp := pow2 (Z.max (binade n (Qden x) - 52) (-1074)) in
      (inject_Z (round_half_even (x / ulp)) * ulp)%Q
  end.

(** [a / b] on two ints: the correctly rounded binary64 quotient. [round]
    then works on that float, so that a share at a decimal tie goes the way
    of its binary64 neighbour (1/80 is stored just above 0.0125). *)
Definition true_divide (a b : Z) : Q := b64 (inject_Z a / inject_Z b).

(** [f"{x:.1f}"]. *)
Definition format_1f (x : pyfloat) : string :=
  match x with
  | NaN => "nan"
  | Fin q =>
      let m := round_half_even (Qabs q * 10) in
      (if Qltb q 0 then "-" else "")
        ++ pretty (m / 10)%Z ++ "." ++ pretty (m mod 10)%Z
  end.

(** [s.lower()] on ASCII. *)
Definition lower_ascii (c : Ascii.ascii) : Ascii.ascii :=
  let n := Ascii.nat_of_ascii c in
  if (Nat.leb 65 n && Nat.leb n 90)%bool then Ascii.ascii_of_nat (n + 32) else c.

Fixpoint lower (s : string) : string :=
  match s with
  | EmptyString => EmptyString
  | String c s' => String (lower_ascii c) (lower s')
  end.

(** [sep.join(l)]. *)
Definition join (sep : string) (l : list string) : string := String.concat sep l.

(** [sorted(l)] on strings. *)
Fixpoint insert_sorted (x : string) (l : list string) : list string :=
  match l with
  | [] => [x]
  | y :: t => if String.leb x y then x :: l else y :: insert_sorted x t
  end.

Definition sorted (l : list string) : list string := foldr insert_sorted [] l.

(** [list(dict.fromkeys(l))]: the keys in first-insertion order. *)
Fixpoint dict_fromkeys_acc (seen l : list string) : list string :=
  match l with
  | [] => []
  | x :: t =>
      if bool_decide (x ∈ seen) then dict_fromkeys_acc seen t
      else x :: dict_fromkeys_acc (x :: seen) t
  end.

Definition dict_fromkeys (l : list string) : list string := dict_fromkeys_acc [] l.

End Py.

(* ================================================================== *)
(** ** risk_mapping.py: the sensor-to-risk mapper *)
(* ================================================================== *)

Module RiskMapping.
Import Py.

(** Lookup in an insertion-ordered dictionary. *)
Fixpoint assoc {V : Type} (k : string) (l : list (string * V)) : option V :=
  match l with
  | [] => None
  | (k', v) :: t => if String.eqb k k' then Some v else assoc k t
  end.

(** [d[k] += 1] on an insertion-ordered [defaultdict(int)]. *)
Fixpoint assoc_incr (k : string) (l : list (string * nat)) : list (string * nat) :=
  match l with
  | [] => [(k, 1%nat)]
  | (k', n) :: t => if String.eqb k k' then (k', S n) :: t else (k', n) :: assoc_incr k t
  end.

(** [d[k][r] += 1] on an insertion-ordered [defaultdict] of such counters. *)
Fixpoint assoc_incr2 (k r : string) (l : list (string * list (string * nat)))
  : list (string * list (string * nat)) :=
  match l with
  | [] => [(k, [(r, 1%nat)])]
  | (k', c) :: t =>
      if String.eqb k k' then (k', assoc_incr r c) :: t else (k', c) :: assoc_incr2 k r t
  end.

(** A pandas frame: [nrows] rows, each named column a cell per row. *)
Record DataFrame : Type := {
  nrows : nat;
  columns : list (string * (nat -> pyfloat))
}.

(** [sensor_data[name]], the whole column. *)
Definition column (df : DataFrame) (name : string) : option (list pyfloat) :=
  f ← assoc name (columns df); Some (f <$> seq 0 (nrows df)).

(** [sensor_data.iloc[idx]], one row as a series indexed by column name. *)
Definition iloc (df : DataFrame) (idx : nat) : result (list (string * pyfloat)) :=
  if Nat.ltb idx (nrows df) then Ok ((fun c => (c.1, c.2 idx)) <$> columns df)
  else Raise (IndexError "single positional indexer is out-of-bounds").

Definition RISK_CATEGORIES : list string :=
  [ "Water Overflow";
    "Pump Damage";
    "Water Quality Degradation";
    "Unsafe Chemical Dosing";
    "Process Interruption";
    "Unauthorized Access";
    "Data Tampering";
    "Denial of Service" ].

Definition SENSOR_RISK_MAP : list (string * list string) :=
  [ ("LIT-101", ["Water Overflow"; "Process Interruption"; "Data Tampering"]);
    ("FIT-101", ["Pump Damage"; "Unsafe Chemical Dosing"; "Process Interruption"; "Data Tampering"]);
    ("P-101", ["Pump Damage"; "Process Interruption"]);
    ("P-102", ["Pump Damage"; "Process Interruption"]);
    ("MV-101", ["Water Overflow"; "Process Interruption"]);
    ("AIT-101", ["Water Quality Degradation"; "Data Tampering"]);
    ("AIT-102", ["Water Quality Degradation"; "Data Tampering"]);
    ("DPIT-101", ["Pump Damage"; "Process Interruption"]);
    ("FIT-201", ["Unsafe Chemical Dosing"; "Water Quality Degradation"; "Process Interruption"]);
    ("AIT-201", ["Water Quality Degradation"; "Unsafe Chemical Dosing"; "Data Tampering"]);
    ("AIT-202", ["Water Quality Degradation"; "Unsafe Chemical Dosing"; "Data Tampering"]);
    ("AIT-203", ["Water Quality Degradation"; "Unsafe Chemical Dosing"; "Data Tampering"]);
    ("P-201", ["Pump Damage"; "Unsafe Chemical Dosing"]);
    ("P-202", ["Pump Damage"; "Unsafe Chemical Dosing"]);
    ("P-203", ["Pump Damage"; "Unsafe Chemical Dosing"]);
    ("P-204", ["Pump Damage"; "Unsafe Chemical Dosing"]);
    ("MV-201", ["Unsafe Chemical Dosing"; "Process Interruption"]);
    ("FIT-301", ["Pump Damage"; "Process Interruption"; "Data Tampering"]);
    ("LIT-301", ["Water Overflow"; "Process Interruption"; "Data Tampering"]);
    ("DPIT-301", ["Pump Damage"; "Process Interruption"]);
    ("P-301", ["Pump Damage"; "Process Interruption"]);
    ("P-302", ["Pump Damage"; "Process Interruption"]);
    ("MV-301", ["Water Overflow"; "Process Interruption"]);
    ("MV-302", ["Water Overflow"; "Process Interruption"]);
    ("AIT-301", ["Water Quality Degradation"; "Data Tampering"]);
    ("AIT-302", ["Water Quality Degradation"; "Data Tampering"]);
    ("AIT-303", ["Water Quality Degradation"; "Data Tampering"]);
    ("FIT-401", ["Pump Damage"; "Process Interruption"; "Data Tampering"]);
    ("LIT-401", ["Water Overflow"; "Process Interruption"; "Data Tampering"]);
    ("AIT-401", ["Water Quality Degradation"; "Unsafe Chemical Dosing"; "Data Tampering"]);
    ("AIT-402", ["Water Quality Degradation"; "Unsafe Chemical Dosing"; "Data Tampering"]);
    ("P-401", ["Pump Damage"; "Process Interruption"]);
    ("P-402", ["Pump Damage"; "Process Interruption"]);
    ("P-403", ["Pump Damage"; "Process Interruption"]);
    ("UV-401", ["Water Quality Degradation"; "Process Interruption"]);
    ("FIT-501", ["Pump Damage"; "Water Quality Degradation"; "Process Interruption"]);
    ("FIT-502", ["Pump Damage"; "Water Quality Degradation"; "Process Interruption"]);
    ("FIT-503", ["Pump Damage"; "Water Quality Degradation"; "Process Interruption"]);
    ("PIT-501", ["Pump Damage"; "Process Interruption"; "Data Tampering"]);
    ("PIT-502", ["Pump Damage"; "Process Interruption"; "Data Tampering"]);
    ("P-501", ["Pump Damage"; "Process Interruption"]);
    ("P-502", ["Pump Damage"; "Process Interruption"]);
    ("AIT-501", ["Water Quality Degradation"; "Data Tampering"]);
    ("FIT-601", ["Pump Damage"; "Process Interruption"; "Data Tampering"]);
    ("LIT-601", ["Water Overflow"; "Process Interruption"; "Data Tampering"]);
    ("P-601", ["Pump Damage"; "Process Interruption"]);
    ("P-602", ["Pump Damage"; "Process Interruption"]);
    ("P-603", ["Pump Damage"; "Process Interruption"]);
    ("DPIT-601", ["Pump Damage"; "Process Interruption"]);
    ("AIT-601", ["Water Quality Degradation"; "Data Tampering"]);
    ("AIT-602", ["Water Quality Degradation"; "Data Tampering"]) ].

Definition SENSOR_STAGE_MAP : list (string * string) :=
  [ ("LIT-101", "P1"); ("FIT-101", "P1"); ("P-101", "P1"); ("P-102", "P1");
    ("MV-101", "P1"); ("AIT-101", "P1"); ("AIT-102", "P1"); ("DPIT-101", "P1");
    ("FIT-201", "P2"); ("AIT-201", "P2"); ("AIT-202", "P2"); ("AIT-203", "P2");
    ("P-201", "P2"); ("P-202", "P2"); ("P-203", "P2"); ("P-204", "P2");
    ("MV-201", "P2"); ("FIT-301", "P3"); ("LIT-301", "P3"); ("DPIT-301", "P3");
    ("P-301", "P3"); ("P-302", "P3"); ("MV-301", "P3"); ("MV-302", "P3");
    ("AIT-301", "P3"); ("AIT-302", "P3"); ("AIT-303", "P3"); ("FIT-401", "P4");
    ("LIT-401", "P4"); ("AIT-401", "P4"); ("AIT-402", "P4"); ("P-401", "P4");
    ("P-402", "P4"); ("P-403", "P4"); ("UV-401", "P4"); ("FIT-501", "P5");
    ("FIT-502", "P5"); ("FIT-503", "P5"); ("PIT-501", "P5"); ("PIT-502", "P5");
    ("P-501", "P5"); ("P-502", "P5"); ("AIT-501", "P5"); ("FIT-601", "P6");
    ("LIT-601", "P6"); ("P-601", "P6"); ("P-602", "P6"); ("P-603", "P6");
    ("DPIT-601", "P6"); ("AIT-601", "P6"); ("AIT-602", "P6") ].

(** The argument dictionary, read with [.get(key, default)]. *)
Record AnomalyData : Type := {
  predictions : option pyval;
  attack_probabilities : option pyval;
  sensor_data : option DataFrame
}.

(** [np.array(predictions) == 1], elementwise; [None] for a value without
    a length, on which [len(predictions)] raises [TypeError]. *)
Definition eq_1 (predictions : pyval) : option (list bool) :=
  match predictions with
  | VIntArr l => Some ((fun z => Z.eqb z 1) <$> l)
  | VBoolArr l => Some l
  | VFloatArr l => Some ((fun q => Qeq_bool q 1) <$> l)
  | VInt _ | VFloat _ => None
  end.

(** The agent's process-lifetime counters. *)
Record RiskMappingAgent : Type := {
  risk_history : gmap string (gmap string nat);
  sensor_anomaly_counts : gmap string nat;
  total_anomalies : nat
}.

Definition __init__ : RiskMappingAgent :=
  {| risk_history := ∅; sensor_anomaly_counts := ∅; total_anomalies := 0 |}.

Definition reset_history (self : RiskMappingAgent) : RiskMappingAgent := __init__.

Record MajorityRisk : Type := {
  category : string;
  percentage : Q;
  count : nat;
  affected_sensors : list string;
  affected_stages : list string;
  severity : string;
  description : string
}.

Record SensorContribution : Type := {
  risks : list string;
  anomaly_count : nat;
  primary_risk : string;
  stage : string
}.

Record SensorCount : Type := {
  sensor_id : string;
  sensor_count : nat;
  sensor_stage : string
}.

Record RiskDetail : Type := {
  sensors : list SensorCount;
  total : nat;
  unique_sensors : nat
}.

Record RiskMappingResult : Type := {
  distribution : list (string * Q);
  majority_risk : MajorityRisk;
  sensor_contributions : list (string * SensorContribution);
  risk_details : list (string * RiskDetail);
  total_anomalies_analyzed : nat
}.

(** The locals of the mapping loop together with the agent they update. *)
Record LoopState : Type := {
  agent : RiskMappingAgent;
  risk_contributions : gmap string (list string);
  sensor_contribs : list (string * list (string * nat))
}.

Definition incr (k : string) (m : gmap string nat) : gmap string nat :=
  <[k := S (default 0%nat (m !! k))]> m.

Definition rc_get (rc : gmap string (list string)) (risk : string) : list string :=
  default [] (rc !! risk).

Definition stage_of (sensor : string) : string :=
  default "Unknown" (assoc sensor SENSOR_STAGE_MAP).

(** [np.where(np.array(predictions) == 1)[0]]. *)
Fixpoint np_where (i : nat) (is_1 : list bool) : list nat :=
  match is_1 with
  | [] => []
  | b :: t => if b then i :: np_where (S i) t else np_where (S i) t
  end.

Definition _empty_risk_mapping : RiskMappingResult :=
  {| distribution := (fun risk => (risk, 0%Q)) <$> RISK_CATEGORIES;
     majority_risk :=
       {| category := "None"; percentage := 0; count := 0;
          affected_sensors := []; affected_stages := [];
          severity := "Low"; description := "No anomalies detected" |};
     sensor_contributions := [];
     risk_details :=
       (fun risk => (risk, {| sensors := []; total := 0; unique_sensors := 0 |}))
         <$> RISK_CATEGORIES;
     total_anomalies_analyzed := 0 |}.

Definition total_contributions (rc : gmap string (list string)) : nat :=
  map_fold (fun _ sensors acc => (length sensors + acc)%nat) 0%nat rc.

Definition _calculate_risk_distribution (rc : gmap string (list string))
  : list (string * Q) :=
  let total_contributions := total_contributions rc in
  if Nat.eqb total_contributions 0 then (fun risk => (risk, 0%Q)) <$> RISK_CATEGORIES
  else
    (fun risk =>
       let count := length (rc_get rc risk) in
       (risk, py_round (true_divide (Z.of_nat count) (Z.of_nat total_contributions)) 3))
      <$> RISK_CATEGORIES.

(** [max(d, key=d.get)]: the first key, in insertion order, of a largest value. *)
Fixpoint argmax_from {V : Type} (ltb : V -> V -> bool) (best : string * V)
    (l : list (string * V)) : string * V :=
  match l with
  | [] => best
  | kv :: t => argmax_from ltb (if ltb best.2 kv.2 then kv else best) t
  end.

Definition argmax {V : Type} (ltb : V -> V -> bool) (l : list (string * V))
  : option (string * V) :=
  match l with
  | [] => None
  | kv :: t => Some (argmax_from ltb kv t)
  end.

Definition _generate_risk_description (risk_name : string) (sensors stages : list string)
  : string :=
  let st := join ", " stages in
  if String.eqb risk_name "Water Overflow" then
    "Tank level sensors showing overflow conditions in stages " ++ st
  else if String.eqb risk_name "Pump Damage" then
    "Pump or flow sensors indicating damage risk in stages " ++ st
  else if String.eqb risk_name "Water Quality Degradation" then
    "Water quality sensors detecting contamination in stages " ++ st
  else if String.eqb risk_name "Unsafe Chemical Dosing" then
    "Chemical dosing sensors showing unsafe levels in stages " ++ st
  else if String.eqb risk_name "Process Interruption" then
    "Critical process sensors indicating potential shutdown in stages " ++ st
  else if String.eqb risk_name "Unauthorized Access" then
    "Security breach detected affecting sensors in stages " ++ st
  else if String.eqb risk_name "Data Tampering" then
    "Sensor data integrity compromised in stages " ++ st
  else if String.eqb risk_name "Denial of Service" then
    "Communication loss with sensors in stages " ++ st
  else "Risk detected in stages " ++ st.

Definition _get_sensor_contributions (sc : list (string * list (string * nat)))
  : list (string * SensorContribution) :=
  (fun entry =>
     let sensor_name := entry.1 in
     let risks := entry.2 in
     let total_count := foldr Nat.add 0%nat (snd <$> risks) in
     let primary_risk :=
       match argmax Nat.ltb risks with
       | Some kv => kv.1
       | None => "Unknown"
       end in
     (sensor_name,
      {| risks := fst <$> risks; anomaly_count := total_count;
         primary_risk := primary_risk; stage := stage_of sensor_name |}))
    <$> sc.

(** [sorted(items, key=count, reverse=True)]: stable, largest count first. *)
Fixpoint insert_desc (x : string * nat) (l : list (string * nat)) : list (string * nat) :=
  match l with
  | [] => [x]
  | y :: t => if Nat.ltb y.2 x.2 then x :: l else y :: insert_desc x t
  end.

Definition sorted_desc (l : list (string * nat)) : list (string * nat) :=
  foldl (fun acc x => insert_desc x acc) [] l.

Definition _get_risk_details (rc : gmap string (list string))
  : list (string * RiskDetail) :=
  (fun risk =>
     let sensors := rc_get rc risk in
     let sensor_counts := foldl (fun acc s => assoc_incr s acc) [] sensors in
     let sensor_list :=
       (fun sc => {| sensor_id := sc.1; sensor_count := sc.2;
                     sensor_stage := stage_of sc.1 |})
         <$> sorted_desc sensor_counts in
     (risk, {| sensors := take 10 sensor_list; total := length sensors;
               unique_sensors := length sensor_counts |}))
    <$> RISK_CATEGORIES.

Section Mapper.

(** pandas' [Series.mean] and [Series.std] are library code; the mapper is
    verified for any behaviour of the two. [list(set(l))] lists the distinct
    elements in an order fixed by string hashing. *)
Variables series_mean series_std : list pyfloat -> pyfloat.
Variable list_of_set : list string -> list string.

Definition _is_sensor_anomalous (sensor_name : string) (value : pyfloat)
    (sensor_data : DataFrame) : bool :=
  match column sensor_data sensor_name with
  | None => false
  | Some sensor_column =>
      let mean := series_mean sensor_column in
      let std := series_std sensor_column in
      if feqb std (Fin 0) then false
      else
        let z_score := fabs (fdiv (fsub value mean) std) in
        fgt z_score (Fin 2)
  end.

Definition _identify_majority_risk (distribution : list (string * Q))
    (rc : gmap string (list string)) : MajorityRisk :=
  let none :=
    {| category := "None"; percentage := 0; count := 0;
       affected_sensors := []; affected_stages := [];
       severity := "Low"; description := "No dominant risk detected" |} in
  match argmax Qltb distribution with
  | None => none
  | Some (majority_risk_name, percentage) =>
      if Qeq_bool percentage 0 then none
      else
        let affected_sensors := list_of_set (rc_get rc majority_risk_name) in
        let count := length (rc_get rc majority_risk_name) in
        let affected_stages := list_of_set (stage_of <$> affected_sensors) in
        let severity :=
          if Qle_bool 0.4 percentage then "Critical"
          else if Qle_bool 0.25 percentage then "High"
          else if Qle_bool 0.15 percentage then "Medium"
          else "Low" in
        let description :=
          _generate_risk_description majority_risk_name affected_sensors affected_stages in
        {| category := majority_risk_name;
           percentage := py_round (percentage * 100) 1;
           count := count;
           affected_sensors := take 5 affected_sensors;
           affected_stages := sorted affected_stages;
           severity := severity;
           description := description |}
  end.

(** The body of [for risk in risks]. *)
Definition record_risk (sensor_name : string) (st : LoopState) (risk : string)
  : LoopState :=
  let a := agent st in
  {| agent :=
       {| risk_history :=
            <[risk := incr sensor_name (default ∅ (risk_history a !! risk))]>
              (risk_history a);
          sensor_anomaly_counts := sensor_anomaly_counts a;
          total_anomalies := total_anomalies a |};
     risk_contributions :=
       <[risk := rc_get (risk_contributions st) risk ++ [sensor_name]]>
         (risk_contributions st);
     sensor_contribs := assoc_incr2 sensor_name risk (sensor_contribs st) |}.

(** The body of [for sensor_name in self.SENSOR_RISK_MAP.keys()]. *)
Definition visit_sensor (sensor_data : DataFrame) (sample : list (string * pyfloat))
    (st : LoopState) (sensor_name : string) : LoopState :=
  match assoc sensor_name sample with
  | None => st
  | Some sensor_value =>
      if _is_sensor_anomalous sensor_name sensor_value sensor_data then
        let a := agent st in
        let st1 :=
          {| agent :=
               {| risk_history := risk_history a;
                  sensor_anomaly_counts := incr sensor_name (sensor_anomaly_counts a);
                  total_anomalies := S (total_anomalies a) |};
             risk_contributions := risk_contributions st;
             sensor_contribs := sensor_contribs st |} in
        let risks := default [] (assoc sensor_name SENSOR_RISK_MAP) in
        foldl (record_risk sensor_name) st1 risks
      else st
  end.

(** [for idx in anomalous_indices]; an index past the frame raises, with the
    updates made so far kept. *)
Fixpoint analyze (sensor_data : DataFrame) (anomalous_indices : list nat)
    (st : LoopState) : LoopState * option exn :=
  match anomalous_indices with
  | [] => (st, None)
  | idx :: rest =>
      match iloc sensor_data idx with
      | Raise e => (st, Some e)
      | Ok sample =>
          analyze sensor_data rest
            (foldl (visit_sensor sensor_data sample) st (fst <$> SENSOR_RISK_MAP))
      end
  end.

(** [map_anomalies_to_risks]: the agent after the call and the returned
    dictionary. The [except Exception] branch prints and returns the empty
    mapping. *)
Definition map_anomalies_to_risks (self : RiskMappingAgent) (anomaly_data : AnomalyData)
  : RiskMappingAgent * RiskMappingResult :=
  let predictions := default (VIntArr []) (predictions anomaly_data) in
  match sensor_data anomaly_data with
  | None => (self, _empty_risk_mapping)
  | Some sensor_data =>
      match eq_1 predictions with
      | None => (self, _empty_risk_mapping)
      | Some is_1 =>
          if Nat.eqb (length is_1) 0 then (self, _empty_risk_mapping)
          else
            let anomalous_indices := np_where 0 is_1 in
            if Nat.eqb (length anomalous_indices) 0 then (self, _empty_risk_mapping)
            else
              let st0 :=
                {| agent := self; risk_contributions := ∅; sensor_contribs := [] |} in
              match analyze sensor_data anomalous_indices st0 with
              | (st, Some e) => (agent st, _empty_risk_mapping)
              | (st, None) =>
                  let rc := risk_contributions st in
                  let risk_distribution := _calculate_risk_distribution rc in
                  let majority_risk := _identify_majority_risk risk_distribution rc in
                  let sensor_contribution_details :=
                    _get_sensor_contributions (sensor_contribs st) in
                  let risk_details := _get_risk_details rc in
                  (agent st,
                   {| distribution := risk_distribution;
                      majority_risk := majority_risk;
                      sensor_contributions := sensor_contribution_details;
                      risk_details := risk_details;
                      total_anomalies_analyzed := length anomalous_indices |})
              end
      end
  end.

End Mapper.

End RiskMapping.

(* ================================================================== *)
(** ** agents.py: risk levels and the cyber risk agent *)
(* ================================================================== *)

Inductive RiskLevel : Type := LOW | MEDIUM | HIGH | CRITICAL.

Definition value (r : RiskLevel) : string :=
  match r with
  | LOW => "low"
  | MEDIUM => "medium"
  | HIGH => "high"
  | CRITICAL => "critical"
  end.

Module Cyber.
Import Py.

(** [self.prob_thresholds], a dictionary literal with three keys. *)
Record Thresholds : Type := { low : Q; medium : Q; high : Q }.

Record CyberRiskAssessmentAgent : Type := { prob_thresholds : Thresholds }.

Definition __init__ : CyberRiskAssessmentAgent :=
  {| prob_thresholds := {| low := 0.3; medium := 0.6; high := 0.85 |} |}.

Record CyberAssessment : Type := {
  cyber_risk_score : pyfloat;
  risk_level : string;
  avg_attack_probability : pyfloat;
  max_attack_probability : Q;
  anomaly_count : Z;
  anomaly_rate : pyfloat;
  temporal_risk : pyfloat;
  attack_signature : string;
  threat_assessment : string
}.

Definition _calculate_cyber_risk_score (avg_prob anomaly_rate temporal_risk : pyfloat)
  : pyfloat :=
  let score :=
    fadd (fadd (fmul (Fin 0.4) avg_prob) (fmul (Fin 0.3) anomaly_rate))
         (fmul (Fin 0.3) temporal_risk) in
  py_min (Fin 1) score.

(** The [for flag in anomaly_flags] loop, from the given counters. *)
Fixpoint temporal_loop (anomaly_flags : list bool)
    (consecutive_count max_consecutive : nat) : nat :=
  match anomaly_flags with
  | [] => max_consecutive
  | flag :: rest =>
      if flag then
        let consecutive_count := S consecutive_count in
        temporal_loop rest consecutive_count (Nat.max max_consecutive consecutive_count)
      else temporal_loop rest 0 max_consecutive
  end.

Definition _analyze_temporal_pattern (anomaly_flags : list bool) : pyfloat :=
  if Nat.ltb (length anomaly_flags) 10 then Fin 0
  else
    let max_consecutive := temporal_loop anomaly_flags 0 0 in
    let temporal_risk := py_min (Fin 1) (Fin (inject_Z (Z.of_nat max_consecutive) / 10)) in
    temporal_risk.

Definition _classify_risk_level (self : CyberRiskAssessmentAgent) (score : pyfloat)
  : RiskLevel :=
  if flt score (Fin (low (prob_thresholds self))) then LOW
  else if flt score (Fin (medium (prob_thresholds self))) then MEDIUM
  else if flt score (Fin (high (prob_thresholds self))) then HIGH
  else CRITICAL.

Definition _identify_attack_pattern (anomaly_flags : list bool) (attack_probs : list Q)
  : result string :=
  let anomaly_rate := np_mean_flags anomaly_flags in
  avg_prob ← (if np_any anomaly_flags
              then selected ← bool_index attack_probs anomaly_flags; Ok (np_mean selected)
              else Ok (Fin 0));
  if fgt anomaly_rate (Fin 0.8) then Ok "Persistent Attack"
  else if fgt anomaly_rate (Fin 0.5) then Ok "Intermittent Attack"
  else if fgt avg_prob (Fin 0.9) then Ok "Targeted Attack"
  else if fgt anomaly_rate (Fin 0.1) then Ok "Sporadic Anomalies"
  else Ok "Normal Operation".

Definition _generate_threat_assessment (risk_level : RiskLevel) (attack_signature : string)
  : string :=
  match risk_level with
  | LOW => "Minimal cyber threat detected. " ++ attack_signature ++ "."
  | MEDIUM => "Moderate cyber risk. " ++ attack_signature ++ ". Monitor closely."
  | HIGH => "High cyber threat level! " ++ attack_signature
              ++ ". Immediate attention required."
  | CRITICAL => "CRITICAL CYBER ATTACK! " ++ attack_signature
                  ++ ". Activate incident response!"
  end.

Definition assess_risk (self : CyberRiskAssessmentAgent)
    (detection_results : gmap string pyval) (timestamps : option (list string))
  : result CyberAssessment :=
  attack_probs ← getitem detection_results "attack_probability" ≫= as_floats;
  anomaly_flags ← getitem detection_results "anomaly_detected" ≫= as_bools;
  let avg_attack_prob := np_mean attack_probs in
  max_attack_prob ← np_max attack_probs;
  let num_anomalies := np_sum_flags anomaly_flags in
  let anomaly_rate := np_mean_flags anomaly_flags in
  let temporal_risk_score :=
    match timestamps with
    | Some ts =>
        if Nat.ltb 1 (length ts) then _analyze_temporal_pattern anomaly_flags else Fin 0
    | None => Fin 0
    end in
  let cyber_risk_score :=
    _calculate_cyber_risk_score avg_attack_prob anomaly_rate temporal_risk_score in
  let risk_level := _classify_risk_level self cyber_risk_score in
  attack_signature ← _identify_attack_pattern anomaly_flags attack_probs;
  Ok {| cyber_risk_score := cyber_risk_score;
        risk_level := value risk_level;
        avg_attack_probability := avg_attack_prob;
        max_attack_probability := max_attack_prob;
        anomaly_count := num_anomalies;
        anomaly_rate := anomaly_rate;
        temporal_risk := temporal_risk_score;
        attack_signature := attack_signature;
        threat_assessment := _generate_threat_assessment risk_level attack_signature |}.

End Cyber.

(* ================================================================== *)
(** ** agents.py: the operational risk agent *)
(* ================================================================== *)

Module Operational.
Import Py.

Record OperationalRiskAssessmentAgent : Type := {
  risk_matrix : list ((string * string) * Q)
}.

Definition __init__ : OperationalRiskAssessmentAgent :=
  {| risk_matrix :=
       [ (("low", "low"), 0.1%Q); (("low", "medium"), 0.2%Q); (("low", "high"), 0.4%Q);
         (("medium", "low"), 0.3%Q); (("medium", "medium"), 0.5%Q);
         (("medium", "high"), 0.7%Q);
         (("high", "low"), 0.5%Q); (("high", "medium"), 0.7%Q);
         (("high", "high"), 0.9%Q) ] |}.

Record OperationalAssessment : Type := {
  operational_risk_score : Q;
  risk_level : string;
  fault_severity : string;
  impact_level : string;
  likelihood : string;
  affected_systems : list string;
  estimated_downtime_minutes : Z;
  safety_impact : string;
  performance_degradation : string;
  mitigation_priority : Z
}.

(** [d.get((a, b), default)] on a dictionary keyed by pairs of strings. *)
Fixpoint get2 {V : Type} (d : list ((string * string) * V)) (k : string * string)
    (default : V) : V :=
  match d with
  | [] => default
  | (k', v) :: t =>
      if (String.eqb k.1 k'.1 && String.eqb k.2 k'.2)%bool then v else get2 t k default
  end.

Definition _assess_impact (anomaly_rate : pyfloat) (num_anomalies : Z) : string :=
  if (fgt anomaly_rate (Fin 0.7) || (1000 <? num_anomalies)%Z)%bool then "high"
  else if (fgt anomaly_rate (Fin 0.3) || (100 <? num_anomalies)%Z)%bool then "medium"
  else "low".

Definition _calculate_operational_risk (self : OperationalRiskAssessmentAgent)
    (likelihood impact : string) : Q :=
  let normalized_likelihood :=
    if String.eqb likelihood "low" then "low"
    else if String.eqb likelihood "medium" then "medium"
    else if String.eqb likelihood "high" then "high"
    else if String.eqb likelihood "critical" then "high"
    else "medium" in
  get2 (risk_matrix self) (normalized_likelihood, impact) 0.5%Q.

Definition _assess_fault_severity (risk_score : Q) (anomaly_rate : pyfloat) : string :=
  let combined_score := fdiv (fadd (Fin risk_score) anomaly_rate) (Fin 2) in
  if fgt combined_score (Fin 0.8) then "Critical"
  else if fgt combined_score (Fin 0.6) then "High"
  else if fgt combined_score (Fin 0.3) then "Medium"
  else "Low".

Definition _identify_affected_systems (num_anomalies : Z) (anomaly_rate : pyfloat)
  : list string :=
  let affected := [] in
  let affected :=
    if fgt anomaly_rate (Fin 0.5)
    then affected ++ ["Primary Treatment"; "Distribution System"] else affected in
  let affected :=
    if (500 <? num_anomalies)%Z then affected ++ ["Control System"] else affected in
  let affected :=
    if fgt anomaly_rate (Fin 0.8) then affected ++ ["Safety Systems"] else affected in
  match affected with
  | [] => ["Monitoring Systems"]
  | _ => affected
  end.

Definition _estimate_downtime (severity impact : string) : Z :=
  let downtime_map :=
    [ (("Critical", "high"), 240%Z); (("Critical", "medium"), 120%Z);
      (("High", "high"), 120%Z); (("High", "medium"), 60%Z);
      (("Medium", "high"), 60%Z); (("Medium", "medium"), 30%Z) ] in
  get2 downtime_map (severity, impact) 15%Z.

Definition _assess_safety_impact (risk_score : Q) : string :=
  if Qltb 0.8 risk_score then "Severe - Immediate safety concerns"
  else if Qltb 0.6 risk_score then "Moderate - Safety monitoring required"
  else if Qltb 0.3 risk_score then "Minor - Standard safety protocols"
  else "Minimal - No safety concerns".

Definition _assess_performance_impact (anomaly_rate : pyfloat) : string :=
  let degradation := fmul anomaly_rate (Fin 100) in
  format_1f degradation ++ "% performance degradation".

Definition _determine_priority (risk_score : Q) (severity : string) : Z :=
  if (String.eqb severity "Critical" || Qltb 0.8 risk_score)%bool then 1%Z
  else if (String.eqb severity "High" || Qltb 0.6 risk_score)%bool then 2%Z
  else if (String.eqb severity "Medium" || Qltb 0.4 risk_score)%bool then 3%Z
  else 4%Z.

Definition _classify_risk_level (score : Q) : RiskLevel :=
  if Qltb score 0.3 then LOW
  else if Qltb score 0.6 then MEDIUM
  else if Qltb score 0.85 then HIGH
  else CRITICAL.

Definition assess_risk (self : OperationalRiskAssessmentAgent)
    (detection_results : gmap string pyval) (cyber_risk : Cyber.CyberAssessment)
  : result OperationalAssessment :=
  anomaly_rate ← getitem detection_results "anomaly_rate" ≫= as_float;
  num_anomalies ← getitem detection_results "num_anomalies" ≫= as_int;
  let impact_level := _assess_impact anomaly_rate num_anomalies in
  let likelihood := Cyber.risk_level cyber_risk in
  let op_risk_score := _calculate_operational_risk self likelihood impact_level in
  let fault_severity := _assess_fault_severity op_risk_score anomaly_rate in
  let affected_systems := _identify_affected_systems num_anomalies anomaly_rate in
  let estimated_downtime := _estimate_downtime fault_severity impact_level in
  Ok {| operational_risk_score := op_risk_score;
        risk_level := value (_classify_risk_level op_risk_score);
        fault_severity := fault_severity;
        impact_level := impact_level;
        likelihood := likelihood;
        affected_systems := affected_systems;
        estimated_downtime_minutes := estimated_downtime;
        safety_impact := _assess_safety_impact op_risk_score;
        performance_degradation := _assess_performance_impact anomaly_rate;
        mitigation_priority := _determine_priority op_risk_score fault_severity |}.

End Operational.

(* ================================================================== *)
(** ** agents.py: the decision agent *)
(* ================================================================== *)

Module Decision.
Import Py.

(** [self.action_library] and [self.stage_actions], dictionary literals read
    only with their literal keys. *)
Record ActionLibrary : Type := {
  critical_cyber : list string;
  high_cyber : list string;
  critical_operational : list string;
  high_operational : list string;
  medium_risk : list string;
  low_risk : list string
}.

Record StageActions : Type := {
  P1 : list string; P2 : list string; P3 : list string;
  P4 : list string; P5 : list string; P6 : list string
}.

Record DecisionMakingAgent : Type := {
  action_library : ActionLibrary;
  stage_actions : StageActions
}.

Definition __init__ : DecisionMakingAgent :=
  {| action_library :=
       {| critical_cyber :=
            [ "Isolate affected network segments";
              "Activate incident response team";
              "Switch to backup control system";
              "Initiate emergency shutdown protocol";
              "Preserve logs for forensic analysis" ];
          high_cyber :=
            [ "Increase monitoring frequency";
              "Restrict remote access";
              "Verify actuator commands";
              "Alert security operations center" ];
          critical_operational :=
            [ "Emergency shutdown of affected stages";
              "Activate backup water supply";
              "Notify emergency response team";
              "Implement manual override controls";
              "Evacuate non-essential personnel" ];
          high_operational :=
            [ "Reduce process throughput";
              "Activate redundant systems";
              "Increase operator supervision";
              "Prepare for manual intervention" ];
          medium_risk :=
            [ "Continue enhanced monitoring";
              "Log anomalies for analysis";
              "Notify maintenance team";
              "Schedule system inspection" ];
          low_risk :=
            [ "Standard monitoring protocols";
              "Document anomaly in system logs" ] |};
     stage_actions :=
       {| P1 := ["Close inlet valve MV101"; "Stop pumps P101/P102"];
          P2 := ["Isolate chemical dosing"; "Stop dosing pumps"];
          P3 := ["Bypass ultrafiltration"; "Activate backwash"];
          P4 := ["Switch to backup UV system"; "Adjust dechlorination"];
          P5 := ["Reduce RO pressure"; "Activate membrane protection"];
          P6 := ["Close distribution valves"; "Activate storage tanks"] |} |}.

Record ActionPriority : Type := {
  immediate : list string;
  short_term : list string;
  ongoing : list string
}.

Record Decisions : Type := {
  primary_threat : string;
  recommended_actions : list string;
  stage_specific_actions : list string;
  action_priority : ActionPriority;
  response_timeline : string;
  requires_human_approval : bool;
  estimated_resolution_time : Z;
  decision_rationale : string;
  emergency_contacts : list string
}.

Definition risk_scores_get (level : string) : Z :=
  if String.eqb level "low" then 1
  else if String.eqb level "medium" then 2
  else if String.eqb level "high" then 3
  else if String.eqb level "critical" then 4
  else 0.

Definition _identify_primary_threat (cyber_risk operational_risk : string) : string :=
  let cyber_score := risk_scores_get cyber_risk in
  let op_score := risk_scores_get operational_risk in
  if (op_score <? cyber_score)%Z then "Cyber Attack"
  else if (cyber_score <? op_score)%Z then "Operational Failure"
  else "Combined Cyber-Physical Threat".

(** The local [actions] of [_select_actions] just before it is returned. *)
Definition collect_actions (self : DecisionMakingAgent)
    (cyber_risk operational_risk fault_severity : string) : list string :=
  let actions := [] in
  let actions :=
    if String.eqb cyber_risk "critical"
    then actions ++ critical_cyber (action_library self)
    else if String.eqb cyber_risk "high"
    then actions ++ high_cyber (action_library self)
    else actions in
  if (String.eqb operational_risk "critical" || String.eqb fault_severity "Critical")%bool
  then actions ++ critical_operational (action_library self)
  else if (String.eqb operational_risk "high" || String.eqb fault_severity "High")%bool
  then actions ++ high_operational (action_library self)
  else if String.eqb operational_risk "medium"
  then actions ++ medium_risk (action_library self)
  else actions ++ low_risk (action_library self).

Definition _select_actions (self : DecisionMakingAgent)
    (cyber_risk operational_risk fault_severity : string) : list string :=
  dict_fromkeys (collect_actions self cyber_risk operational_risk fault_severity).

Definition contains (x : string) (l : list string) : bool := existsb (String.eqb x) l.

Definition _get_stage_actions (self : DecisionMakingAgent) (affected_systems : list string)
  : list string :=
  let acts := [] in
  let acts :=
    if contains "Primary Treatment" affected_systems
    then acts ++ P2 (stage_actions self) else acts in
  let acts :=
    if contains "Distribution System" affected_systems
    then acts ++ P6 (stage_actions self) else acts in
  let acts :=
    if contains "Control System" affected_systems
    then acts ++ ["Switch to manual control mode"] else acts in
  let acts :=
    if contains "Safety Systems" affected_systems
    then acts ++ ["Activate emergency safety protocols"] else acts in
  acts.

(** [actions[i:j]] and [actions[i:]]. *)
Definition slice (i j : nat) (l : list string) : list string := take (j - i) (drop i l).

Definition _prioritize_actions (actions : list string) (priority : Z) : ActionPriority :=
  let n := length actions in
  if (priority =? 1)%Z then
    {| immediate := if Nat.leb 3 n then slice 0 3 actions else actions;
       short_term := if Nat.ltb 3 n then slice 3 6 actions else [];
       ongoing := if Nat.ltb 6 n then drop 6 actions else [] |}
  else if (priority =? 2)%Z then
    {| immediate := if Nat.leb 2 n then slice 0 2 actions else actions;
       short_term := if Nat.ltb 2 n then slice 2 5 actions else [];
       ongoing := if Nat.ltb 5 n then drop 5 actions else [] |}
  else
    {| immediate := match actions with [] => [] | _ => slice 0 1 actions end;
       short_term := if Nat.ltb 1 n then slice 1 4 actions else [];
       ongoing := if Nat.ltb 4 n then drop 4 actions else [] |}.

Definition _calculate_response_timeline (cyber_risk operational_risk fault_severity : string)
  : string :=
  if (String.eqb cyber_risk "critical" || String.eqb operational_risk "critical")%bool
  then "IMMEDIATE (0-5 minutes)"
  else if (String.eqb cyber_risk "high" || String.eqb operational_risk "high"
           || String.eqb fault_severity "High")%bool
  then "URGENT (5-15 minutes)"
  else if (String.eqb cyber_risk "medium" || String.eqb operational_risk "medium")%bool
  then "PRIORITY (15-60 minutes)"
  else "STANDARD (1-24 hours)".

Definition _requires_human_approval (cyber_risk operational_risk : string) : bool :=
  (String.eqb cyber_risk "critical" || String.eqb operational_risk "critical")%bool.

Definition _generate_rationale (primary_threat : string)
    (cyber_assessment : Cyber.CyberAssessment)
    (operational_assessment : Operational.OperationalAssessment) : string :=
  let rationale := ("Decision based on " ++ lower primary_threat ++ ". ")%string in
  let rationale :=
    if contains (Cyber.risk_level cyber_assessment) ["high"; "critical"]
    then (rationale ++ "Cyber threat detected: "
            ++ Cyber.attack_signature cyber_assessment ++ ". ")%string
    else rationale in
  let rationale :=
    if contains (Operational.risk_level operational_assessment) ["high"; "critical"]
    then ((rationale ++ "Operational impact: "
             ++ Operational.fault_severity operational_assessment ++ " severity, ")
            ++ Operational.performance_degradation operational_assessment ++ ". ")%string
    else rationale in
  (rationale ++ "Estimated recovery: "
     ++ pretty (Operational.estimated_downtime_minutes operational_assessment)
     ++ " minutes.")%string.

Definition _get_emergency_contacts (primary_threat : string) : list string :=
  if String.eqb primary_threat "Cyber Attack" then
    ["Security Operations Center"; "IT Incident Response Team"; "Plant Manager"]
  else if String.eqb primary_threat "Operational Failure" then
    ["Plant Engineer"; "Maintenance Team"; "Safety Officer"]
  else if String.eqb primary_threat "Combined Cyber-Physical Threat" then
    ["Emergency Response Team"; "Plant Manager"; "Security Team"; "Safety Officer"]
  else ["Plant Manager"].

Definition decide (self : DecisionMakingAgent)
    (cyber_assessment : Cyber.CyberAssessment)
    (operational_assessment : Operational.OperationalAssessment) : Decisions :=
  let cyber_risk := Cyber.risk_level cyber_assessment in
  let operational_risk := Operational.risk_level operational_assessment in
  let fault_severity := Operational.fault_severity operational_assessment in
  let affected_systems := Operational.affected_systems operational_assessment in
  let primary_threat := _identify_primary_threat cyber_risk operational_risk in
  let recommended_actions :=
    _select_actions self cyber_risk operational_risk fault_severity in
  let stage_specific_actions := _get_stage_actions self affected_systems in
  let action_priority :=
    _prioritize_actions recommended_actions
      (Operational.mitigation_priority operational_assessment) in
  let response_timeline :=
    _calculate_response_timeline cyber_risk operational_risk fault_severity in
  let rationale :=
    _generate_rationale primary_threat cyber_assessment operational_assessment in
  {| primary_threat := primary_threat;
     recommended_actions := recommended_actions;
     stage_specific_actions := stage_specific_actions;
     action_priority := action_priority;
     response_timeline := response_timeline;
     requires_human_approval := _requires_human_approval cyber_risk operational_risk;
     estimated_resolution_time :=
       Operational.estimated_downtime_minutes operational_assessment;
     decision_rationale := rationale;
     emergency_contacts := _get_emergency_contacts primary_threat |}.

End Decision.

(* ================================================================== *)
(** ** agents.py: the fault detection agent *)
(* ================================================================== *)

Module FaultDetection.
Import Py.

(** The preprocessed matrix [X]: one row of features per sample. *)
Definition Features : Type := list (list Q).

(** The fitted scikit-learn classifier, library code seen through the two
    methods [detect] calls. [predict_proba] answers one row of class
    probabilities per sample. *)
Record Classifier : Type := {
  predict : Features -> result (list Z);
  predict_proba : Features -> result (list (list Q))
}.

Record FaultDetectionAgent : Type := {
  model : option Classifier;
  threshold : Q
}.

Definition __init__ : FaultDetectionAgent := {| model := None; threshold := 0.5 |}.

(** [a[:, 1]]. *)
Fixpoint column_1 (a : list (list Q)) : result (list Q) :=
  match a with
  | [] => Ok []
  | row :: rest =>
      match row !! 1%nat with
      | Some p => t ← column_1 rest; Ok (p :: t)
      | None => Raise (IndexError "index 1 is out of bounds for axis 1")
      end
  end.

(** [np.max(a, axis=1)]. *)
Fixpoint row_max (a : list (list Q)) : result (list Q) :=
  match a with
  | [] => Ok []
  | row :: rest => m ← np_max row; t ← row_max rest; Ok (m :: t)
  end.

Definition detect (self : FaultDetectionAgent) (X : Features)
  : result (gmap string pyval) :=
  match model self with
  | None => Raise (ValueError "Model not trained. Call train() or load_model() first.")
  | Some model =>
      y_pred ← predict model X;
      y_prob ← predict_proba model X ≫= column_1;
      let anomaly_flags := (fun y => Z.eqb y 1) <$> y_pred in
      confidence ← predict_proba model X ≫= row_max;
      Ok (<["anomaly_detected" := VBoolArr anomaly_flags]>
          (<["attack_probability" := VFloatArr y_prob]>
          (<["predictions" := VIntArr y_pred]>
          (<["confidence" := VFloatArr confidence]>
          (<["num_anomalies" := VInt (np_sum_flags anomaly_flags)]>
          (<["anomaly_rate" := VFloat (np_mean_flags anomaly_flags)]> ∅))))))
  end.

End FaultDetection.

(* ================================================================== *)
(** ** agents.py: the coordinator *)
(* ================================================================== *)

Module Coordination.
Import Py.

(** What [process_data] asks of the registered collaborators: one method
    each. *)
Class PerceptionLike (P : Type) :=
  preprocess : P -> RiskMapping.DataFrame
               -> result (FaultDetection.Features * option (list string)).
Class DetectorLike (D : Type) :=
  detect : D -> FaultDetection.Features -> result (gmap string pyval).
Class CyberLike (C : Type) :=
  cyber_assess_risk : C -> gmap string pyval -> option (list string)
                      -> result Cyber.CyberAssessment.
Class OperationalLike (O : Type) :=
  operational_assess_risk : O -> gmap string pyval -> Cyber.CyberAssessment
                            -> result Operational.OperationalAssessment.
Class DecisionLike (K : Type) :=
  decide : K -> Cyber.CyberAssessment -> Operational.OperationalAssessment
           -> result Decision.Decisions.
(** The mapper keeps counters: the call also answers the mapper afterwards. *)
Class RiskMapperLike (M : Type) :=
  map_anomalies_to_risks : M -> RiskMapping.AnomalyData
                           -> result RiskMapping.RiskMappingResult * M.

#[export] Instance FaultDetectionAgent_detects : DetectorLike FaultDetection.FaultDetectionAgent :=
  FaultDetection.detect.
#[export] Instance CyberRiskAssessmentAgent_assesses : CyberLike Cyber.CyberRiskAssessmentAgent :=
  Cyber.assess_risk.
#[export] Instance OperationalRiskAssessmentAgent_assesses
  : OperationalLike Operational.OperationalRiskAssessmentAgent :=
  Operational.assess_risk.
#[export] Instance DecisionMakingAgent_decides : DecisionLike Decision.DecisionMakingAgent :=
  fun self c o => Ok (Decision.decide self c o).

Record LogEntry : Type := {
  timestamp : string;
  level : string;
  message : string
}.

Record SuccessResult : Type := {
  s_system_state : string;
  detection_results : gmap string pyval;
  cyber_assessment : Cyber.CyberAssessment;
  operational_assessment : Operational.OperationalAssessment;
  decisions : Decision.Decisions;
  s_execution_log : list LogEntry;
  risk_mapping : option RiskMapping.RiskMappingResult
}.

Record ErrorResult : Type := {
  e_system_state : string;
  error : string;
  e_execution_log : list LogEntry
}.

(** The returned dictionary, by its ['status']. *)
Inductive PipelineResult : Type :=
| SUCCESS (r : SuccessResult)
| ERROR (r : ErrorResult).

Section Coordinator.

Context {P D C O K M : Type}.
Context `{!PerceptionLike P, !DetectorLike D, !CyberLike C,
          !OperationalLike O, !DecisionLike K, !RiskMapperLike M}.

(** [datetime.now().isoformat()] when the log already holds [n] entries. *)
Variable now : nat -> string.

Record CoordinationAgent : Type := {
  perception_agent : option P;
  fault_detection_agent : option D;
  cyber_risk_agent : option C;
  operational_risk_agent : option O;
  decision_agent : option K;
  risk_mapping_agent : option M;
  execution_log : list LogEntry;
  system_state : string
}.

Definition __init__ : CoordinationAgent :=
  {| perception_agent := None; fault_detection_agent := None;
     cyber_risk_agent := None; operational_risk_agent := None;
     decision_agent := None; risk_mapping_agent := None;
     execution_log := []; system_state := "INITIALIZED" |}.

Definition _log_event (self : CoordinationAgent) (message level : string)
  : CoordinationAgent :=
  let log_entry :=
    {| timestamp := now (length (execution_log self));
       level := level; message := message |} in
  {| perception_agent := perception_agent self;
     fault_detection_agent := fault_detection_agent self;
     cyber_risk_agent := cyber_risk_agent self;
     operational_risk_agent := operational_risk_agent self;
     decision_agent := decision_agent self;
     risk_mapping_agent := risk_mapping_agent self;
     execution_log := execution_log self ++ [log_entry];
     system_state := system_state self |}.

Definition set_system_state (self : CoordinationAgent) (s : string) : CoordinationAgent :=
  {| perception_agent := perception_agent self;
     fault_detection_agent := fault_detection_agent self;
     cyber_risk_agent := cyber_risk_agent self;
     operational_risk_agent := operational_risk_agent self;
     decision_agent := decision_agent self;
     risk_mapping_agent := risk_mapping_agent self;
     execution_log := execution_log self;
     system_state := s |}.

Definition set_risk_mapping_agent (self : CoordinationAgent) (m : M) : CoordinationAgent :=
  {| perception_agent := perception_agent self;
     fault_detection_agent := fault_detection_agent self;
     cyber_risk_agent := cyber_risk_agent self;
     operational_risk_agent := operational_risk_agent self;
     decision_agent := decision_agent self;
     risk_mapping_agent := Some m;
     execution_log := execution_log self;
     system_state := system_state self |}.

(** Every argument may be [None]: Python checks nothing at registration. *)
Definition register_agents (self : CoordinationAgent)
    (perception : option P) (fault_detection : option D) (cyber_risk : option C)
    (operational_risk : option O) (decision_making : option K)
    (risk_mapping : option M) : CoordinationAgent :=
  let self :=
    {| perception_agent := perception;
       fault_detection_agent := fault_detection;
       cyber_risk_agent := cyber_risk;
       operational_risk_agent := operational_risk;
       decision_agent := decision_making;
       risk_mapping_agent := risk_mapping;
       execution_log := execution_log self;
       system_state := "READY" |} in
  _log_event self "All agents registered" "INFO".

(** [agent.method(...)] on an attribute that may still be [None]. *)
Definition call {A B : Type} (agent : option A) (method : string) (f : A -> result B)
  : result B :=
  match agent with
  | Some a => f a
  | None => Raise (none_has_no method)
  end.

(** The statements of the [try] block up to [decisions]. *)
Definition mandatory_chain (self : CoordinationAgent) (raw_data : RiskMapping.DataFrame)
  : result (gmap string pyval * Cyber.CyberAssessment
            * Operational.OperationalAssessment * Decision.Decisions) :=
  '(X_processed, timestamps) ←
    call (perception_agent self) "preprocess" (fun a => preprocess a raw_data);
  detection_results ←
    call (fault_detection_agent self) "detect" (fun a => detect a X_processed);
  cyber_assessment ←
    call (cyber_risk_agent self) "assess_risk"
      (fun a => cyber_assess_risk a detection_results timestamps);
  operational_assessment ←
    call (operational_risk_agent self) "assess_risk"
      (fun a => operational_assess_risk a detection_results cyber_assessment);
  decisions ←
    call (decision_agent self) "decide"
      (fun a => decide a cyber_assessment operational_assessment);
  Ok (detection_results, cyber_assessment, operational_assessment, decisions).

(** The call inside the inner [try]: the argument dictionary is built key by
    key, then handed to the mapper. *)
Definition invoke_risk_mapper (m : M) (detection_results : gmap string pyval)
    (raw_data : RiskMapping.DataFrame) : result RiskMapping.RiskMappingResult * M :=
  match getitem detection_results "predictions" with
  | Raise e => (Raise e, m)
  | Ok predictions =>
      match getitem detection_results "attack_probabilities" with
      | Raise e => (Raise e, m)
      | Ok attack_probabilities =>
          map_anomalies_to_risks m
            {| RiskMapping.predictions := Some predictions;
               RiskMapping.attack_probabilities := Some attack_probabilities;
               RiskMapping.sensor_data := Some raw_data |}
      end
  end.

(** [if self.risk_mapping_agent: try: ... except Exception as e: ...]. *)
Definition risk_mapping_step (self : CoordinationAgent)
    (detection_results : gmap string pyval) (raw_data : RiskMapping.DataFrame)
  : CoordinationAgent * option RiskMapping.RiskMappingResult :=
  match risk_mapping_agent self with
  | None => (self, None)
  | Some m =>
      match invoke_risk_mapper m detection_results raw_data with
      | (Ok risk_mapping_results, m') =>
          (_log_event (set_risk_mapping_agent self m') "Risk mapping completed" "INFO",
           Some risk_mapping_results)
      | (Raise e, m') =>
          (_log_event (set_risk_mapping_agent self m')
             ("Risk mapping error: " ++ str e) "WARNING",
           None)
      end
  end.

Definition process_data (self : CoordinationAgent) (raw_data : RiskMapping.DataFrame)
  : CoordinationAgent * PipelineResult :=
  let self := _log_event self "Starting data processing pipeline" "INFO" in
  let self := set_system_state self "PROCESSING" in
  match mandatory_chain self raw_data with
  | Ok (detection_results, cyber_assessment, operational_assessment, decisions) =>
      let '(self, risk_mapping_results) :=
        risk_mapping_step self detection_results raw_data in
      let self := set_system_state self "COMPLETED" in
      let self := _log_event self "Pipeline completed successfully" "SUCCESS" in
      (self,
       SUCCESS {| s_system_state := system_state self;
                  detection_results := detection_results;
                  cyber_assessment := cyber_assessment;
                  operational_assessment := operational_assessment;
                  decisions := decisions;
                  s_execution_log := execution_log self;
                  risk_mapping := risk_mapping_results |})
  | Raise e =>
      let self := set_system_state self "ERROR" in
      let self := _log_event self ("Pipeline error: " ++ str e) "ERROR" in
      (self,
       ERROR {| e_system_state := system_state self;
                error := str e;
                e_execution_log := execution_log self |})
  end.

Definition get_system_status (self : CoordinationAgent) : string := system_state self.

End Coordinator.

End Coordination.

(* ================================================================== *)
(** ** Specification vocabulary and example inputs *)
(* ================================================================== *)

Module Spec.
Import Py.

(** [flags] holds [n] consecutive positive labels starting at some index. *)
Definition has_run (flags : list bool) (n : nat) : Prop :=
  exists i : nat, forall j : nat, (j < n)%nat -> flags !! (i + j)%nat = Some true.

(** [n] is the length of the longest run of consecutive positive labels. *)
Definition longest_run (flags : list bool) (n : nat) : Prop :=
  has_run flags n /\ forall m : nat, has_run flags m -> (m <= n)%nat.

(** Timestamps were passed and hold more than one entry. *)
Definition timestamps_supplied (timestamps : option (list string)) : bool :=
  match timestamps with
  | Some ts => Nat.ltb 1 (length ts)
  | None => false
  end.

(** The position of the first occurrence of [x] in [l]. *)
Fixpoint first_index (x : string) (l : list string) : option nat :=
  match l with
  | [] => None
  | y :: t => if String.eqb x y then Some 0%nat else S <$> first_index x t
  end.

(** A detection dictionary holding the two arrays the cyber agent reads and
    the two batch statistics the operational agent reads. *)
Definition detection_of (flags : list bool) (probs : list Q) : gmap string pyval :=
  <["anomaly_detected" := VBoolArr flags]>
  (<["attack_probability" := VFloatArr probs]>
  (<["num_anomalies" := VInt (np_sum_flags flags)]>
  (<["anomaly_rate" := VFloat (np_mean_flags flags)]> ∅))).

(** Twenty samples, the longest run of positives being seven. *)
Definition flags_20_run_7 : list bool :=
  [false; true; true; true; true; true; true; true; false; true;
   true; false; false; true; true; true; false; false; false; false].

Definition probs_20 : list Q := repeat 0.5%Q 20.

Definition stamps (n : nat) : list string := repeat "2015-12-28 10:00:00" n.

(** A hundred samples, 85 of them positive, the longest run being twelve. *)
Definition flags_100 : list bool :=
  replicate 12 true ++ [false]
    ++ concat (replicate 12 (replicate 6 true ++ [false]))
    ++ [true; false; false].

(** Every sample at probability 0.9. *)
Definition probs_100_flat : list Q := replicate 100 0.9%Q.

(** Positive samples at 0.9 and negative ones at 0.1. *)
Definition probs_100_split : list Q :=
  (fun b : bool => if b then 0.9%Q else 0.1%Q) <$> flags_100.

(** *** Reference instances for the library parameters of the mapper *)

Definition finite_cells (col : list pyfloat) : list Q :=
  omap (fun c => match c with Fin q => Some q | NaN => None end) col.

(** pandas' [Series.mean]: missing cells are skipped. *)
Definition pandas_mean (col : list pyfloat) : pyfloat := np_mean (finite_cells col).

(** The square root to fifteen decimals, exact on squares of such numbers. *)
Definition Qsqrt_15 (v : Q) : Q :=
  Z.sqrt (Qnum v * QDen v * 10 ^ 30) # (Qden v * 10 ^ 15).

(** pandas' [Series.std]: the sample deviation (one degree of freedom
    removed), NaN below two cells. *)
Definition pandas_std (col : list pyfloat) : pyfloat :=
  let xs := finite_cells col in
  match xs with
  | [] | [_] => NaN
  | _ =>
      let m := Qmean xs in
      let squares := (fun x => (x - m) * (x - m))%Q <$> xs in
      Fin (Qsqrt_15 (Qsum squares / inject_Z (Z.of_nat (length xs) - 1)))
  end.

(** One order [list(set(l))] may answer: that of first occurrence. *)
Definition first_seen_order (l : list string) : list string := dict_fromkeys l.

(** Nine rows; the level sensor reads 0 eight times and 9 in the last row
    (mean 1, sample deviation 3), the flow sensor never moves. *)
Definition frame_9 : RiskMapping.DataFrame :=
  {| RiskMapping.nrows := 9;
     RiskMapping.columns :=
       [ ("LIT-101", fun i : nat => if Nat.eqb i 8 then Fin 9 else Fin 0);
         ("FIT-101", fun _ : nat => Fin 2.5) ] |}.

(** Only the last row is labelled positive. *)
Definition last_row_positive : RiskMapping.AnomalyData :=
  {| RiskMapping.predictions := Some (VIntArr [0; 0; 0; 0; 0; 0; 0; 0; 1]%Z);
     RiskMapping.attack_probabilities := None;
     RiskMapping.sensor_data := Some frame_9 |}.

(** No row is labelled positive. *)
Definition no_row_positive : RiskMapping.AnomalyData :=
  {| RiskMapping.predictions := Some (VIntArr [0; 0; 0; 0; 0; 0; 0; 0; 0]%Z);
     RiskMapping.attack_probabilities := None;
     RiskMapping.sensor_data := Some frame_9 |}.

(** Every key of a contribution dictionary is one of the eight categories. *)
Definition within_categories (rc : gmap string (list string)) : Prop :=
  forall k : string, is_Some (rc !! k) -> k ∈ RiskMapping.RISK_CATEGORIES.

(** *** Example collaborators of the coordinator *)

(** A function of the raw frame serves as a perception agent, a function of
    the features as a detector, a function of the argument dictionary as a
    mapper without counters. *)
#[export] Instance perception_function
  : Coordination.PerceptionLike
      (RiskMapping.DataFrame -> result (FaultDetection.Features * option (list string))) :=
  fun f raw_data => f raw_data.
#[export] Instance detector_function
  : Coordination.DetectorLike (FaultDetection.Features -> result (gmap string pyval)) :=
  fun f X => f X.
#[export] Instance mapper_function
  : Coordination.RiskMapperLike
      (RiskMapping.AnomalyData -> result RiskMapping.RiskMappingResult) :=
  fun f anomaly_data => (f anomaly_data, f).

(** The mapper of [risk_mapping.py] on the reference instances: it catches
    its own exceptions. *)
#[export] Instance mapper_agent : Coordination.RiskMapperLike RiskMapping.RiskMappingAgent :=
  fun self anomaly_data =>
    let out :=
      RiskMapping.map_anomalies_to_risks pandas_mean pandas_std first_seen_order
        self anomaly_data in
    (Ok out.2, out.1).

Definition clock (n : nat) : string := "2015-12-28T10:00:00".

(** Three preprocessed rows with their timestamps. *)
Definition three_rows (raw_data : RiskMapping.DataFrame)
  : result (FaultDetection.Features * option (list string)) :=
  Ok ([[0%Q]; [0%Q]; [0%Q]], Some (stamps 3)).

(** A classifier that labels every row an attack at probability 0.9. *)
Definition always_attack : FaultDetection.Classifier :=
  {| FaultDetection.predict := fun X => Ok ((fun _ => 1%Z) <$> X);
     FaultDetection.predict_proba := fun X => Ok ((fun _ => [0.1%Q; 0.9%Q]) <$> X) |}.

Definition trained_detector : FaultDetection.FaultDetectionAgent :=
  {| FaultDetection.model := Some always_attack; FaultDetection.threshold := 0.5 |}.

(** A detector whose dictionary also holds the key the coordinator reads. *)
Definition detector_with_probabilities (X : FaultDetection.Features)
  : result (gmap string pyval) :=
  d ← FaultDetection.detect trained_detector X;
  Ok (<["attack_probabilities" := VFloatArr ((fun _ => 0.9%Q) <$> X)]> d).

(** A mapper that raises. *)
Definition failing_mapper (anomaly_data : RiskMapping.AnomalyData)
  : result RiskMapping.RiskMappingResult :=
  Raise (OtherError "sensor table unavailable").

(** A coordinator on which nothing was registered. *)
Definition fresh_coordinator
  : Coordination.CoordinationAgent
      (P := RiskMapping.DataFrame
            -> result (FaultDetection.Features * option (list string)))
      (D := FaultDetection.FaultDetectionAgent)
      (C := Cyber.CyberRiskAssessmentAgent)
      (O := Operational.OperationalRiskAssessmentAgent)
      (K := Decision.DecisionMakingAgent)
      (M := RiskMapping.RiskMappingAgent) :=
  Coordination.__init__.

(** The agents of the repository registered, the decision agent left out. *)
Definition coordinator_without_decision :=
  Coordination.register_agents clock fresh_coordinator
    (Some three_rows) (Some trained_detector) (Some Cyber.__init__)
    (Some Operational.__init__) None (Some RiskMapping.__init__).

(** The agents of the repository registered, the mapper included. *)
Definition coordinator_of_repository :=
  Coordination.register_agents clock fresh_coordinator
    (Some three_rows) (Some trained_detector) (Some Cyber.__init__)
    (Some Operational.__init__) (Some Decision.__init__) (Some RiskMapping.__init__).

(** A detector that answers the key the coordinator reads and a mapper that
    raises. *)
Definition coordinator_with_failing_mapper
  : Coordination.CoordinationAgent
      (P := RiskMapping.DataFrame
            -> result (FaultDetection.Features * option (list string)))
      (D := FaultDetection.Features -> result (gmap string pyval))
      (C := Cyber.CyberRiskAssessmentAgent)
      (O := Operational.OperationalRiskAssessmentAgent)
      (K := Decision.DecisionMakingAgent)
      (M := RiskMapping.AnomalyData -> result RiskMapping.RiskMappingResult) :=
  Coordination.register_agents clock Coordination.__init__
    (Some three_rows) (Some detector_with_probabilities) (Some Cyber.__init__)
    (Some Operational.__init__) (Some Decision.__init__) (Some failing_mapper).

(** The computation returned without raising. *)
Definition is_Ok {A : Type} (r : result A) : bool :=
  match r with
  | Ok _ => true
  | Raise _ => false
  end.

(** The ['error'] entry of a returned dictionary, when it has one. *)
Definition error_of (r : Coordination.PipelineResult) : option string :=
  match r with
  | Coordination.ERROR e => Some (Coordination.error e)
  | Coordination.SUCCESS _ => None
  end.

(** The contributions a returned mapping reports, over all categories. *)
Definition contributions_total (r : RiskMapping.RiskMappingResult) : nat :=
  foldr Nat.add 0%nat ((fun kv => RiskMapping.total kv.2) <$> RiskMapping.risk_details r).

(** The sum of the distribution values of a returned mapping. *)
Definition distribution_sum (r : RiskMapping.RiskMappingResult) : Q :=
  Qsum (snd <$> RiskMapping.distribution r).

End Spec.

From stdpp Require Import sorting.

(* ================================================================== *)
(** ** Vocabulary for the invariants of the agents *)
(* ================================================================== *)

Module Laws.
Import Py.

(** The sum of the values of a counter dictionary. *)
Definition counts_sum (m : gmap string nat) : nat :=
  map_fold (fun _ n acc => (n + acc)%nat) 0%nat m.

(** [self.sensor_anomaly_counts[sensor]], 0 when the sensor was never flagged. *)
Definition counts_get (a : RiskMapping.RiskMappingAgent) (sensor : string) : nat :=
  default 0%nat (RiskMapping.sensor_anomaly_counts a !! sensor).

(** [self.risk_history[risk][sensor]], 0 when either key is missing. *)
Definition history_get (a : RiskMapping.RiskMappingAgent) (risk sensor : string) : nat :=
  default 0%nat (default ∅ (RiskMapping.risk_history a !! risk) !! sensor).

(** [SENSOR_RISK_MAP.get(sensor, [])]. *)
Definition risks_of (sensor : string) : list string :=
  default [] (RiskMapping.assoc sensor RiskMapping.SENSOR_RISK_MAP).

(** The agent after a sequence of mapping calls. *)
Definition after_calls (series_mean series_std : list pyfloat -> pyfloat)
    (list_of_set : list string -> list string)
    (self : RiskMapping.RiskMappingAgent) (calls : list RiskMapping.AnomalyData)
  : RiskMapping.RiskMappingAgent :=
  foldl (fun a data =>
           (RiskMapping.map_anomalies_to_risks series_mean series_std list_of_set a data).1)
    self calls.

(** Every key of a contribution dictionary is a category of some sensor. *)
Definition keys_from_table (rc : gmap string (list string)) : Prop :=
  forall k : string, is_Some (rc !! k) -> exists sensor : string, k ∈ risks_of sensor.

(** The counts of a sensor list are listed largest first. *)
Definition counts_descending (l : list RiskMapping.SensorCount) : Prop :=
  StronglySorted
    (fun a b => (RiskMapping.sensor_count b <= RiskMapping.sensor_count a)%nat) l.

(** The number of times [r] is listed in [risks]. *)
Definition occurrences (r : string) (risks : list string) : nat :=
  length (filter (fun x => x = r) risks).

(** The three counters agree: the per-sensor counts add up to the total, and
    a category's history counts a sensor once per listing of the category in
    the sensor's row for each time the sensor was flagged. *)
Definition counters_agree (a : RiskMapping.RiskMappingAgent) : Prop :=
  counts_sum (RiskMapping.sensor_anomaly_counts a) = RiskMapping.total_anomalies a /\
  forall risk sensor : string,
    history_get a risk sensor
    = (occurrences risk (risks_of sensor) * counts_get a sensor)%nat.

(** The counter that [_get_risk_details] builds from a category's sensors. *)
Definition counts_of (sensors : list string) : list (string * nat) :=
  foldl (fun acc s => RiskMapping.assoc_incr s acc) [] sensors.

Definition count_ge (a b : string * nat) : Prop := (b.2 <= a.2)%nat.

(** The mapping built from the loop state of a run that did not raise. *)
Definition mapping_of (list_of_set : list string -> list string)
    (st : RiskMapping.LoopState) (analyzed : nat) : RiskMapping.RiskMappingResult :=
  let rc := RiskMapping.risk_contributions st in
  {| RiskMapping.distribution := RiskMapping._calculate_risk_distribution rc;
     RiskMapping.majority_risk :=
       RiskMapping._identify_majority_risk list_of_set
         (RiskMapping._calculate_risk_distribution rc) rc;
     RiskMapping.sensor_contributions :=
       RiskMapping._get_sensor_contributions (RiskMapping.sensor_contribs st);
     RiskMapping.risk_details := RiskMapping._get_risk_details rc;
     RiskMapping.total_anomalies_analyzed := analyzed |}.

(** Each sensor is listed once, and its counter holds the categories of the
    sensor's row of the table, all at the same positive count. *)
Definition contribs_uniform (sc : list (string * list (string * nat))) : Prop :=
  NoDup (fst <$> sc) /\
  Forall (fun entry : string * list (string * nat) =>
            exists n : nat,
              (1 <= n)%nat /\
              entry.2 = (fun x => (x, n)) <$> risks_of entry.1 /\
              risks_of entry.1 <> [])
    sc.

(** The number of labels equal to 1. *)
Definition positives (labels : list Z) : nat :=
  length (filter (fun z => z = 1%Z) labels).

(** The coordinator after [process_data] was called on each frame in turn. *)
Definition after_runs {P D C O K M : Type}
    `{!Coordination.PerceptionLike P, !Coordination.DetectorLike D,
      !Coordination.CyberLike C, !Coordination.OperationalLike O,
      !Coordination.DecisionLike K, !Coordination.RiskMapperLike M}
    (now : nat -> string)
    (self : Coordination.CoordinationAgent (P := P) (D := D) (C := C) (O := O)
              (K := K) (M := M))
    (frames : list RiskMapping.DataFrame)
  : Coordination.CoordinationAgent (P := P) (D := D) (C := C) (O := O) (K := K) (M := M) :=
  foldl (fun c raw_data => (Coordination.process_data now c raw_data).1) self frames.

End Laws.


(* ================================================================== *)
(** ** Facts about the Python primitives *)
(* ================================================================== *)

Module PyFacts.
Import Py.

Lemma Qltb_lt (x y : Q) : Qltb x y = true <-> (x < y)%Q.
Proof. unfold Qltb, Qlt. apply Z.ltb_lt. Qed.

Lemma Qltb_ge (x y : Q) : Qltb x y = false <-> (y <= x)%Q.
Proof. unfold Qltb, Qle. rewrite Z.ltb_ge. reflexivity. Qed.

Lemma Qltb_spec (x y : Q) : reflect (x < y)%Q (Qltb x y).
Proof.
  destruct (Qltb x y) eqn:E; constructor.
  - now apply Qltb_lt.
  - apply Qltb_ge in E. now apply Qle_not_lt.
Qed.

Lemma Qle_bool_spec (x y : Q) : reflect (x <= y)%Q (Qle_bool x y).
Proof.
  destruct (Qle_bool x y) eqn:E; constructor.
  - now apply Qle_bool_iff.
  - intros H. apply Qle_bool_iff in H. congruence.
Qed.

Lemma Qeq_bool_spec (x y : Q) : reflect (x == y)%Q (Qeq_bool x y).
Proof.
  destruct (Qeq_bool x y) eqn:E; constructor.
  - now apply Qeq_bool_iff.
  - now apply Qeq_bool_neq.
Qed.

Lemma feq_refl (a : pyfloat) : feq a a.
Proof. destruct a; simpl; [reflexivity | exact I]. Qed.

Lemma py_min_1_Fin (q : Q) : feq (py_min (Fin 1) (Fin q)) (Fin (Qmin 1 q)).
Proof.
  unfold py_min, flt. destruct (Qltb_spec q 1) as [H | H]; simpl.
  - symmetry. apply Q.min_r. now apply Qlt_le_weak.
  - symmetry. apply Q.min_l. now apply Qnot_lt_le.
Qed.

(** Linear arithmetic over the rationals, halving included. *)
Ltac Qlra := unfold Qdiv in *; change (/ 2)%Q with (1 # 2)%Q in *; lra.

(** Decide every comparison of the goal from the hypotheses. *)
Ltac decide_Qltb :=
  repeat match goal with
         | |- context [Qltb ?a ?b] =>
             destruct (Qltb_spec a b); try Qlra; cbn [orb andb]
         end.

End PyFacts.

(* ================================================================== *)
(** ** The cyber risk agent *)
(* ================================================================== *)

Module CyberProofs.
Import Py PyFacts Spec.

(** C5. With the thresholds of a freshly built agent, a score below 0.3 is
    low, one from 0.3 and below 0.6 is medium, one from 0.6 and below 0.85 is
    high, and any other is critical: each threshold belongs to the upper
    bucket. The six boundary scores of the specification are classified
    accordingly. *)
Theorem classify_risk_level_boundaries :
  (forall s : Q, (s < 0.3)%Q ->
     Cyber._classify_risk_level Cyber.__init__ (Fin s) = LOW) /\
  (forall s : Q, (0.3 <= s)%Q -> (s < 0.6)%Q ->
     Cyber._classify_risk_level Cyber.__init__ (Fin s) = MEDIUM) /\
  (forall s : Q, (0.6 <= s)%Q -> (s < 0.85)%Q ->
     Cyber._classify_risk_level Cyber.__init__ (Fin s) = HIGH) /\
  (forall s : Q, (0.85 <= s)%Q ->
     Cyber._classify_risk_level Cyber.__init__ (Fin s) = CRITICAL) /\
  Cyber._classify_risk_level Cyber.__init__ (Fin 0.29) = LOW /\
  Cyber._classify_risk_level Cyber.__init__ (Fin 0.30) = MEDIUM /\
  Cyber._classify_risk_level Cyber.__init__ (Fin 0.59) = MEDIUM /\
  Cyber._classify_risk_level Cyber.__init__ (Fin 0.60) = HIGH /\
  Cyber._classify_risk_level Cyber.__init__ (Fin 0.84) = HIGH /\
  Cyber._classify_risk_level Cyber.__init__ (Fin 0.85) = CRITICAL.
Proof.
  unfold Cyber._classify_risk_level, flt; cbn [Cyber.prob_thresholds Cyber.__init__
    Cyber.low Cyber.medium Cyber.high].
  repeat split; try reflexivity; intros s; intros;
    repeat (match goal with
            | |- context [Qltb ?a ?b] => destruct (Qltb_spec a b)
            end; try reflexivity; try lra).
Qed.


Lemma has_run_0 (flags : list bool) : has_run flags 0.
Proof. exists 0%nat. intros j Hj. lia. Qed.

Lemma has_run_replicate (c : nat) (rest : list bool) :
  has_run (replicate c true ++ rest) c.
Proof.
  exists 0%nat. intros j Hj. simpl.
  rewrite lookup_app_l by (rewrite length_replicate; lia).
  now apply lookup_replicate_2.
Qed.

Lemma has_run_app_r (l1 l2 : list bool) (n : nat) :
  has_run l2 n -> has_run (l1 ++ l2) n.
Proof.
  intros [i Hi]. exists (length l1 + i)%nat. intros j Hj.
  rewrite <- Nat.add_assoc, lookup_app_r by lia.
  replace (length l1 + (i + j) - length l1)%nat with (i + j)%nat by lia.
  now apply Hi.
Qed.

(** A run cannot contain a negative label: it lies on one side of it. *)
Lemma has_run_false (l1 l2 : list bool) (n : nat) :
  has_run (l1 ++ false :: l2) n -> has_run l1 n \/ has_run l2 n.
Proof.
  intros [i Hi].
  destruct n as [|n]; [left; apply has_run_0 |].
  destruct (Nat.le_gt_cases (i + S n) (length l1)) as [Hin | Hout].
  - left. exists i. intros j Hj.
    specialize (Hi j Hj). rewrite lookup_app_l in Hi by lia. exact Hi.
  - right. destruct (Nat.le_gt_cases i (length l1)) as [Hle | Hgt].
    + exfalso. specialize (Hi (length l1 - i)%nat ltac:(lia)).
      replace (i + (length l1 - i))%nat with (length l1 + 0)%nat in Hi by lia.
      rewrite lookup_app_r in Hi by lia.
      replace (length l1 + 0 - length l1)%nat with 0%nat in Hi by lia.
      discriminate Hi.
    + exists (i - S (length l1))%nat. intros j Hj.
      specialize (Hi j Hj). rewrite lookup_app_r in Hi by lia.
      replace (i + j - length l1)%nat with (S (i - S (length l1) + j)) in Hi by lia.
      exact Hi.
Qed.

Lemma has_run_replicate_le (c n : nat) : has_run (replicate c true) n -> (n <= c)%nat.
Proof.
  intros [i Hi]. destruct n as [|n]; [lia |].
  specialize (Hi n ltac:(lia)). apply lookup_lt_Some in Hi.
  rewrite length_replicate in Hi. lia.
Qed.

Lemma replicate_true_cons (c : nat) (rest : list bool) :
  replicate c true ++ true :: rest = replicate (S c) true ++ rest.
Proof.
  change (true :: rest) with ([true] ++ rest).
  rewrite app_assoc. f_equal.
  change [true] with (replicate 1 true). rewrite <- replicate_add.
  f_equal. lia.
Qed.

(** The loop returns a run of the labels seen, or the maximum it started from. *)
Lemma temporal_loop_attained (rest : list bool) :
  forall c m : nat,
    Cyber.temporal_loop rest c m = m \/
    has_run (replicate c true ++ rest) (Cyber.temporal_loop rest c m).
Proof.
  induction rest as [|flag rest IH]; intros c m; simpl.
  - now left.
  - destruct flag.
    + destruct (IH (S c) (Nat.max m (S c))) as [E | H].
      * rewrite E. destruct (Nat.max_spec m (S c)) as [[_ E'] | [_ E']]; rewrite E'.
        -- right. rewrite replicate_true_cons. apply has_run_replicate.
        -- now left.
      * right. now rewrite replicate_true_cons.
    + destruct (IH 0%nat m) as [E | H]; [now left |].
      right. apply has_run_app_r. apply (has_run_app_r [false]). exact H.
Qed.

(** The loop returns at least the maximum it started from and at least every
    run of the labels still to come, the current run included. *)
Lemma temporal_loop_bounds (rest : list bool) :
  forall c m : nat, (c <= m)%nat ->
    (m <= Cyber.temporal_loop rest c m)%nat /\
    forall k : nat, has_run (replicate c true ++ rest) k ->
                    (k <= Cyber.temporal_loop rest c m)%nat.
Proof.
  induction rest as [|flag rest IH]; intros c m Hcm; simpl.
  - split; [lia |]. intros k Hk. rewrite app_nil_r in Hk.
    apply has_run_replicate_le in Hk. lia.
  - destruct flag.
    + destruct (IH (S c) (Nat.max m (S c)) ltac:(lia)) as [Hm Hk].
      split; [lia |]. intros k H. apply Hk. now rewrite <- replicate_true_cons.
    + destruct (IH 0%nat m ltac:(lia)) as [Hm Hk].
      split; [exact Hm |]. intros k H.
      apply has_run_false in H. destruct H as [H | H].
      * apply has_run_replicate_le in H. lia.
      * now apply Hk.
Qed.

(** The loop of [_analyze_temporal_pattern] computes the longest run. *)
Lemma temporal_loop_longest_run (flags : list bool) :
  longest_run flags (Cyber.temporal_loop flags 0 0).
Proof.
  split.
  - destruct (temporal_loop_attained flags 0 0) as [E | H].
    + rewrite E. apply has_run_0.
    + exact H.
  - intros m Hm. now apply (temporal_loop_bounds flags 0 0).
Qed.

Lemma longest_run_unique (flags : list bool) (n m : nat) :
  longest_run flags n -> longest_run flags m -> n = m.
Proof.
  intros [Hn Hn'] [Hm Hm']. apply Nat.le_antisymm; auto.
Qed.

Lemma temporal_loop_eq (flags : list bool) (n : nat) :
  longest_run flags n -> Cyber.temporal_loop flags 0 0 = n.
Proof.
  intros H. apply (longest_run_unique flags); [apply temporal_loop_longest_run | exact H].
Qed.

Lemma analyze_temporal_pattern_spec (flags : list bool) (n : nat) :
  longest_run flags n ->
  feq (Cyber._analyze_temporal_pattern flags)
      (Fin (if Nat.ltb (length flags) 10 then 0
            else Qmin 1 (inject_Z (Z.of_nat n) / 10))).
Proof.
  intros H. unfold Cyber._analyze_temporal_pattern.
  destruct (Nat.ltb (length flags) 10); [simpl; reflexivity |].
  rewrite (temporal_loop_eq flags n H). apply py_min_1_Fin.
Qed.

Lemma np_max_nonempty (probs : list Q) : probs <> [] -> exists mx, np_max probs = Ok mx.
Proof. destruct probs; [congruence | intros _; eexists; reflexivity]. Qed.

Lemma identify_attack_pattern_ok (flags : list bool) (probs : list Q) :
  length probs = length flags ->
  exists sig, Cyber._identify_attack_pattern flags probs = Ok sig.
Proof.
  intros Hlen. unfold Cyber._identify_attack_pattern, bool_index.
  rewrite Hlen, Nat.eqb_refl.
  destruct (np_any flags); simpl;
    repeat match goal with
           | |- context [if ?b then _ else _] => destruct b
           end; eexists; reflexivity.
Qed.

(** [assess_risk] on a dictionary holding the two arrays it reads. *)
Lemma assess_risk_unfold (self : Cyber.CyberRiskAssessmentAgent)
    (det : gmap string pyval) (ts : option (list string))
    (flags : list bool) (probs : list Q) (mx : Q) (sig : string) :
  det !! "attack_probability" = Some (VFloatArr probs) ->
  det !! "anomaly_detected" = Some (VBoolArr flags) ->
  np_max probs = Ok mx ->
  Cyber._identify_attack_pattern flags probs = Ok sig ->
  Cyber.assess_risk self det ts =
  let temporal := if timestamps_supplied ts
                  then Cyber._analyze_temporal_pattern flags else Fin 0 in
  let score := Cyber._calculate_cyber_risk_score (np_mean probs)
                 (np_mean_flags flags) temporal in
  Ok {| Cyber.cyber_risk_score := score;
        Cyber.risk_level := value (Cyber._classify_risk_level self score);
        Cyber.avg_attack_probability := np_mean probs;
        Cyber.max_attack_probability := mx;
        Cyber.anomaly_count := np_sum_flags flags;
        Cyber.anomaly_rate := np_mean_flags flags;
        Cyber.temporal_risk := temporal;
        Cyber.attack_signature := sig;
        Cyber.threat_assessment :=
          Cyber._generate_threat_assessment (Cyber._classify_risk_level self score) sig |}.
Proof.
  intros Hp Hf Hmx Hsig. unfold Cyber.assess_risk, getitem.
  rewrite Hp, Hf. simpl. rewrite Hmx. simpl. rewrite Hsig. simpl.
  destruct ts as [ts|]; simpl; [destruct (Nat.ltb 1 (length ts)) |]; reflexivity.
Qed.

(** C4 (amended). [_analyze_temporal_pattern] answers 0 for fewer than ten
    labels and otherwise min(1, longest run / 10). The assessment reports
    that value as its temporal risk when timestamps with more than one
    entry are passed, and reports 0 when they are not. A dictionary with a
    non-empty probability array as long as the label array is assessed
    without an exception. *)
Theorem temporal_risk_needs_timestamps (self : Cyber.CyberRiskAssessmentAgent)
    (det : gmap string pyval) (ts : option (list string))
    (flags : list bool) (probs : list Q) (n : nat) :
  det !! "attack_probability" = Some (VFloatArr probs) ->
  det !! "anomaly_detected" = Some (VBoolArr flags) ->
  length probs = length flags ->
  probs <> [] ->
  longest_run flags n ->
  feq (Cyber._analyze_temporal_pattern flags)
      (Fin (if Nat.ltb (length flags) 10 then 0
            else Qmin 1 (inject_Z (Z.of_nat n) / 10))) /\
  exists a : Cyber.CyberAssessment,
    Cyber.assess_risk self det ts = Ok a /\
    feq (Cyber.temporal_risk a)
        (Fin (if timestamps_supplied ts
              then if Nat.ltb (length flags) 10 then 0
                   else Qmin 1 (inject_Z (Z.of_nat n) / 10)
              else 0)).
Proof.
  intros Hp Hf Hlen Hne Hrun.
  pose proof (analyze_temporal_pattern_spec flags n Hrun) as Hspec.
  split; [exact Hspec |].
  destruct (np_max_nonempty probs Hne) as [mx Hmx].
  destruct (identify_attack_pattern_ok flags probs Hlen) as [sig Hsig].
  eexists. split.
  - apply (assess_risk_unfold self det ts flags probs mx sig); assumption.
  - cbn [Cyber.temporal_risk]. destruct (timestamps_supplied ts).
    + exact Hspec.
    + simpl. reflexivity.
Qed.

Lemma temporal_risk_needs_timestamps_witness :
  exists a : Cyber.CyberAssessment,
    Cyber.assess_risk Cyber.__init__ (detection_of flags_20_run_7 probs_20)
      (Some (stamps 20)) = Ok a /\
    feq (Cyber.temporal_risk a) (Fin 0.7).
Proof.
  destruct (temporal_risk_needs_timestamps Cyber.__init__
              (detection_of flags_20_run_7 probs_20) (Some (stamps 20))
              flags_20_run_7 probs_20 7)
    as [_ [a [Ha Ht]]].
  - reflexivity.
  - reflexivity.
  - reflexivity.
  - discriminate.
  - change 7%nat with (Cyber.temporal_loop flags_20_run_7 0 0).
    apply temporal_loop_longest_run.
  - exists a. split; [exact Ha | exact Ht].
Defined.

Lemma temporal_risk_without_timestamps :
  length flags_20_run_7 = 20%nat /\
  longest_run flags_20_run_7 7 /\
  exists a : Cyber.CyberAssessment,
    Cyber.assess_risk Cyber.__init__ (detection_of flags_20_run_7 probs_20) None = Ok a /\
    Cyber.temporal_risk a = Fin 0 /\
    ~ feq (Cyber.temporal_risk a) (Fin 0.7).
Proof.
  split; [reflexivity |]. split.
  - change 7%nat with (Cyber.temporal_loop flags_20_run_7 0 0).
    apply temporal_loop_longest_run.
  - eexists. split; [vm_compute; reflexivity |]. split; [reflexivity |].
    simpl. intros H. discriminate H.
Qed.

End CyberProofs.

(* ================================================================== *)
(** ** The three assessment agents in sequence *)
(* ================================================================== *)

Module ScenarioProofs.
Import Py PyFacts Spec CyberProofs.

Lemma Qsum_flags (l : list bool) :
  (Qsum (bool_to_Q <$> l) == inject_Z (Z.of_nat (count_true l)))%Q.
Proof.
  unfold count_true. induction l as [|b l IH]; [reflexivity |].
  rewrite fmap_cons. cbn [Qsum foldr]. fold (Qsum (bool_to_Q <$> l)). rewrite IH.
  rewrite filter_cons. destruct b; simpl bool_to_Q.
  - rewrite decide_True by reflexivity. cbn [length].
    rewrite Nat2Z.inj_succ, <- Z.add_1_l, inject_Z_plus. reflexivity.
  - rewrite decide_False by discriminate. lra.
Qed.

Lemma np_mean_flags_rate (flags : list bool) (n c : nat) :
  length flags = S n -> count_true flags = c ->
  exists r : Q, np_mean_flags flags = Fin r /\
                (r == inject_Z (Z.of_nat c) / inject_Z (Z.of_nat (S n)))%Q.
Proof.
  intros Hlen Hc. unfold np_mean_flags, np_mean.
  destruct flags as [|b flags]; [discriminate |].
  rewrite fmap_cons. eexists. split; [reflexivity |].
  unfold Qmean. rewrite <- fmap_cons, Qsum_flags, Hc, length_fmap, Hlen. reflexivity.
Qed.

(** C1 (amended). A batch of 100 samples with 85 positive labels, a mean
    attack probability of 0.90 over the whole batch, a longest run of twelve
    positives and timestamps supplied is assessed without an exception:
    temporal risk 1.0, anomaly rate 0.85, cyber score 0.915, level critical,
    signature Persistent Attack; impact high, likelihood critical, looked up
    in the matrix as high, operational score 0.9, level critical, combined score
    0.875, severity Critical, the three affected systems, 240 minutes of
    downtime, priority 1; primary threat Combined Cyber-Physical Threat,
    human approval required, response timeline IMMEDIATE (0-5 minutes),
    estimated resolution 240 minutes. *)
Theorem end_to_end_scenario (det : gmap string pyval) (flags : list bool)
    (probs : list Q) (ts : list string) (rate : Q) :
  det !! "attack_probability" = Some (VFloatArr probs) ->
  det !! "anomaly_detected" = Some (VBoolArr flags) ->
  det !! "num_anomalies" = Some (VInt 85) ->
  det !! "anomaly_rate" = Some (VFloat (Fin rate)) ->
  (rate == 0.85)%Q ->
  length flags = 100%nat ->
  length probs = 100%nat ->
  count_true flags = 85%nat ->
  (Qmean probs == 0.9)%Q ->
  longest_run flags 12 ->
  (1 < length ts)%nat ->
  exists (cy : Cyber.CyberAssessment) (op : Operational.OperationalAssessment),
    Cyber.assess_risk Cyber.__init__ det (Some ts) = Ok cy /\
    Operational.assess_risk Operational.__init__ det cy = Ok op /\
    feq (Cyber.temporal_risk cy) (Fin 1) /\
    feq (Cyber.anomaly_rate cy) (Fin 0.85) /\
    feq (Cyber.cyber_risk_score cy) (Fin 0.915) /\
    Cyber.risk_level cy = "critical" /\
    Cyber.attack_signature cy = "Persistent Attack" /\
    Operational.impact_level op = "high" /\
    Operational.likelihood op = "critical" /\
    (Operational._calculate_operational_risk Operational.__init__ "critical" "high"
     == Operational._calculate_operational_risk Operational.__init__ "high" "high")%Q /\
    (Operational.operational_risk_score op == 0.9)%Q /\
    Operational.risk_level op = "critical" /\
    feq (fdiv (fadd (Fin (Operational.operational_risk_score op)) (Fin rate)) (Fin 2))
        (Fin 0.875) /\
    Operational.fault_severity op = "Critical" /\
    Operational.affected_systems op
      = ["Primary Treatment"; "Distribution System"; "Safety Systems"] /\
    Operational.estimated_downtime_minutes op = 240%Z /\
    Operational.mitigation_priority op = 1%Z /\
    let d := Decision.decide Decision.__init__ cy op in
    Decision.primary_threat d = "Combined Cyber-Physical Threat" /\
    Decision.requires_human_approval d = true /\
    Decision.response_timeline d = "IMMEDIATE (0-5 minutes)" /\
    Decision.estimated_resolution_time d = 240%Z.
Proof.
  intros Hp Hf Hn Hr Hrate Hlf Hlp Hc Hmean Hrun Hts.
  destruct (np_mean_flags_rate flags 99 85 Hlf Hc) as [r [Er Hr85]].
  assert (Hr' : (r == 0.85)%Q) by (rewrite Hr85; reflexivity).
  assert (Hne : probs <> []) by (intros ->; discriminate).
  destruct (np_max_nonempty probs Hne) as [mx Hmx].
  assert (Hsig : Cyber._identify_attack_pattern flags probs = Ok "Persistent Attack").
  { unfold Cyber._identify_attack_pattern, bool_index.
    rewrite Hlp, Hlf, Er. cbn [Nat.eqb].
    destruct (np_any flags); simpl; unfold fgt, flt; decide_Qltb; reflexivity. }
  assert (Emean : np_mean probs = Fin (Qmean probs)).
  { destruct probs; [discriminate | reflexivity]. }
  assert (Etemp : Cyber._analyze_temporal_pattern flags = Fin 1).
  { unfold Cyber._analyze_temporal_pattern. rewrite Hlf.
    rewrite (temporal_loop_eq flags 12 Hrun). reflexivity. }
  assert (Ets : timestamps_supplied (Some ts) = true).
  { simpl. apply Nat.ltb_lt. exact Hts. }
  rewrite (assess_risk_unfold Cyber.__init__ det (Some ts) flags probs mx _ Hp Hf Hmx Hsig).
  rewrite Ets, Etemp, Emean, Er. cbv zeta.
  set (score := Cyber._calculate_cyber_risk_score _ _ _).
  assert (Escore : exists s, score = Fin s /\ (s == 0.915)%Q).
  { unfold score, Cyber._calculate_cyber_risk_score, py_min; simpl.
    decide_Qltb. eexists; split; [reflexivity | lra]. }
  destruct Escore as [s [Es Hs]]. rewrite Es. clearbody score.
  assert (Elevel : Cyber._classify_risk_level Cyber.__init__ (Fin s) = CRITICAL).
  { unfold Cyber._classify_risk_level, flt; simpl. decide_Qltb. reflexivity. }
  rewrite Elevel.
  eexists. eexists. split; [reflexivity |].
  unfold Operational.assess_risk, getitem. rewrite Hr, Hn. simpl.
  cbn [Cyber.risk_level value].
  assert (E1 : Operational._assess_impact (Fin rate) 85 = "high").
  { unfold Operational._assess_impact, fgt, flt. decide_Qltb. reflexivity. }
  rewrite E1.
  change (Operational._calculate_operational_risk Operational.__init__ "critical" "high")
    with 0.9%Q.
  assert (E3 : Operational._assess_fault_severity 0.9 (Fin rate) = "Critical").
  { unfold Operational._assess_fault_severity, fgt, flt; simpl. decide_Qltb. reflexivity. }
  rewrite E3.
  assert (E4 : Operational._identify_affected_systems 85 (Fin rate)
               = ["Primary Treatment"; "Distribution System"; "Safety Systems"]).
  { unfold Operational._identify_affected_systems, fgt, flt. decide_Qltb. reflexivity. }
  rewrite E4.
  split; [reflexivity |].
  cbn [Operational.impact_level Operational.operational_risk_score
       Operational.risk_level Operational.fault_severity Operational.affected_systems
       Operational.likelihood
       Operational.estimated_downtime_minutes Operational.mitigation_priority].
  repeat split; try reflexivity; try assumption; Qlra.
Qed.


(** The scenario at a concrete batch: every sample at probability 0.9. *)
Lemma end_to_end_scenario_witness :
  exists (cy : Cyber.CyberAssessment) (op : Operational.OperationalAssessment),
    Cyber.assess_risk Cyber.__init__ (detection_of flags_100 probs_100_flat)
      (Some (stamps 100)) = Ok cy /\
    Operational.assess_risk Operational.__init__
      (detection_of flags_100 probs_100_flat) cy = Ok op /\
    feq (Cyber.cyber_risk_score cy) (Fin 0.915) /\
    Cyber.risk_level cy = "critical" /\
    Operational.estimated_downtime_minutes op = 240%Z /\
    Decision.response_timeline (Decision.decide Decision.__init__ cy op)
      = "IMMEDIATE (0-5 minutes)".
Proof.
  destruct (end_to_end_scenario (detection_of flags_100 probs_100_flat)
              flags_100 probs_100_flat (stamps 100)
              (Qmean (bool_to_Q <$> flags_100)))
    as (cy & op & Hcy & Hop & _ & _ & Hscore & Hlevel & _ & _ & _ & _ & _ & _ & _
        & _ & _ & Hdown & _ & _ & _ & Htime & _).
  - reflexivity.
  - reflexivity.
  - reflexivity.
  - reflexivity.
  - vm_compute. reflexivity.
  - reflexivity.
  - reflexivity.
  - reflexivity.
  - vm_compute. reflexivity.
  - change 12%nat with (Cyber.temporal_loop flags_100 0 0).
    apply temporal_loop_longest_run.
  - simpl. lia.
  - exists cy, op. repeat split; assumption.
Defined.

(** With the positive samples at 0.9 and the negative ones at 0.1 the mean
    over the positive samples is 0.90, yet the cyber score is 0.867, and the
    response timeline is spelled with the word minutes. *)
Lemma end_to_end_scenario_counterexample :
  length flags_100 = 100%nat /\
  count_true flags_100 = 85%nat /\
  longest_run flags_100 12 /\
  (Qmean (mask_select probs_100_split flags_100) == 0.9)%Q /\
  exists (cy : Cyber.CyberAssessment) (op : Operational.OperationalAssessment),
    Cyber.assess_risk Cyber.__init__ (detection_of flags_100 probs_100_split)
      (Some (stamps 100)) = Ok cy /\
    Operational.assess_risk Operational.__init__
      (detection_of flags_100 probs_100_split) cy = Ok op /\
    feq (Cyber.cyber_risk_score cy) (Fin 0.867) /\
    ~ feq (Cyber.cyber_risk_score cy) (Fin 0.915) /\
    Decision.response_timeline (Decision.decide Decision.__init__ cy op)
      = "IMMEDIATE (0-5 minutes)" /\
    Decision.response_timeline (Decision.decide Decision.__init__ cy op)
      <> "IMMEDIATE (0-5 min)".
Proof.
  split; [reflexivity |]. split; [reflexivity |]. split.
  { change 12%nat with (Cyber.temporal_loop flags_100 0 0).
    apply temporal_loop_longest_run. }
  split; [vm_compute; reflexivity |].
  eexists. eexists.
  split; [vm_compute; reflexivity |].
  split; [vm_compute; reflexivity |].
  split; [vm_compute; reflexivity |].
  split; [vm_compute; discriminate |].
  split; [vm_compute; reflexivity |].
  vm_compute. discriminate.
Qed.

End ScenarioProofs.

(* ================================================================== *)
(** ** The decision agent *)
(* ================================================================== *)

Module DecisionProofs.
Import Py Spec.

Lemma first_index_is_Some (x : string) (l : list string) :
  x ∈ l -> exists p : nat, first_index x l = Some p.
Proof.
  induction l as [|y t IH]; intros Hin.
  - inversion Hin.
  - simpl. destruct (String.eqb_spec x y) as [-> | Hne]; [eauto |].
    apply elem_of_cons in Hin. destruct Hin as [-> | Hin]; [congruence |].
    destruct (IH Hin) as [p Hp]. rewrite Hp. eauto.
Qed.

Lemma first_index_cons_ne (x y : string) (t : list string) (p : nat) :
  x <> y -> first_index x t = Some p -> first_index x (y :: t) = Some (S p).
Proof.
  intros Hne Hp. simpl. destruct (String.eqb_spec x y); [congruence |].
  rewrite Hp. reflexivity.
Qed.

(** What the accumulating pass keeps: exactly the elements not seen before. *)
Lemma dict_fromkeys_acc_elem (l : list string) :
  forall (seen : list string) (x : string),
    x ∈ dict_fromkeys_acc seen l <-> x ∈ l /\ x ∉ seen.
Proof.
  induction l as [|y t IH]; intros seen x; simpl.
  - split; [intros H; inversion H | intros [H _]; inversion H].
  - case_bool_decide as Hy.
    + rewrite IH, elem_of_cons. split.
      * intros [Ht Hs]. auto.
      * intros [[-> | Ht] Hs]; [contradiction | auto].
    + rewrite elem_of_cons, IH, !elem_of_cons. split.
      * intros [-> | [Ht Hs]]; [auto |]. split; [auto |]. intros Hx. apply Hs. auto.
      * intros [[-> | Ht] Hs]; [auto |].
        destruct (decide (x = y)) as [-> | Hne]; [auto |].
        right. split; [exact Ht |]. intros [? | ?]; auto.
Qed.

Lemma dict_fromkeys_acc_NoDup (l : list string) :
  forall seen : list string, NoDup (dict_fromkeys_acc seen l).
Proof.
  induction l as [|y t IH]; intros seen; simpl.
  - constructor.
  - case_bool_decide as Hy; [apply IH |].
    constructor; [| apply IH].
    rewrite dict_fromkeys_acc_elem. intros [_ Hs]. apply Hs. left.
Qed.

Lemma dict_fromkeys_acc_order (l : list string) :
  forall (seen : list string) (i j : nat) (a b : string),
    dict_fromkeys_acc seen l !! i = Some a ->
    dict_fromkeys_acc seen l !! j = Some b ->
    (i < j)%nat ->
    exists p q : nat,
      first_index a l = Some p /\ first_index b l = Some q /\ (p < q)%nat.
Proof.
  induction l as [|y t IH]; intros seen i j a b Ha Hb Hij; simpl in Ha, Hb.
  - discriminate Ha.
  - case_bool_decide as Hy.
    + destruct (IH seen i j a b Ha Hb Hij) as (p & q & Hp & Hq & Hpq).
      assert (Hay : a <> y).
      { intros ->. apply list_elem_of_lookup_2 in Ha.
        apply dict_fromkeys_acc_elem in Ha. tauto. }
      assert (Hby : b <> y).
      { intros ->. apply list_elem_of_lookup_2 in Hb.
        apply dict_fromkeys_acc_elem in Hb. tauto. }
      exists (S p), (S q). repeat split; [| | lia]; now apply first_index_cons_ne.
    + destruct j as [|j]; [lia |]. simpl in Hb.
      assert (Hbt : b ∈ t /\ b ∉ y :: seen).
      { apply dict_fromkeys_acc_elem. eapply list_elem_of_lookup_2. exact Hb. }
      assert (Hby : b <> y) by (intros ->; apply Hbt; left).
      destruct i as [|i]; simpl in Ha.
      * injection Ha as <-.
        destruct (first_index_is_Some b t (proj1 Hbt)) as [q Hq].
        exists 0%nat, (S q). repeat split; [| now apply first_index_cons_ne | lia].
        simpl. now rewrite String.eqb_refl.
      * destruct (IH (y :: seen) i j a b Ha Hb ltac:(lia)) as (p & q & Hp & Hq & Hpq).
        assert (Hay : a <> y).
        { intros ->. apply list_elem_of_lookup_2 in Ha.
          apply dict_fromkeys_acc_elem in Ha. apply Ha. left. }
        exists (S p), (S q). repeat split; [| | lia]; now apply first_index_cons_ne.
Qed.

(** The list collected before deduplication is the cyber-tier list, empty
    below high, followed by one operational or severity tier list. *)
Lemma collect_actions_tiers (self : Decision.DecisionMakingAgent)
    (cyber_risk operational_risk fault_severity : string) :
  let lib := Decision.action_library self in
  exists cyber_tier operational_tier : list string,
    Decision.collect_actions self cyber_risk operational_risk fault_severity
      = cyber_tier ++ operational_tier /\
    cyber_tier ∈ [Decision.critical_cyber lib; Decision.high_cyber lib; []] /\
    operational_tier ∈ [Decision.critical_operational lib; Decision.high_operational lib;
                        Decision.medium_risk lib; Decision.low_risk lib].
Proof.
  intros lib. unfold Decision.collect_actions. fold lib.
  repeat match goal with
         | |- context [if ?b then _ else _] => destruct b
         end;
    eexists; eexists; (split; [reflexivity |]); split;
    repeat (first [apply list_elem_of_here | apply list_elem_of_further]).
Qed.

(** C9. For every pair of assessments the recommended actions hold no
    duplicate, hold exactly the actions of the collected source lists, and
    list them in the order of their first occurrence there. *)
Theorem recommended_actions_deduplicated (self : Decision.DecisionMakingAgent)
    (cy : Cyber.CyberAssessment) (op : Operational.OperationalAssessment) :
  let sources :=
    Decision.collect_actions self (Cyber.risk_level cy) (Operational.risk_level op)
      (Operational.fault_severity op) in
  let actions := Decision.recommended_actions (Decision.decide self cy op) in
  NoDup actions /\
  (forall a : string, a ∈ actions <-> a ∈ sources) /\
  (forall (i j : nat) (a b : string),
     actions !! i = Some a -> actions !! j = Some b -> (i < j)%nat ->
     exists p q : nat,
       first_index a sources = Some p /\ first_index b sources = Some q /\ (p < q)%nat).
Proof.
  intros sources actions.
  assert (E : actions = dict_fromkeys_acc [] sources) by reflexivity.
  rewrite E. split; [apply dict_fromkeys_acc_NoDup |]. split.
  - intros a. rewrite dict_fromkeys_acc_elem. split; [tauto |].
    intros H. split; [exact H |]. apply not_elem_of_nil.
  - apply dict_fromkeys_acc_order.
Qed.

End DecisionProofs.

(* ================================================================== *)
(** ** The sensor-to-risk mapper *)
(* ================================================================== *)

Module RiskMappingProofs.
Import Py PyFacts Spec.

(** *** Rounding *)

Lemma round_half_even_error (x : Q) :
  (Qabs (inject_Z (round_half_even x) - x) <= 1 # 2)%Q.
Proof.
  pose proof (Qfloor_le x) as Hlo. pose proof (Qlt_floor x) as Hhi.
  rewrite inject_Z_plus in Hhi. change (inject_Z 1) with 1%Q in Hhi.
  apply Qabs_Qle_condition. unfold round_half_even.
  destruct (Qltb_spec (x - inject_Z (Qfloor x)) (1 # 2)) as [H1 | H1].
  - split; lra.
  - destruct (Qltb_spec (1 # 2) (x - inject_Z (Qfloor x))) as [H2 | H2].
    + rewrite inject_Z_plus. change (inject_Z 1) with 1%Q. split; lra.
    + destruct (Z.even (Qfloor x)).
      * split; lra.
      * rewrite inject_Z_plus. change (inject_Z 1) with 1%Q. split; lra.
Qed.

Lemma py_round_3_error (x : Q) : (Qabs (py_round x 3 - x) <= 1 # 2000)%Q.
Proof.
  unfold py_round. change (inject_Z (10 ^ Z.of_nat 3)) with 1000%Q.
  pose proof (round_half_even_error (x * 1000)) as H.
  apply Qabs_Qle_condition in H. apply Qabs_Qle_condition.
  unfold Qdiv. change (/ 1000)%Q with (1 # 1000)%Q.
  split; lra.
Qed.


(** *** Contribution counts *)

Lemma rc_get_insert (rc : gmap string (list string)) (k c : string) (v : list string) :
  RiskMapping.rc_get (<[k := v]> rc) c
  = if decide (k = c) then v else RiskMapping.rc_get rc c.
Proof.
  unfold RiskMapping.rc_get. rewrite lookup_insert. destruct (decide (k = c)); reflexivity.
Qed.

Lemma total_contributions_insert (rc : gmap string (list string)) (k : string)
    (v : list string) :
  rc !! k = None ->
  RiskMapping.total_contributions (<[k := v]> rc)
  = (length v + RiskMapping.total_contributions rc)%nat.
Proof.
  intros Hk. unfold RiskMapping.total_contributions.
  rewrite map_fold_insert_L; [reflexivity | | exact Hk].
  intros; lia.
Qed.

Lemma sum_lengths_insert (cats : list string) (rc : gmap string (list string))
    (k : string) (v : list string) :
  NoDup cats -> rc !! k = None ->
  foldr Nat.add 0%nat ((fun c => length (RiskMapping.rc_get (<[k := v]> rc) c)) <$> cats)
  = ((if decide (k ∈ cats) then length v else 0)
     + foldr Nat.add 0%nat ((fun c => length (RiskMapping.rc_get rc c)) <$> cats))%nat.
Proof.
  intros Hnd Hk. induction Hnd as [|c cats Hc Hnd IH]; [reflexivity |].
  rewrite !fmap_cons. cbn [foldr]. rewrite IH, rc_get_insert.
  destruct (decide (k = c)) as [-> | Hne].
  - assert (E : RiskMapping.rc_get rc c = []) by (unfold RiskMapping.rc_get; now rewrite Hk).
    rewrite E, decide_False by exact Hc.
    rewrite decide_True by left. simpl. lia.
  - destruct (decide (k ∈ cats)) as [Hin | Hout].
    + rewrite decide_True by now right. lia.
    + rewrite decide_False; [lia |]. rewrite elem_of_cons. intros [? | ?]; auto.
Qed.

(** Counting per category counts every contribution once. *)
Lemma sum_lengths_total (cats : list string) :
  NoDup cats ->
  forall rc : gmap string (list string),
    (forall k : string, is_Some (rc !! k) -> k ∈ cats) ->
    foldr Nat.add 0%nat ((fun c => length (RiskMapping.rc_get rc c)) <$> cats)
    = RiskMapping.total_contributions rc.
Proof.
  intros Hnd rc. induction rc as [|k v rc Hk IH] using map_ind; intros Hdom.
  - unfold RiskMapping.total_contributions. rewrite map_fold_empty.
    clear. induction cats as [|c cats IH]; [reflexivity |].
    rewrite fmap_cons. cbn [foldr]. rewrite IH. reflexivity.
  - rewrite sum_lengths_insert, total_contributions_insert by assumption.
    rewrite IH.
    + rewrite decide_True; [reflexivity |].
      apply Hdom. rewrite lookup_insert_eq. eauto.
    + intros j Hj. apply Hdom. destruct (decide (k = j)) as [-> | Hne].
      * rewrite lookup_insert_eq. eauto.
      * now rewrite lookup_insert_ne.
Qed.

Lemma categories_NoDup : NoDup RiskMapping.RISK_CATEGORIES.
Proof. apply (bool_decide_unpack _). vm_compute. exact I. Qed.

Lemma assoc_elem {V : Type} (k : string) (l : list (string * V)) (v : V) :
  RiskMapping.assoc k l = Some v -> (k, v) ∈ l.
Proof.
  induction l as [|[k' v'] l IH]; simpl; [discriminate |].
  destruct (String.eqb_spec k k') as [-> | Hne].
  - intros [= ->]. left.
  - intros H. right. auto.
Qed.

(** Every category the sensor table names is one of the eight. *)
Lemma sensor_risks_in_categories (sensor : string) (risks : list string) (risk : string) :
  RiskMapping.assoc sensor RiskMapping.SENSOR_RISK_MAP = Some risks ->
  risk ∈ risks -> risk ∈ RiskMapping.RISK_CATEGORIES.
Proof.
  intros Ha Hr. apply assoc_elem in Ha.
  assert (Hall : Forall (fun kv : string * list string =>
                           Forall (fun r => r ∈ RiskMapping.RISK_CATEGORIES) kv.2)
                   RiskMapping.SENSOR_RISK_MAP).
  { apply (bool_decide_unpack _). vm_compute. exact I. }
  rewrite Forall_forall in Hall. specialize (Hall _ Ha).
  rewrite Forall_forall in Hall. now apply Hall.
Qed.

Lemma within_categories_empty : within_categories ∅.
Proof. intros k [v Hv]. rewrite lookup_empty in Hv. discriminate. Qed.

Lemma record_risk_within (sensor risk : string) (st : RiskMapping.LoopState) :
  risk ∈ RiskMapping.RISK_CATEGORIES ->
  within_categories (RiskMapping.risk_contributions st) ->
  within_categories
    (RiskMapping.risk_contributions (RiskMapping.record_risk sensor st risk)).
Proof.
  intros Hr Hst k Hk. cbn [RiskMapping.record_risk RiskMapping.risk_contributions] in Hk.
  destruct (decide (risk = k)) as [<- | Hne]; [exact Hr |].
  rewrite lookup_insert_ne in Hk by exact Hne. now apply Hst.
Qed.

Lemma record_risks_within (sensor : string) (risks : list string) :
  (forall r : string, r ∈ risks -> r ∈ RiskMapping.RISK_CATEGORIES) ->
  forall st : RiskMapping.LoopState,
    within_categories (RiskMapping.risk_contributions st) ->
    within_categories
      (RiskMapping.risk_contributions (foldl (RiskMapping.record_risk sensor) st risks)).
Proof.
  induction risks as [|r risks IH]; intros Hin st Hst; [exact Hst |].
  cbn [foldl]. apply IH.
  - intros r' Hr'. apply Hin. now right.
  - apply record_risk_within; [apply Hin; left | exact Hst].
Qed.

Lemma no_positive_np_where (labels : list Z) :
  1%Z ∉ labels ->
  forall i : nat, RiskMapping.np_where i ((fun z => Z.eqb z 1) <$> labels) = [].
Proof.
  induction labels as [|z labels IH]; intros Hno i; [reflexivity |].
  rewrite fmap_cons. cbn [RiskMapping.np_where].
  destruct (Z.eqb_spec z 1) as [-> | _].
  - exfalso. apply Hno. left.
  - apply IH. intros H. apply Hno. now right.
Qed.

Lemma risk_details_totals (rc : gmap string (list string)) :
  (fun kv : string * RiskMapping.RiskDetail => RiskMapping.total kv.2)
    <$> RiskMapping._get_risk_details rc
  = (fun c => length (RiskMapping.rc_get rc c)) <$> RiskMapping.RISK_CATEGORIES.
Proof.
  unfold RiskMapping._get_risk_details. rewrite <- list_fmap_compose.
  apply list_fmap_ext. intros i c _. reflexivity.
Qed.

(** *** The binary64 quotient and its rounding *)

Lemma pow2_pos (e : Z) : (0 < pow2 e)%Q.
Proof.
  unfold pow2. destruct (Z.leb_spec 0 e) as [H | H].
  - change 0%Q with (inject_Z 0). rewrite <- Zlt_Qlt. apply Z.pow_pos_nonneg; lia.
  - reflexivity.
Qed.

(** Below the binade of 1 two neighbouring floats are at most [2^-52] apart. *)
Lemma pow2_small (e : Z) : (e <= -52)%Z -> (pow2 e <= 1 # 4503599627370496)%Q.
Proof.
  intros He. unfold pow2. destruct (Z.leb_spec 0 e) as [H | H]; [lia |].
  unfold Qle. cbn [Qnum Qden]. rewrite Z2Pos.id by (apply Z.pow_pos_nonneg; lia).
  rewrite !Z.mul_1_l. change (Z.pos 4503599627370496) with (2 ^ 52)%Z.
  apply Z.pow_le_mono_r; lia.
Qed.

Lemma binade_le_0 (n d : positive) : (n <= d)%positive -> (binade n d <= 0)%Z.
Proof.
  intros Hnd. unfold binade.
  assert (Hlog : (Z.log2 (Z.pos n) <= Z.log2 (Z.pos d))%Z) by (apply Z.log2_le_mono; lia).
  destruct (Qle_bool _ _); lia.
Qed.

Lemma pow2_nonneg_exp (e : Z) : (0 <= e)%Z -> pow2 e = inject_Z (2 ^ e).
Proof. intros H. unfold pow2. destruct (Z.leb_spec 0 e); [reflexivity | lia]. Qed.

Lemma pow2_neg_exp (e : Z) : (e < 0)%Z -> (pow2 e == / inject_Z (2 ^ (- e)))%Q.
Proof.
  intros H. unfold pow2. destruct (Z.leb_spec 0 e); [lia |].
  assert (Hp : (0 < 2 ^ (- e))%Z) by (apply Z.pow_pos_nonneg; lia).
  destruct (2 ^ (- e))%Z; try lia. reflexivity.
Qed.

Lemma pow2_nonzero (z : Z) : (0 <= z)%Z -> ~ (inject_Z (2 ^ z) == 0)%Q.
Proof.
  intros H. change 0%Q with (inject_Z 0). rewrite inject_Z_injective.
  pose proof (Z.pow_pos_nonneg 2 z). lia.
Qed.

Lemma pow2_double (e : Z) : (pow2 (e + 1) == 2 * pow2 e)%Q.
Proof.
  destruct (Z.leb_spec 0 e) as [H | H].
  - rewrite !pow2_nonneg_exp by lia.
    rewrite Z.pow_add_r by lia. rewrite inject_Z_mult. change (inject_Z (2 ^ 1)) with 2%Q. ring.
  - destruct (Z.eq_dec e (-1)%Z) as [-> | Hne]; [reflexivity |].
    rewrite !pow2_neg_exp by lia.
    replace (- e)%Z with (- (e + 1) + 1)%Z by lia.
    rewrite Z.pow_add_r by lia. rewrite inject_Z_mult. change (inject_Z (2 ^ 1)) with 2%Q.
    assert (H0 : ~ (inject_Z (2 ^ (- (e + 1))) == 0)%Q) by (apply pow2_nonzero; lia).
    field. exact H0.
Qed.

Lemma pow2_ratio (a b : Z) :
  (0 <= a)%Z -> (0 <= b)%Z -> (pow2 (a - b) * inject_Z (2 ^ b) == inject_Z (2 ^ a))%Q.
Proof.
  intros Ha Hb. destruct (Z.leb_spec 0 (a - b)) as [H | H].
  - rewrite pow2_nonneg_exp by lia.
    rewrite <- inject_Z_mult, <- Z.pow_add_r by lia. now replace (a - b + b)%Z with a by lia.
  - rewrite pow2_neg_exp by lia.
    replace b with (a + - (a - b))%Z at 2 by lia.
    rewrite Z.pow_add_r by lia. rewrite inject_Z_mult.
    assert (H0 : ~ (inject_Z (2 ^ (- (a - b))) == 0)%Q) by (apply pow2_nonzero; lia).
    field. exact H0.
Qed.

(** The exponent that [binade] answers is that of the binade of [n/d]. *)
Lemma binade_spec (n d : positive) :
  (pow2 (binade n d) <= Z.pos n # d < pow2 (binade n d + 1))%Q.
Proof.
  unfold binade.
  pose proof (Z.log2_spec (Z.pos n) eq_refl) as [Hn1 Hn2].
  pose proof (Z.log2_spec (Z.pos d) eq_refl) as [Hd1 Hd2].
  pose proof (Z.log2_nonneg (Z.pos n)) as Ha. pose proof (Z.log2_nonneg (Z.pos d)) as Hb.
  set (a := Z.log2 (Z.pos n)) in *. set (b := Z.log2 (Z.pos d)) in *.
  pose proof (pow2_ratio a b Ha Hb) as Hr.
  pose proof (pow2_pos (a - b)) as Hk.
  pose proof (pow2_pos (a - b - 1)) as Hk1.
  pose proof (pow2_double (a - b - 1)) as Hdbl.
  replace (a - b - 1 + 1)%Z with (a - b)%Z in Hdbl by lia.
  assert (Ex : (Z.pos n # d == inject_Z (Z.pos n) / inject_Z (Z.pos d))%Q).
  { rewrite (Qmake_Qdiv (Z.pos n) d). reflexivity. }
  assert (Hdq : (0 < inject_Z (Z.pos d))%Q).
  { change 0%Q with (inject_Z 0). rewrite <- Zlt_Qlt. lia. }
  assert (Qn1 : (inject_Z (2 ^ a) <= inject_Z (Z.pos n))%Q) by (rewrite <- Zle_Qle; lia).
  assert (Qn2 : (inject_Z (Z.pos n) < 2 * inject_Z (2 ^ a))%Q).
  { change 2%Q with (inject_Z 2). rewrite <- inject_Z_mult, <- Zlt_Qlt.
    replace (Z.succ a) with (a + 1)%Z in Hn2 by lia. rewrite Z.pow_add_r in Hn2 by lia. lia. }
  assert (Qd1 : (inject_Z (2 ^ b) <= inject_Z (Z.pos d))%Q) by (rewrite <- Zle_Qle; lia).
  assert (Qd2 : (inject_Z (Z.pos d) < 2 * inject_Z (2 ^ b))%Q).
  { change 2%Q with (inject_Z 2). rewrite <- inject_Z_mult, <- Zlt_Qlt.
    replace (Z.succ b) with (b + 1)%Z in Hd2 by lia. rewrite Z.pow_add_r in Hd2 by lia. lia. }
  destruct (Qle_bool_spec (pow2 (a - b)) (Z.pos n # d)) as [Hle | Hgt].
  - split; [exact Hle |]. rewrite pow2_double, Ex.
    apply Qlt_shift_div_r; [exact Hdq |].
    assert (H : (pow2 (a - b) * inject_Z (2 ^ b) <= pow2 (a - b) * inject_Z (Z.pos d))%Q)
      by (apply Qmult_le_l; assumption).
    lra.
  - replace (a - b - 1 + 1)%Z with (a - b)%Z by lia. split.
    + rewrite Ex. apply Qle_shift_div_l; [exact Hdq |].
      assert (H : (pow2 (a - b - 1) * inject_Z (Z.pos d)
                   <= pow2 (a - b - 1) * (2 * inject_Z (2 ^ b)))%Q).
      { apply Qmult_le_l; [assumption | lra]. }
      rewrite Hdbl in Hr. lra.
    + lra.
Qed.

(** The binary64 neighbour of a number of [0, 1] is within [2^-53] of it. *)
Lemma b64_error (x : Q) :
  (0 <= x <= 1)%Q -> (Qabs (b64 x - x) <= 1 # 9007199254740992)%Q.
Proof.
  destruct x as [num den]. intros [H0 H1]. unfold b64. cbn [Qnum Qden].
  destruct num as [|n|n].
  - apply Qabs_Qle_condition. unfold Qle, Qminus, Qplus, Qopp. cbn. lia.
  - assert (Hnd : (n <= den)%positive).
    { unfold Qle in H1. cbn [Qnum Qden] in H1. lia. }
    pose proof (binade_le_0 n den Hnd) as He.
    set (ulp := pow2 (Z.max (binade n den - 52) (-1074))).
    assert (Hpos : (0 < ulp)%Q) by apply pow2_pos.
    assert (Hsmall : (ulp <= 1 # 4503599627370496)%Q) by (apply pow2_small; lia).
    pose proof (round_half_even_error ((Z.pos n # den) / ulp)) as Hr.
    apply Qabs_Qle_condition in Hr. destruct Hr as [Hlo Hhi].
    set (t := (inject_Z (round_half_even ((Z.pos n # den) / ulp))
               - (Z.pos n # den) / ulp)%Q) in *.
    assert (E : (inject_Z (round_half_even ((Z.pos n # den) / ulp)) * ulp - (Z.pos n # den)
                 == ulp * t)%Q).
    { unfold t. field. lra. }
    rewrite E.
    assert (Hup : (ulp * t <= ulp * (1 # 2))%Q) by (apply Qmult_le_l; assumption).
    assert (Hdn : (ulp * - (1 # 2) <= ulp * t)%Q) by (apply Qmult_le_l; assumption).
    apply Qabs_Qle_condition. split; lra.
  - exfalso. unfold Qle in H0. cbn in H0. lia.
Qed.

Lemma share_in_unit (a b : nat) :
  (a <= b)%nat -> (0 < b)%nat ->
  (0 <= inject_Z (Z.of_nat a) / inject_Z (Z.of_nat b) <= 1)%Q.
Proof.
  intros Hab Hb.
  assert (Hbq : (0 < inject_Z (Z.of_nat b))%Q).
  { change 0%Q with (inject_Z 0). rewrite <- Zlt_Qlt. lia. }
  assert (Ha0 : (0 <= inject_Z (Z.of_nat a))%Q).
  { change 0%Q with (inject_Z 0). rewrite <- Zle_Qle. lia. }
  assert (Hle : (inject_Z (Z.of_nat a) <= inject_Z (Z.of_nat b))%Q).
  { rewrite <- Zle_Qle. lia. }
  split.
  - apply Qle_shift_div_l; [exact Hbq | lra].
  - apply Qle_shift_div_r; [exact Hbq | lra].
Qed.

(** A reported share is within half a thousandth, and the binary64 error of
    the quotient, of the exact share. *)
Lemma rounded_share_error (a b : nat) :
  (a <= b)%nat -> (0 < b)%nat ->
  (Qabs (py_round (true_divide (Z.of_nat a) (Z.of_nat b)) 3
         - inject_Z (Z.of_nat a) / inject_Z (Z.of_nat b))
   <= (1 # 2000) + (1 # 9007199254740992))%Q.
Proof.
  intros Hab Hb.
  pose proof (b64_error _ (share_in_unit a b Hab Hb)) as Hq.
  fold (true_divide (Z.of_nat a) (Z.of_nat b)) in Hq.
  pose proof (py_round_3_error (true_divide (Z.of_nat a) (Z.of_nat b))) as Hr.
  apply Qabs_Qle_condition in Hq. apply Qabs_Qle_condition in Hr.
  apply Qabs_Qle_condition. split; lra.
Qed.

(** A value rounded to three decimals is a whole number of thousandths. *)
Lemma py_round_3_thousandths (x : Q) :
  py_round x 3 = (inject_Z (round_half_even (x * 1000)) / 1000)%Q.
Proof. reflexivity. Qed.

(** The reported shares of counts within [T] add up to the exact shares
    within half a thousandth, and the binary64 error, per share. *)
Lemma rounded_shares_sum (T : nat) (counts : list nat) :
  (0 < T)%nat ->
  Forall (fun n => (n <= T)%nat) counts ->
  (Qabs (Qsum ((fun n => py_round (true_divide (Z.of_nat n) (Z.of_nat T)) 3) <$> counts)
         - inject_Z (Z.of_nat (foldr Nat.add 0%nat counts)) / inject_Z (Z.of_nat T))
   <= inject_Z (Z.of_nat (length counts)) * ((1 # 2000) + (1 # 9007199254740992)))%Q.
Proof.
  intros HT.
  assert (HTq : (0 < inject_Z (Z.of_nat T))%Q).
  { change 0%Q with (inject_Z 0). rewrite <- Zlt_Qlt. lia. }
  induction 1 as [|n counts Hn Hall IH].
  - cbn [fmap list_fmap Qsum foldr length]. change (inject_Z (Z.of_nat 0)) with 0%Q.
    apply Qabs_Qle_condition. unfold Qdiv. split; lra.
  - rewrite fmap_cons. cbn [Qsum foldr length].
    fold (Qsum ((fun n => py_round (true_divide (Z.of_nat n) (Z.of_nat T)) 3) <$> counts)).
    rewrite !Nat2Z.inj_succ, Nat2Z.inj_add, <- Z.add_1_l, !inject_Z_plus.
    change (inject_Z 1) with 1%Q.
    pose proof (rounded_share_error n T Hn HT) as Hs.
    apply Qabs_Qle_condition in Hs. apply Qabs_Qle_condition in IH.
    apply Qabs_Qle_condition.
    set (a := py_round _ 3) in *. set (S' := Qsum _) in *.
    assert (E : ((inject_Z (Z.of_nat n) + inject_Z (Z.of_nat (foldr Nat.add 0%nat counts)))
                 / inject_Z (Z.of_nat T)
                 == inject_Z (Z.of_nat n) / inject_Z (Z.of_nat T)
                    + inject_Z (Z.of_nat (foldr Nat.add 0%nat counts))
                      / inject_Z (Z.of_nat T))%Q).
    { field. lra. }
    rewrite E. split; lra.
Qed.

(** The reported shares add up to a whole number of thousandths. *)
Lemma rounded_shares_thousandths (T : nat) (counts : list nat) :
  exists K : Z,
    (Qsum ((fun n => py_round (true_divide (Z.of_nat n) (Z.of_nat T)) 3) <$> counts)
     == inject_Z K / 1000)%Q.
Proof.
  induction counts as [|n counts [K IH]].
  - exists 0%Z. reflexivity.
  - exists (round_half_even (true_divide (Z.of_nat n) (Z.of_nat T) * 1000) + K)%Z.
    rewrite fmap_cons. cbn [Qsum foldr].
    fold (Qsum ((fun n => py_round (true_divide (Z.of_nat n) (Z.of_nat T)) 3) <$> counts)).
    rewrite IH, py_round_3_thousandths, inject_Z_plus. field.
Qed.

(** A whole number of thousandths within less than five of them of 1 is
    within four. *)
Lemma thousandths_near_one (K : Z) (s : Q) :
  (s == inject_Z K / 1000)%Q ->
  (Qabs (s - 1) <= (8 # 2000) + (8 # 9007199254740992))%Q ->
  (Qabs (s - 1) <= 4 # 1000)%Q.
Proof.
  intros Hs Hb. rewrite Hs in *. clear Hs.
  apply Qabs_Qle_condition in Hb. destruct Hb as [Hlo Hhi].
  assert (H1 : (inject_Z K < inject_Z 1005)%Q).
  { change (inject_Z 1005) with 1005%Q. unfold Qdiv in Hhi.
    change (/ 1000)%Q with (1 # 1000)%Q in Hhi. lra. }
  assert (H2 : (inject_Z 995 < inject_Z K)%Q).
  { change (inject_Z 995) with 995%Q. unfold Qdiv in Hlo.
    change (/ 1000)%Q with (1 # 1000)%Q in Hlo. lra. }
  rewrite <- Zlt_Qlt in H1, H2.
  assert (H3 : (inject_Z K <= inject_Z 1004)%Q) by (rewrite <- Zle_Qle; lia).
  assert (H4 : (inject_Z 996 <= inject_Z K)%Q) by (rewrite <- Zle_Qle; lia).
  change (inject_Z 1004) with 1004%Q in H3. change (inject_Z 996) with 996%Q in H4.
  apply Qabs_Qle_condition. unfold Qdiv. change (/ 1000)%Q with (1 # 1000)%Q.
  split; lra.
Qed.

Lemma summand_le_sum (l : list nat) (n : nat) :
  n ∈ l -> (n <= foldr Nat.add 0%nat l)%nat.
Proof. induction 1 as [n l | n m l Hin IH]; cbn [foldr]; lia. Qed.

Section Mapper.

Variables series_mean series_std : list pyfloat -> pyfloat.
Variable list_of_set : list string -> list string.

Abbreviation is_anomalous := (RiskMapping._is_sensor_anomalous series_mean series_std).
Abbreviation visit := (RiskMapping.visit_sensor series_mean series_std).
Abbreviation analyze := (RiskMapping.analyze series_mean series_std).
Abbreviation map_anomalies :=
  (RiskMapping.map_anomalies_to_risks series_mean series_std list_of_set).

Lemma record_risk_counts (sensor : string) (risks : list string) :
  forall st : RiskMapping.LoopState,
    RiskMapping.sensor_anomaly_counts
      (RiskMapping.agent (foldl (RiskMapping.record_risk sensor) st risks))
    = RiskMapping.sensor_anomaly_counts (RiskMapping.agent st).
Proof.
  induction risks as [|r risks IH]; intros st; simpl; [reflexivity |].
  rewrite IH. reflexivity.
Qed.

(** C6. A sensor is flagged for a sample exactly when its column exists,
    the batch statistics are numbers, the standard deviation is not zero and
    the absolute standardized deviation of the value exceeds 2. A deviation
    of exactly 2 is not flagged, one of 2.0001 is, and a sensor of zero
    standard deviation never is; the function answers for every input. When
    the sensor is not flagged the loop state is unchanged, when it is the
    sensor's anomaly counter grows by one. *)
Theorem sensor_flagged_iff_deviation_exceeds_2 (sensor_name : string) (value : pyfloat)
    (sensor_data : RiskMapping.DataFrame) :
  (is_anomalous sensor_name value sensor_data = true <->
   exists (col : list pyfloat) (v m s : Q),
     RiskMapping.column sensor_data sensor_name = Some col /\
     value = Fin v /\ series_mean col = Fin m /\ series_std col = Fin s /\
     ~ (s == 0)%Q /\ (2 < Qabs ((v - m) / s))%Q) /\
  (forall (col : list pyfloat) (v m s : Q),
     RiskMapping.column sensor_data sensor_name = Some col ->
     value = Fin v -> series_mean col = Fin m -> series_std col = Fin s ->
     ((Qabs ((v - m) / s) == 2)%Q ->
        is_anomalous sensor_name value sensor_data = false) /\
     (~ (s == 0)%Q -> (Qabs ((v - m) / s) == 2.0001)%Q ->
        is_anomalous sensor_name value sensor_data = true) /\
     ((s == 0)%Q -> is_anomalous sensor_name value sensor_data = false)) /\
  (forall (sample : list (string * pyfloat)) (st : RiskMapping.LoopState),
     RiskMapping.assoc sensor_name sample = Some value ->
     (is_anomalous sensor_name value sensor_data = false ->
        visit sensor_data sample st sensor_name = st) /\
     (is_anomalous sensor_name value sensor_data = true ->
        RiskMapping.sensor_anomaly_counts
          (RiskMapping.agent (visit sensor_data sample st sensor_name)) !! sensor_name
        = Some (S (default 0%nat
                     (RiskMapping.sensor_anomaly_counts (RiskMapping.agent st)
                        !! sensor_name))))).
Proof.
  assert (Hiff : is_anomalous sensor_name value sensor_data = true <->
    exists (col : list pyfloat) (v m s : Q),
      RiskMapping.column sensor_data sensor_name = Some col /\
      value = Fin v /\ series_mean col = Fin m /\ series_std col = Fin s /\
      ~ (s == 0)%Q /\ (2 < Qabs ((v - m) / s))%Q).
  { unfold RiskMapping._is_sensor_anomalous, fgt, fabs, fdiv, fsub, lift2, feqb.
    destruct (RiskMapping.column sensor_data sensor_name) as [col|].
    2: { split; [discriminate | intros (? & ? & ? & ? & H & _); discriminate H]. }
    split.
    - destruct (series_std col) as [s|] eqn:Es.
      2: { destruct value, (series_mean col); intros H; discriminate H. }
      destruct (Qeq_bool_spec s 0) as [Hs | Hs]; [discriminate |].
      destruct value as [v|], (series_mean col) as [m|] eqn:Em;
        try (intros H; discriminate H).
      unfold flt. intros H. apply Qltb_lt in H.
      exists col, v, m, s. auto 10.
    - intros (col' & v & m & s & Hc & -> & Hm & Hs & Hs0 & Hz).
      injection Hc as <-. rewrite Hm, Hs.
      destruct (Qeq_bool_spec s 0) as [H0 | _]; [contradiction |].
      unfold flt. now apply Qltb_lt. }
  split; [exact Hiff |]. split.
  - intros col v m s Hc Hv Hm Hs. repeat split.
    + intros Hz. apply not_true_is_false. rewrite Hiff.
      intros (col' & v' & m' & s' & Hc' & Hv' & Hm' & Hs' & Hs0 & Hlt).
      rewrite Hc in Hc'. injection Hc' as <-. rewrite Hv in Hv'. injection Hv' as <-.
      rewrite Hm in Hm'. injection Hm' as <-. rewrite Hs in Hs'. injection Hs' as <-.
      rewrite Hz in Hlt. lra.
    + intros Hs0 Hz. apply Hiff. exists col, v, m, s.
      repeat split; auto. rewrite Hz. lra.
    + intros Hs0. apply not_true_is_false. rewrite Hiff.
      intros (col' & v' & m' & s' & Hc' & Hv' & Hm' & Hs' & Hne & Hlt).
      rewrite Hc in Hc'. injection Hc' as <-.
      rewrite Hs in Hs'. injection Hs' as <-. contradiction.
  - intros sample st Ha. unfold RiskMapping.visit_sensor. rewrite Ha. split.
    + intros ->. reflexivity.
    + intros ->. rewrite record_risk_counts. cbn [RiskMapping.agent
        RiskMapping.sensor_anomaly_counts].
      unfold RiskMapping.incr. apply lookup_insert_eq.
Qed.


Lemma visit_sensor_within (sensor_data : RiskMapping.DataFrame)
    (sample : list (string * pyfloat)) (st : RiskMapping.LoopState) (sensor : string) :
  within_categories (RiskMapping.risk_contributions st) ->
  within_categories (RiskMapping.risk_contributions (visit sensor_data sample st sensor)).
Proof.
  intros Hst. unfold RiskMapping.visit_sensor.
  destruct (RiskMapping.assoc sensor sample) as [value|]; [| exact Hst].
  destruct (RiskMapping._is_sensor_anomalous _ _ _ _ _); [| exact Hst].
  apply record_risks_within; [| exact Hst].
  intros r Hr.
  destruct (RiskMapping.assoc sensor RiskMapping.SENSOR_RISK_MAP) as [risks|] eqn:E.
  - now apply (sensor_risks_in_categories sensor risks).
  - inversion Hr.
Qed.

Lemma visit_sensors_within (sensor_data : RiskMapping.DataFrame)
    (sample : list (string * pyfloat)) (sensors : list string) :
  forall st : RiskMapping.LoopState,
    within_categories (RiskMapping.risk_contributions st) ->
    within_categories
      (RiskMapping.risk_contributions (foldl (visit sensor_data sample) st sensors)).
Proof.
  induction sensors as [|s sensors IH]; intros st Hst; [exact Hst |].
  cbn [foldl]. apply IH. now apply visit_sensor_within.
Qed.

Lemma analyze_within (sensor_data : RiskMapping.DataFrame) (indices : list nat) :
  forall st : RiskMapping.LoopState,
    within_categories (RiskMapping.risk_contributions st) ->
    within_categories
      (RiskMapping.risk_contributions (analyze sensor_data indices st).1).
Proof.
  induction indices as [|idx indices IH]; intros st Hst; [exact Hst |].
  cbn [RiskMapping.analyze].
  destruct (RiskMapping.iloc sensor_data idx) as [sample | e]; [| exact Hst].
  apply IH. now apply visit_sensors_within.
Qed.

(** The call either answers the empty mapping or the mapping built from a
    contribution dictionary whose keys are categories. *)
Lemma map_anomalies_cases (self : RiskMapping.RiskMappingAgent)
    (data : RiskMapping.AnomalyData) :
  (map_anomalies self data).2 = RiskMapping._empty_risk_mapping \/
  exists rc : gmap string (list string),
    within_categories rc /\
    RiskMapping.distribution (map_anomalies self data).2
      = RiskMapping._calculate_risk_distribution rc /\
    RiskMapping.risk_details (map_anomalies self data).2
      = RiskMapping._get_risk_details rc.
Proof.
  unfold RiskMapping.map_anomalies_to_risks.
  destruct (RiskMapping.sensor_data data) as [sensor_data|]; [| now left].
  destruct (RiskMapping.eq_1 _) as [is_1|]; [| now left].
  destruct (Nat.eqb (length is_1) 0); [now left |].
  destruct (Nat.eqb (length (RiskMapping.np_where 0 is_1)) 0); [now left |].
  pose proof (analyze_within sensor_data (RiskMapping.np_where 0 is_1)
                {| RiskMapping.agent := self; RiskMapping.risk_contributions := ∅;
                   RiskMapping.sensor_contribs := [] |} within_categories_empty) as Hw.
  destruct (RiskMapping.analyze _ _ _ _ _) as [st [e|]]; [now left |].
  right. exists (RiskMapping.risk_contributions st). auto.
Qed.

(** C8. When the predictions hold no label equal to 1 (an empty list
    included) the call answers the empty mapping and leaves the agent as it
    was: the eight categories at 0.0, majority category None of severity Low,
    no sensor contribution and no anomaly analysed. *)
Theorem no_positive_label_gives_empty_mapping (self : RiskMapping.RiskMappingAgent)
    (data : RiskMapping.AnomalyData) (labels : list Z) :
  RiskMapping.predictions data = Some (VIntArr labels) ->
  1%Z ∉ labels ->
  let out := map_anomalies self data in
  out = (self, RiskMapping._empty_risk_mapping) /\
  RiskMapping.distribution out.2
    = (fun risk => (risk, 0%Q)) <$> RiskMapping.RISK_CATEGORIES /\
  length (RiskMapping.distribution out.2) = 8%nat /\
  RiskMapping.category (RiskMapping.majority_risk out.2) = "None" /\
  RiskMapping.severity (RiskMapping.majority_risk out.2) = "Low" /\
  RiskMapping.sensor_contributions out.2 = [] /\
  RiskMapping.total_anomalies_analyzed out.2 = 0%nat.
Proof.
  intros Hp Hno out.
  assert (E : out = (self, RiskMapping._empty_risk_mapping)).
  { unfold out, RiskMapping.map_anomalies_to_risks. rewrite Hp.
    destruct (RiskMapping.sensor_data data) as [sensor_data|]; [| reflexivity].
    change (RiskMapping.eq_1 (default (VIntArr []) (Some (VIntArr labels))))
      with (Some ((fun z => Z.eqb z 1) <$> labels)).
    cbv iota beta.
    rewrite (no_positive_np_where labels Hno).
    destruct (Nat.eqb _ 0); reflexivity. }
  rewrite E. repeat split; reflexivity.
Qed.

Lemma contributions_total_eq (rc : gmap string (list string)) :
  within_categories rc ->
  forall r : RiskMapping.RiskMappingResult,
    RiskMapping.risk_details r = RiskMapping._get_risk_details rc ->
    contributions_total r = RiskMapping.total_contributions rc.
Proof.
  intros Hw r Hr. unfold contributions_total. rewrite Hr, risk_details_totals.
  apply sum_lengths_total; [apply categories_NoDup | exact Hw].
Qed.

(** C2 (amended). The returned distribution lists the eight categories in
    order. When the call reports contributions, every value is what
    [round(count / total, 3)] gives on the binary64 quotient of the
    category's count by the total: a whole number of thousandths within
    0.0005 + 2^-53 of the category's share, and the values add up to 1 within
    0.004. A share at a decimal tie goes the way of the binary64 quotient:
    1/80 is reported as 0.013 and 39/80 as 0.487, where rounding the exact
    shares to the even neighbour would give 0.012 and 0.488. When the call
    reports no contribution, every value is 0.0. *)
Theorem distribution_sums_to_one_up_to_rounding (self : RiskMapping.RiskMappingAgent)
    (data : RiskMapping.AnomalyData) :
  let r := (map_anomalies self data).2 in
  fst <$> RiskMapping.distribution r = RiskMapping.RISK_CATEGORIES /\
  ((0 < contributions_total r)%nat ->
     (forall (risk : string) (d : RiskMapping.RiskDetail),
        (risk, d) ∈ RiskMapping.risk_details r ->
        let v := py_round (true_divide (Z.of_nat (RiskMapping.total d))
                             (Z.of_nat (contributions_total r))) 3 in
        (risk, v) ∈ RiskMapping.distribution r /\
        (exists k : Z, v = (inject_Z k / 1000)%Q) /\
        (Qabs (v - inject_Z (Z.of_nat (RiskMapping.total d))
                   / inject_Z (Z.of_nat (contributions_total r)))
         <= (1 # 2000) + (1 # 9007199254740992))%Q) /\
     (Qabs (distribution_sum r - 1) <= 4 # 1000)%Q) /\
  (contributions_total r = 0%nat ->
     forall kv : string * Q, kv ∈ RiskMapping.distribution r -> kv.2 = 0%Q) /\
  ((py_round (true_divide 1 80) 3 == 0.013)%Q /\
   (py_round (true_divide 39 80) 3 == 0.487)%Q /\
   (py_round (1 # 80) 3 == 0.012)%Q /\
   (py_round (39 # 80) 3 == 0.488)%Q).
Proof.
  intros r.
  assert (Hties : (py_round (true_divide 1 80) 3 == 0.013)%Q /\
                  (py_round (true_divide 39 80) 3 == 0.487)%Q /\
                  (py_round (1 # 80) 3 == 0.012)%Q /\
                  (py_round (39 # 80) 3 == 0.488)%Q).
  { repeat split; vm_compute; reflexivity. }
  destruct (map_anomalies_cases self data) as [E | (rc & Hw & Hd & Hr)];
    fold r in E || fold r in Hd, Hr.
  - rewrite E. split; [reflexivity |]. split; [| split; [| exact Hties]].
    + intros H. vm_compute in H. lia.
    + intros _ kv Hkv. cbn [RiskMapping.distribution RiskMapping._empty_risk_mapping] in Hkv.
      apply list_elem_of_fmap in Hkv. destruct Hkv as (c & -> & _). reflexivity.
  - pose proof (contributions_total_eq rc Hw r Hr) as Ht.
    rewrite Ht. unfold distribution_sum. rewrite Hd, Hr.
    unfold RiskMapping._calculate_risk_distribution.
    destruct (Nat.eqb_spec (RiskMapping.total_contributions rc) 0) as [E0 | Hne].
    + split; [rewrite <- list_fmap_compose; apply list_fmap_id |].
      split; [lia |]. split; [| exact Hties]. intros _ kv Hkv.
      apply list_elem_of_fmap in Hkv. destruct Hkv as (c & -> & _). reflexivity.
    + split; [rewrite <- list_fmap_compose; apply list_fmap_id |].
      split; [| split; [lia | exact Hties]]. intros Hpos.
      assert (Hall : Forall (fun n => (n <= RiskMapping.total_contributions rc)%nat)
                       ((fun c => length (RiskMapping.rc_get rc c))
                          <$> RiskMapping.RISK_CATEGORIES)).
      { apply Forall_forall. intros n Hn.
        rewrite <- (sum_lengths_total _ categories_NoDup rc Hw).
        now apply summand_le_sum. }
      split.
      * intros risk d Hin. unfold RiskMapping._get_risk_details in Hin.
        apply list_elem_of_fmap in Hin. destruct Hin as (c & [= -> ->] & Hc).
        cbn [RiskMapping.total]. cbv zeta. split; [| split].
        -- apply list_elem_of_fmap. exists c. auto.
        -- eexists. apply py_round_3_thousandths.
        -- apply rounded_share_error; [| exact Hpos].
           rewrite Forall_forall in Hall. apply Hall.
           apply list_elem_of_fmap. exists c. auto.
      * rewrite <- list_fmap_compose.
        pose proof (rounded_shares_sum (RiskMapping.total_contributions rc)
                      ((fun c => length (RiskMapping.rc_get rc c))
                         <$> RiskMapping.RISK_CATEGORIES) Hpos Hall) as Hsum.
        destruct (rounded_shares_thousandths (RiskMapping.total_contributions rc)
                    ((fun c => length (RiskMapping.rc_get rc c))
                       <$> RiskMapping.RISK_CATEGORIES)) as [K HK].
        rewrite <- list_fmap_compose in Hsum, HK.
        rewrite (sum_lengths_total _ categories_NoDup rc Hw) in Hsum.
        rewrite length_fmap in Hsum.
        change (length RiskMapping.RISK_CATEGORIES) with 8%nat in Hsum.
        change (inject_Z (Z.of_nat 8)) with 8%Q in Hsum.
        assert (Hone : (inject_Z (Z.of_nat (RiskMapping.total_contributions rc))
                        / inject_Z (Z.of_nat (RiskMapping.total_contributions rc))
                        == 1)%Q).
        { field. change 0%Q with (inject_Z 0). rewrite inject_Z_injective. lia. }
        rewrite Hone in Hsum.
        unfold compose in *. cbn [snd].
        apply (thousandths_near_one K); [exact HK |].
        apply Qabs_Qle_condition in Hsum. apply Qabs_Qle_condition. split; lra.
Qed.


End Mapper.

(** The empty mapping on the nine-row frame with no positive label. *)
Lemma no_positive_label_gives_empty_mapping_witness :
  RiskMapping.map_anomalies_to_risks pandas_mean pandas_std first_seen_order
    RiskMapping.__init__ no_row_positive
  = (RiskMapping.__init__, RiskMapping._empty_risk_mapping).
Proof.
  apply (no_positive_label_gives_empty_mapping pandas_mean pandas_std first_seen_order
           RiskMapping.__init__ no_row_positive [0; 0; 0; 0; 0; 0; 0; 0; 0]%Z).
  - reflexivity.
  - apply (bool_decide_unpack _). vm_compute. exact I.
Defined.

(** One flagged level sensor contributes once to each of its three
    categories: every share is a third, rounded to 0.333, and the values add
    up to 0.999. *)
Lemma distribution_sum_counterexample :
  contributions_total
    (RiskMapping.map_anomalies_to_risks pandas_mean pandas_std first_seen_order
       RiskMapping.__init__ last_row_positive).2 = 3%nat /\
  (distribution_sum
     (RiskMapping.map_anomalies_to_risks pandas_mean pandas_std first_seen_order
        RiskMapping.__init__ last_row_positive).2 == 0.999)%Q /\
  ~ (Qabs (distribution_sum
             (RiskMapping.map_anomalies_to_risks pandas_mean pandas_std first_seen_order
                RiskMapping.__init__ last_row_positive).2 - 1) <= 1 # 1000000)%Q.
Proof.
  split; [vm_compute; reflexivity |]. split; [vm_compute; reflexivity |].
  vm_compute. intros H. apply H. reflexivity.
Qed.

End RiskMappingProofs.

(* ================================================================== *)
(** ** The coordinator *)
(* ================================================================== *)

Module CoordinationProofs.
Import Py PyFacts Spec Coordination.

(** The dictionary [detect] returns: the probabilities are stored under
    the singular key. *)
Lemma detect_keys (self : FaultDetection.FaultDetectionAgent)
    (X : FaultDetection.Features) (det : gmap string pyval) :
  FaultDetection.detect self X = Ok det ->
  det !! "attack_probabilities" = None /\
  is_Some (det !! "attack_probability") /\
  is_Some (det !! "predictions").
Proof.
  unfold FaultDetection.detect.
  destruct (FaultDetection.model self) as [model|]; [| discriminate].
  destruct (FaultDetection.predict model X) as [y_pred|]; [| discriminate].
  cbn [mbind result_bind].
  destruct (FaultDetection.predict_proba model X) as [proba|]; [| discriminate].
  cbn [mbind result_bind].
  destruct (FaultDetection.column_1 proba) as [y_prob|]; [| discriminate].
  destruct (FaultDetection.row_max proba) as [confidence|]; [| discriminate].
  intros [= <-]. split; [| split].
  - rewrite !lookup_insert_ne by discriminate. apply lookup_empty.
  - rewrite lookup_insert_ne by discriminate. rewrite lookup_insert_eq. eauto.
  - rewrite !lookup_insert_ne by discriminate. rewrite lookup_insert_eq. eauto.
Qed.

Section Coordinator.

Context {P D C O K M : Type}.
Context `{!PerceptionLike P, !DetectorLike D, !CyberLike C,
          !OperationalLike O, !DecisionLike K, !RiskMapperLike M}.
Variable now : nat -> string.

Abbreviation agent := (CoordinationAgent (P := P) (D := D) (C := C) (O := O) (K := K) (M := M)).

(** Logging and state changes do not touch the registered agents. *)
Lemma mandatory_chain_frame (self : agent) (raw_data : RiskMapping.DataFrame)
    (message lvl state : string) :
  mandatory_chain (set_system_state (_log_event now self message lvl) state) raw_data
  = mandatory_chain self raw_data.
Proof. reflexivity. Qed.

Lemma mandatory_chain_unregistered (self : agent) (raw_data : RiskMapping.DataFrame) :
  perception_agent self = None \/ fault_detection_agent self = None \/
  cyber_risk_agent self = None \/ operational_risk_agent self = None \/
  decision_agent self = None ->
  exists e : exn, mandatory_chain self raw_data = Raise e.
Proof.
  intros Hnone. unfold mandatory_chain, call.
  destruct (perception_agent self) as [p|]; [| eexists; reflexivity].
  destruct (preprocess p raw_data) as [[X ts]|e]; [| eexists; reflexivity].
  cbn [mbind result_bind].
  destruct (fault_detection_agent self) as [d|]; [| eexists; reflexivity].
  destruct (detect d X) as [det|e]; [| eexists; reflexivity].
  cbn [mbind result_bind].
  destruct (cyber_risk_agent self) as [c|]; [| eexists; reflexivity].
  destruct (cyber_assess_risk c det ts) as [cy|e]; [| eexists; reflexivity].
  cbn [mbind result_bind].
  destruct (operational_risk_agent self) as [o|]; [| eexists; reflexivity].
  destruct (operational_assess_risk o det cy) as [op|e]; [| eexists; reflexivity].
  cbn [mbind result_bind].
  destruct (decision_agent self) as [k|]; [| eexists; reflexivity].
  exfalso. destruct Hnone as [H0 | [H0 | [H0 | [H0 | H0]]]]; discriminate H0.
Qed.

(** C3 (amended). A call to [process_data] while one of the five mandatory
    collaborators is missing is not refused up front: the start of the
    pipeline is logged, the call on the missing collaborator fails (or an
    earlier stage does), the failure is caught, and the call returns an ERROR
    result carrying the message. Afterwards the state is ERROR, the log holds
    the start entry and the error entry after what it held before, and the
    registered collaborators are as they were. *)
Theorem unregistered_collaborator_gives_error_result (self : agent)
    (raw_data : RiskMapping.DataFrame) :
  perception_agent self = None \/ fault_detection_agent self = None \/
  cyber_risk_agent self = None \/ operational_risk_agent self = None \/
  decision_agent self = None ->
  exists msg : string,
    let started :=
      {| timestamp := now (length (execution_log self));
         level := "INFO"; message := "Starting data processing pipeline" |} in
    let failed :=
      {| timestamp := now (S (length (execution_log self)));
         level := "ERROR"; message := "Pipeline error: " ++ msg |} in
    let after := (process_data now self raw_data).1 in
    (process_data now self raw_data).2
      = ERROR {| e_system_state := "ERROR"; error := msg;
                 e_execution_log := execution_log self ++ [started; failed] |} /\
    system_state after = "ERROR" /\
    execution_log after = execution_log self ++ [started; failed] /\
    perception_agent after = perception_agent self /\
    fault_detection_agent after = fault_detection_agent self /\
    cyber_risk_agent after = cyber_risk_agent self /\
    operational_risk_agent after = operational_risk_agent self /\
    decision_agent after = decision_agent self /\
    risk_mapping_agent after = risk_mapping_agent self.
Proof.
  intros Hnone. destruct (mandatory_chain_unregistered self raw_data Hnone) as [e He].
  exists (str e). unfold process_data. rewrite mandatory_chain_frame, He.
  cbn [fst snd system_state execution_log perception_agent fault_detection_agent
       cyber_risk_agent operational_risk_agent decision_agent risk_mapping_agent
       _log_event set_system_state].
  rewrite length_app, Nat.add_1_r, <- app_assoc. repeat split; reflexivity.
Qed.

Lemma risk_mapping_step_raises (self : agent) (raw_data : RiskMapping.DataFrame)
    (det : gmap string pyval) (m m' : M) (e : exn) :
  risk_mapping_agent self = Some m ->
  invoke_risk_mapper m det raw_data = (Raise e, m') ->
  risk_mapping_step now self det raw_data
  = (_log_event now (set_risk_mapping_agent self m')
       ("Risk mapping error: " ++ str e) "WARNING", None).
Proof. intros Hm Hinv. unfold risk_mapping_step. rewrite Hm, Hinv. reflexivity. Qed.

Lemma mandatory_chain_detect (self : agent) (raw_data : RiskMapping.DataFrame)
    (det : gmap string pyval) (cy : Cyber.CyberAssessment)
    (op : Operational.OperationalAssessment) (dec : Decision.Decisions) :
  mandatory_chain self raw_data = Ok (det, cy, op, dec) ->
  exists (d : D) (X : FaultDetection.Features),
    fault_detection_agent self = Some d /\ detect d X = Ok det.
Proof.
  unfold mandatory_chain, call.
  destruct (perception_agent self) as [p|]; [| discriminate].
  destruct (preprocess p raw_data) as [[X ts]|e]; [| discriminate].
  cbn [mbind result_bind].
  destruct (fault_detection_agent self) as [d|]; [| discriminate].
  destruct (detect d X) as [det'|e] eqn:Ed; [| discriminate].
  cbn [mbind result_bind].
  destruct (cyber_risk_agent self) as [c|]; [| discriminate].
  destruct (cyber_assess_risk c det' ts) as [cy'|e]; [| discriminate].
  cbn [mbind result_bind].
  destruct (operational_risk_agent self) as [o|]; [| discriminate].
  destruct (operational_assess_risk o det' cy') as [op'|e]; [| discriminate].
  cbn [mbind result_bind].
  destruct (decision_agent self) as [k|]; [| discriminate].
  destruct (decide k cy' op') as [dec'|e]; [| discriminate].
  cbn [mbind result_bind].
  intros [= <- _ _ _]. eauto.
Qed.

(** C7. When the mandatory chain succeeds and the call of the registered
    risk mapper raises, [process_data] returns a SUCCESS result with the
    assessments and decisions of the chain and no risk mapping; the exception
    is logged as a WARNING between the start and the success entries, and the
    state ends COMPLETED. *)
Theorem risk_mapping_failure_is_swallowed (self : agent)
    (raw_data : RiskMapping.DataFrame) (det : gmap string pyval)
    (cy : Cyber.CyberAssessment) (op : Operational.OperationalAssessment)
    (dec : Decision.Decisions) (m m' : M) (e : exn) :
  mandatory_chain self raw_data = Ok (det, cy, op, dec) ->
  risk_mapping_agent self = Some m ->
  invoke_risk_mapper m det raw_data = (Raise e, m') ->
  let started :=
    {| timestamp := now (length (execution_log self));
       level := "INFO"; message := "Starting data processing pipeline" |} in
  let warned :=
    {| timestamp := now (S (length (execution_log self)));
       level := "WARNING"; message := "Risk mapping error: " ++ str e |} in
  let completed :=
    {| timestamp := now (S (S (length (execution_log self))));
       level := "SUCCESS"; message := "Pipeline completed successfully" |} in
  let after := (process_data now self raw_data).1 in
  (process_data now self raw_data).2
    = SUCCESS {| s_system_state := "COMPLETED";
                 detection_results := det;
                 cyber_assessment := cy;
                 operational_assessment := op;
                 decisions := dec;
                 s_execution_log := execution_log self ++ [started; warned; completed];
                 risk_mapping := None |} /\
  system_state after = "COMPLETED" /\
  execution_log after = execution_log self ++ [started; warned; completed].
Proof.
  intros Hchain Hm Hinv started warned completed after.
  unfold after, process_data. rewrite mandatory_chain_frame, Hchain.
  rewrite (risk_mapping_step_raises _ raw_data det m m' e) by exact Hm || exact Hinv.
  cbn [fst snd system_state execution_log _log_event set_system_state
       set_risk_mapping_agent].
  rewrite !length_app. cbn [length]. rewrite !Nat.add_1_r, <- !app_assoc.
  repeat split; reflexivity.
Qed.

End Coordinator.

Section RepositoryDetector.

Context {P C O K M : Type}.
Context `{!PerceptionLike P, !CyberLike C, !OperationalLike O, !DecisionLike K,
          !RiskMapperLike M}.
Variable now : nat -> string.

(** C10. With the repository's fault detection agent registered, a
    successful mandatory chain leaves a dictionary without the key
    attack_probabilities (the probabilities are under attack_probability), so
    building the mapper's argument raises that KeyError before the mapper is
    called; the result is a SUCCESS without risk mapping, the log holds the
    warning, and the mapper is as it was. *)
Theorem risk_mapping_key_is_never_found
    (self : CoordinationAgent (P := P) (D := FaultDetection.FaultDetectionAgent)
              (C := C) (O := O) (K := K) (M := M))
    (raw_data : RiskMapping.DataFrame) (det : gmap string pyval)
    (cy : Cyber.CyberAssessment) (op : Operational.OperationalAssessment)
    (dec : Decision.Decisions) (m : M) :
  mandatory_chain self raw_data = Ok (det, cy, op, dec) ->
  risk_mapping_agent self = Some m ->
  let started :=
    {| timestamp := now (length (execution_log self));
       level := "INFO"; message := "Starting data processing pipeline" |} in
  let warned :=
    {| timestamp := now (S (length (execution_log self)));
       level := "WARNING"; message := "Risk mapping error: 'attack_probabilities'" |} in
  let completed :=
    {| timestamp := now (S (S (length (execution_log self))));
       level := "SUCCESS"; message := "Pipeline completed successfully" |} in
  let after := (process_data now self raw_data).1 in
  det !! "attack_probabilities" = None /\
  is_Some (det !! "attack_probability") /\
  invoke_risk_mapper m det raw_data = (Raise (KeyError "attack_probabilities"), m) /\
  (process_data now self raw_data).2
    = SUCCESS {| s_system_state := "COMPLETED";
                 detection_results := det;
                 cyber_assessment := cy;
                 operational_assessment := op;
                 decisions := dec;
                 s_execution_log := execution_log self ++ [started; warned; completed];
                 risk_mapping := None |} /\
  risk_mapping_agent after = Some m.
Proof.
  intros Hchain Hm started warned completed after.
  destruct (mandatory_chain_detect self raw_data det cy op dec Hchain)
    as (d & X & _ & Hdet).
  destruct (detect_keys d X det Hdet) as (Hnone & Hsome & [preds Hpreds]).
  assert (Hinv : invoke_risk_mapper m det raw_data
                 = (Raise (KeyError "attack_probabilities"), m)).
  { unfold invoke_risk_mapper, getitem. rewrite Hpreds, Hnone. reflexivity. }
  split; [exact Hnone |]. split; [exact Hsome |]. split; [exact Hinv |].
  unfold after, process_data. rewrite mandatory_chain_frame, Hchain.
  rewrite (risk_mapping_step_raises now _ raw_data det m m (KeyError "attack_probabilities"))
    by exact Hm || exact Hinv.
  cbn [fst snd system_state execution_log risk_mapping_agent _log_event
       set_system_state set_risk_mapping_agent].
  rewrite !length_app. cbn [length]. rewrite !Nat.add_1_r, <- !app_assoc.
  split; reflexivity.
Qed.

End RepositoryDetector.

(** The repository's agents registered without a decision agent. *)
Lemma unregistered_collaborator_gives_error_result_witness :
  exists msg : string,
    error_of (process_data clock coordinator_without_decision frame_9).2 = Some msg /\
    system_state (process_data clock coordinator_without_decision frame_9).1 = "ERROR".
Proof.
  destruct (unregistered_collaborator_gives_error_result clock
              coordinator_without_decision frame_9)
    as (msg & Hres & Hstate & _).
  - right. right. right. right. reflexivity.
  - exists msg. split; [rewrite Hres; reflexivity | exact Hstate].
Defined.

(** A call on a fresh coordinator, and one on a coordinator registered
    without a decision agent, both end in state ERROR with a longer log. *)
Lemma process_before_registration_counterexample :
  system_state fresh_coordinator = "INITIALIZED" /\
  execution_log fresh_coordinator = [] /\
  system_state (process_data clock fresh_coordinator frame_9).1 = "ERROR" /\
  length (execution_log (process_data clock fresh_coordinator frame_9).1) = 2%nat /\
  error_of (process_data clock fresh_coordinator frame_9).2
    = Some "'NoneType' object has no attribute 'preprocess'" /\
  system_state coordinator_without_decision = "READY" /\
  system_state (process_data clock coordinator_without_decision frame_9).1 = "ERROR" /\
  error_of (process_data clock coordinator_without_decision frame_9).2
    = Some "'NoneType' object has no attribute 'decide'".
Proof. repeat split; vm_compute; reflexivity. Qed.

(** A mapper that raises, behind a detector that answers both keys. *)
Lemma risk_mapping_failure_is_swallowed_witness :
  exists r : SuccessResult,
    (process_data clock coordinator_with_failing_mapper frame_9).2 = SUCCESS r /\
    risk_mapping r = None /\
    (level <$> s_execution_log r) = ["INFO"; "INFO"; "WARNING"; "SUCCESS"].
Proof.
  assert (Hok : is_Ok (mandatory_chain coordinator_with_failing_mapper frame_9) = true)
    by (vm_compute; reflexivity).
  destruct (mandatory_chain coordinator_with_failing_mapper frame_9)
    as [[[[det cy] op] dec] | e] eqn:Hchain; [| discriminate Hok].
  assert (Hinv : exists e : exn,
             invoke_risk_mapper failing_mapper det frame_9 = (Raise e, failing_mapper)).
  { unfold invoke_risk_mapper.
    destruct (getitem det "predictions"); [| eauto].
    destruct (getitem det "attack_probabilities"); [| eauto].
    eexists. reflexivity. }
  destruct Hinv as [e Hinv].
  destruct (risk_mapping_failure_is_swallowed clock coordinator_with_failing_mapper
              frame_9 det cy op dec failing_mapper failing_mapper e Hchain eq_refl Hinv)
    as (Hres & _ & _).
  eexists. split; [exact Hres |]. split; reflexivity.
Defined.

(** The repository's agents, mapper included, on three rows. *)
Lemma risk_mapping_key_is_never_found_witness :
  exists r : SuccessResult,
    (process_data clock coordinator_of_repository frame_9).2 = SUCCESS r /\
    risk_mapping r = None /\
    (message <$> s_execution_log r)
      = ["All agents registered"; "Starting data processing pipeline";
         "Risk mapping error: 'attack_probabilities'";
         "Pipeline completed successfully"].
Proof.
  assert (Hok : is_Ok (mandatory_chain coordinator_of_repository frame_9) = true)
    by (vm_compute; reflexivity).
  destruct (mandatory_chain coordinator_of_repository frame_9)
    as [[[[det cy] op] dec] | e] eqn:Hchain; [| discriminate Hok].
  destruct (risk_mapping_key_is_never_found clock coordinator_of_repository
              frame_9 det cy op dec RiskMapping.__init__ Hchain eq_refl)
    as (_ & _ & _ & Hres & _).
  eexists. split; [exact Hres |]. split; reflexivity.
Defined.

End CoordinationProofs.

(* ================================================================== *)
(** ** The cyber agent: every outcome of an assessment *)
(* ================================================================== *)

Module CyberOutcomes.
Import Py PyFacts Spec CyberProofs ScenarioProofs.

(** X1. The cyber risk score is always a number, never NaN, and at most 1.
    A NaN average probability, anomaly rate or temporal risk makes the score
    exactly 1.0, since [min(1.0, nan)] answers its first argument. For three
    inputs between 0 and 1 the score is 0.4 avg + 0.3 rate + 0.3 temporal and
    lies between 0 and 1. *)
Theorem cyber_risk_score_is_a_number_at_most_1 (avg_prob anomaly_rate temporal_risk : pyfloat) :
  (exists s : Q,
     Cyber._calculate_cyber_risk_score avg_prob anomaly_rate temporal_risk = Fin s /\
     (s <= 1)%Q) /\
  (avg_prob = NaN \/ anomaly_rate = NaN \/ temporal_risk = NaN ->
   Cyber._calculate_cyber_risk_score avg_prob anomaly_rate temporal_risk = Fin 1) /\
  (forall a r t : Q,
     avg_prob = Fin a -> anomaly_rate = Fin r -> temporal_risk = Fin t ->
     (0 <= a <= 1)%Q -> (0 <= r <= 1)%Q -> (0 <= t <= 1)%Q ->
     exists s : Q,
       Cyber._calculate_cyber_risk_score avg_prob anomaly_rate temporal_risk = Fin s /\
       (s == 0.4 * a + 0.3 * r + 0.3 * t)%Q /\ (0 <= s <= 1)%Q).
Proof.
  unfold Cyber._calculate_cyber_risk_score, py_min, fadd, fmul, lift2, flt.
  split; [| split].
  - destruct avg_prob as [a|], anomaly_rate as [r|], temporal_risk as [t|];
      try (exists 1%Q; split; [reflexivity | lra]).
    destruct (Qltb_spec (0.4 * a + 0.3 * r + 0.3 * t) 1) as [H | H].
    + eexists. split; [reflexivity | lra].
    + exists 1%Q. split; [reflexivity | lra].
  - destruct avg_prob, anomaly_rate, temporal_risk; intros [H | [H | H]];
      try discriminate H; reflexivity.
  - intros a r t -> -> -> Ha Hr Ht.
    destruct (Qltb_spec (0.4 * a + 0.3 * r + 0.3 * t) 1) as [H | H].
    + eexists. split; [reflexivity |]. split; [reflexivity | lra].
    + exists 1%Q. split; [reflexivity |]. split; lra.
Qed.

Lemma foldl_max_of_spec (t : list Q) :
  forall x : Q,
    foldl max_of x t ∈ x :: t /\
    forall p : Q, p ∈ x :: t -> (p <= foldl max_of x t)%Q.
Proof.
  induction t as [|y t IH]; intros x; cbn [foldl].
  - split; [left |]. intros p Hp. apply list_elem_of_singleton in Hp. subst.
    apply Qle_refl.
  - destruct (IH (max_of x y)) as [Hin Hge].
    assert (E : max_of x y = if Qltb x y then y else x) by reflexivity.
    rewrite E in *. clear E.
    destruct (Qltb_spec x y) as [Hlt | Hnlt].
    + split; [right; exact Hin |].
      intros p Hp. apply elem_of_cons in Hp. destruct Hp as [-> | Hp].
      * assert (y <= foldl max_of y t)%Q by (apply Hge; left). lra.
      * apply Hge. exact Hp.
    + split.
      * apply elem_of_cons in Hin. destruct Hin as [-> | Hin]; [left |].
        right. right. exact Hin.
      * intros p Hp. apply elem_of_cons in Hp. destruct Hp as [-> | Hp]; [apply Hge; left |].
        apply elem_of_cons in Hp. destruct Hp as [-> | Hp].
        -- assert (x <= foldl max_of x t)%Q by (apply Hge; left). lra.
        -- apply Hge. right. exact Hp.
Qed.

Lemma np_max_spec (probs : list Q) (mx : Q) :
  np_max probs = Ok mx -> mx ∈ probs /\ forall p : Q, p ∈ probs -> (p <= mx)%Q.
Proof.
  destruct probs as [|x t]; [discriminate |]. intros [= <-]. apply foldl_max_of_spec.
Qed.

Lemma identify_attack_pattern_mismatch (flags : list bool) (probs : list Q) :
  np_any flags = true -> length probs <> length flags ->
  exists msg : string, Cyber._identify_attack_pattern flags probs = Raise (IndexError msg).
Proof.
  intros Hany Hlen. unfold Cyber._identify_attack_pattern, bool_index. rewrite Hany.
  destruct (Nat.eqb_spec (length probs) (length flags)); [contradiction |].
  eexists. reflexivity.
Qed.

Lemma identify_attack_pattern_no_positive (flags : list bool) (probs : list Q) :
  np_any flags = false ->
  Cyber._identify_attack_pattern flags probs
  = Ok (if fgt (np_mean_flags flags) (Fin 0.8) then "Persistent Attack"
        else if fgt (np_mean_flags flags) (Fin 0.5) then "Intermittent Attack"
        else if fgt (np_mean_flags flags) (Fin 0.1) then "Sporadic Anomalies"
        else "Normal Operation").
Proof.
  intros Hany. unfold Cyber._identify_attack_pattern. rewrite Hany.
  cbn [mbind result_bind].
  change (fgt (Fin 0) (Fin 0.9)) with false.
  repeat match goal with |- context [if ?b then _ else _] => destruct b end; reflexivity.
Qed.

(** X2. What the cyber agent's [assess_risk] answers on a dictionary: a
    KeyError naming attack_probability when that key is missing, then one
    naming anomaly_detected; a ValueError for an empty probability array; an
    IndexError when some label is positive and the two arrays differ in
    length. Otherwise it answers an assessment whose anomaly count is the
    number of positive labels, whose maximum attack probability is an element
    of the array that no other exceeds, and whose risk level is one of low,
    medium, high and critical. *)
Theorem cyber_assess_risk_outcomes (self : Cyber.CyberRiskAssessmentAgent)
    (det : gmap string pyval) (ts : option (list string)) :
  (det !! "attack_probability" = None ->
   Cyber.assess_risk self det ts = Raise (KeyError "attack_probability")) /\
  (forall probs : list Q,
     det !! "attack_probability" = Some (VFloatArr probs) ->
     (det !! "anomaly_detected" = None ->
      Cyber.assess_risk self det ts = Raise (KeyError "anomaly_detected")) /\
     (forall flags : list bool,
        det !! "anomaly_detected" = Some (VBoolArr flags) ->
        (probs = [] ->
         exists msg : string, Cyber.assess_risk self det ts = Raise (ValueError msg)) /\
        (probs <> [] -> np_any flags = true -> length probs <> length flags ->
         exists msg : string, Cyber.assess_risk self det ts = Raise (IndexError msg)) /\
        (probs <> [] -> np_any flags = false \/ length probs = length flags ->
         exists a : Cyber.CyberAssessment,
           Cyber.assess_risk self det ts = Ok a /\
           Cyber.anomaly_count a = Z.of_nat (count_true flags) /\
           Cyber.max_attack_probability a ∈ probs /\
           (forall p : Q, p ∈ probs -> (p <= Cyber.max_attack_probability a)%Q) /\
           Cyber.risk_level a ∈ ["low"; "medium"; "high"; "critical"]))).
Proof.
  split.
  - intros Hnone. unfold Cyber.assess_risk, getitem. rewrite Hnone. reflexivity.
  - intros probs Hp. split.
    + intros Hnone. unfold Cyber.assess_risk, getitem. rewrite Hp, Hnone. reflexivity.
    + intros flags Hf. split; [| split].
      * intros ->. unfold Cyber.assess_risk, getitem. rewrite Hp, Hf.
        eexists. reflexivity.
      * intros Hne Hany Hlen.
        destruct (np_max_nonempty probs Hne) as [mx Hmx].
        destruct (identify_attack_pattern_mismatch flags probs Hany Hlen) as [msg Hmsg].
        exists msg. unfold Cyber.assess_risk, getitem. rewrite Hp, Hf.
        cbn [mbind result_bind as_floats as_bools]. rewrite Hmx.
        cbn [mbind result_bind]. rewrite Hmsg. reflexivity.
      * intros Hne Hcase.
        destruct (np_max_nonempty probs Hne) as [mx Hmx].
        assert (Hsig : exists sig, Cyber._identify_attack_pattern flags probs = Ok sig).
        { destruct Hcase as [Hany | Hlen].
          - rewrite (identify_attack_pattern_no_positive flags probs Hany). eauto.
          - now apply identify_attack_pattern_ok. }
        destruct Hsig as [sig Hsig].
        rewrite (assess_risk_unfold self det ts flags probs mx sig Hp Hf Hmx Hsig).
        eexists. split; [reflexivity |].
        cbn [Cyber.anomaly_count Cyber.max_attack_probability Cyber.risk_level].
        destruct (np_max_spec probs mx Hmx) as [Hin Hge].
        split; [reflexivity |]. split; [exact Hin |]. split; [exact Hge |].
        destruct (Cyber._classify_risk_level self _); cbn [value];
          repeat (first [apply list_elem_of_here | apply list_elem_of_further]).
Qed.

Lemma np_any_false_count (flags : list bool) : np_any flags = false -> count_true flags = 0%nat.
Proof.
  unfold np_any, count_true. induction flags as [|b flags IH]; [reflexivity |].
  cbn [existsb]. destruct b; [discriminate |]. intros H.
  rewrite filter_cons, decide_False by discriminate. now apply IH.
Qed.

Lemma temporal_loop_no_positive (flags : list bool) :
  np_any flags = false -> forall m : nat, Cyber.temporal_loop flags 0 m = m.
Proof.
  unfold np_any. induction flags as [|b flags IH]; intros H m; [reflexivity |].
  cbn [existsb] in H. destruct b; [discriminate |]. cbn [Cyber.temporal_loop]. now apply IH.
Qed.

Lemma Qsum_bounds (probs : list Q) :
  (forall p : Q, p ∈ probs -> (0 <= p <= 1)%Q) ->
  (0 <= Qsum probs <= inject_Z (Z.of_nat (length probs)))%Q.
Proof.
  induction probs as [|p probs IH]; intros H.
  - cbn. split; apply Qle_refl.
  - cbn [Qsum foldr length]. fold (Qsum probs).
    rewrite Nat2Z.inj_succ, <- Z.add_1_l, inject_Z_plus. change (inject_Z 1) with 1%Q.
    assert (Hp : (0 <= p <= 1)%Q) by (apply H; left).
    assert (Hs : (0 <= Qsum probs <= inject_Z (Z.of_nat (length probs)))%Q).
    { apply IH. intros q Hq. apply H. now right. }
    split; lra.
Qed.

Lemma Qmean_bounds (probs : list Q) :
  probs <> [] ->
  (forall p : Q, p ∈ probs -> (0 <= p <= 1)%Q) ->
  (0 <= Qmean probs <= 1)%Q.
Proof.
  intros Hne H. pose proof (Qsum_bounds probs H) as [Hlo Hhi]. unfold Qmean.
  assert (Hn : (0 < inject_Z (Z.of_nat (length probs)))%Q).
  { change 0%Q with (inject_Z 0). rewrite <- Zlt_Qlt. destruct probs; [congruence |].
    cbn [length]. lia. }
  split.
  - apply Qle_shift_div_l; [exact Hn | lra].
  - apply Qle_shift_div_r; [exact Hn | lra].
Qed.

(** X3. A non-empty batch without a positive label, its probabilities
    between 0 and 1, is assessed under the repository's thresholds as Normal
    Operation whatever the timestamps: anomaly count 0, anomaly rate 0,
    temporal risk 0, score 0.4 times the mean probability, and so level low or
    medium, never high or critical. *)
Theorem batch_without_positive_label_is_normal_operation
    (det : gmap string pyval) (ts : option (list string))
    (flags : list bool) (probs : list Q) :
  det !! "attack_probability" = Some (VFloatArr probs) ->
  det !! "anomaly_detected" = Some (VBoolArr flags) ->
  np_any flags = false ->
  flags <> [] -> probs <> [] ->
  (forall p : Q, p ∈ probs -> (0 <= p <= 1)%Q) ->
  exists a : Cyber.CyberAssessment,
    Cyber.assess_risk Cyber.__init__ det ts = Ok a /\
    Cyber.attack_signature a = "Normal Operation" /\
    Cyber.anomaly_count a = 0%Z /\
    feq (Cyber.anomaly_rate a) (Fin 0) /\
    feq (Cyber.temporal_risk a) (Fin 0) /\
    feq (Cyber.cyber_risk_score a) (Fin (0.4 * Qmean probs)) /\
    (Cyber.risk_level a = "low" \/ Cyber.risk_level a = "medium").
Proof.
  intros Hp Hf Hany Hfne Hpne Hrange.
  destruct (np_max_nonempty probs Hpne) as [mx Hmx].
  pose proof (np_any_false_count flags Hany) as Hcount.
  destruct flags as [|b0 flags0] eqn:Eflags; [congruence |]. rewrite <- Eflags in *.
  assert (Hlen : length flags = S (length flags0)) by (rewrite Eflags; reflexivity).
  destruct (np_mean_flags_rate flags (length flags0) 0 Hlen Hcount) as [r [Er Hr]].
  assert (Hr0 : (r == 0)%Q).
  { rewrite Hr. change (inject_Z (Z.of_nat 0)) with 0%Q. unfold Qdiv. lra. }
  assert (Hsig : Cyber._identify_attack_pattern flags probs = Ok "Normal Operation").
  { rewrite (identify_attack_pattern_no_positive flags probs Hany), Er.
    unfold fgt, flt. decide_Qltb. reflexivity. }
  assert (Htemp : feq (Cyber._analyze_temporal_pattern flags) (Fin 0)).
  { unfold Cyber._analyze_temporal_pattern.
    destruct (Nat.ltb (length flags) 10); [simpl; reflexivity |].
    rewrite (temporal_loop_no_positive flags Hany 0). vm_compute. reflexivity. }
  pose proof (Qmean_bounds probs Hpne Hrange) as Hmean.
  assert (Emean : np_mean probs = Fin (Qmean probs)).
  { destruct probs; [congruence | reflexivity]. }
  rewrite (assess_risk_unfold Cyber.__init__ det ts flags probs mx _ Hp Hf Hmx Hsig).
  cbv zeta. rewrite Emean, Er.
  set (temporal := if timestamps_supplied ts then _ else _).
  assert (Ht : exists t : Q, temporal = Fin t /\ (t == 0)%Q).
  { unfold temporal. destruct (timestamps_supplied ts).
    - destruct (Cyber._analyze_temporal_pattern flags) as [t|]; [| contradiction].
      exists t. split; [reflexivity | exact Htemp].
    - exists 0%Q. split; reflexivity. }
  destruct Ht as [t [Et Ht0]]. rewrite Et. clearbody temporal.
  set (score := Cyber._calculate_cyber_risk_score _ _ _).
  assert (Escore : exists s, score = Fin s /\ (s == 0.4 * Qmean probs)%Q).
  { unfold score, Cyber._calculate_cyber_risk_score, py_min; simpl.
    decide_Qltb. eexists; split; [reflexivity | lra]. }
  destruct Escore as [s [Es Hs]]. rewrite Es. clearbody score.
  eexists. split; [reflexivity |].
  cbn [Cyber.attack_signature Cyber.anomaly_count Cyber.anomaly_rate Cyber.temporal_risk
       Cyber.cyber_risk_score Cyber.risk_level].
  split; [reflexivity |]. split; [unfold np_sum_flags; rewrite Hcount; reflexivity |].
  split; [exact Hr0 |]. split; [exact Ht0 |]. split; [exact Hs |].
  unfold Cyber._classify_risk_level, flt; simpl.
  decide_Qltb; auto.
Qed.

(** Twelve samples without a positive label, each at probability 0.2. *)
Lemma batch_without_positive_label_is_normal_operation_witness :
  exists a : Cyber.CyberAssessment,
    Cyber.assess_risk Cyber.__init__
      (detection_of (replicate 12 false) (replicate 12 0.2%Q)) None = Ok a /\
    Cyber.attack_signature a = "Normal Operation".
Proof.
  destruct (batch_without_positive_label_is_normal_operation
              (detection_of (replicate 12 false) (replicate 12 0.2%Q)) None
              (replicate 12 false) (replicate 12 0.2%Q))
    as (a & Ha & Hsig & _).
  - reflexivity.
  - reflexivity.
  - reflexivity.
  - discriminate.
  - discriminate.
  - intros p Hp. apply elem_of_replicate in Hp. destruct Hp as [-> _]. split; lra.
  - exists a. split; [exact Ha | exact Hsig].
Defined.

End CyberOutcomes.

(* ================================================================== *)
(** ** The operational agent *)
(* ================================================================== *)

Module OperationalProofs.
Import Py PyFacts Spec.

Ltac split_members :=
  repeat match goal with
         | H : _ ∈ _ :: _ |- _ =>
             apply elem_of_cons in H;
             destruct H as [H | H]; [first [discriminate H | subst | clear H] |]
         | H : _ ∈ [] |- _ => inversion H
         end.

(** X4. The repository's risk matrix is monotone over the four
    likelihoods and three impacts: raising the likelihood or the impact never
    lowers the operational risk score (a critical likelihood is looked up as
    high), and every score lies between 0.1 and 0.9. *)
Theorem operational_risk_matrix_is_monotone (l1 l2 i1 i2 : string) :
  l1 ∈ ["low"; "medium"; "high"; "critical"] ->
  l2 ∈ ["low"; "medium"; "high"; "critical"] ->
  i1 ∈ ["low"; "medium"; "high"] ->
  i2 ∈ ["low"; "medium"; "high"] ->
  (Decision.risk_scores_get l1 <= Decision.risk_scores_get l2)%Z ->
  (Decision.risk_scores_get i1 <= Decision.risk_scores_get i2)%Z ->
  (Operational._calculate_operational_risk Operational.__init__ l1 i1
   <= Operational._calculate_operational_risk Operational.__init__ l2 i2)%Q /\
  (0.1 <= Operational._calculate_operational_risk Operational.__init__ l1 i1 <= 0.9)%Q.
Proof.
  intros H1 H2 H3 H4 Hl Hi. split_members;
    vm_compute in Hl; vm_compute in Hi; try (exfalso; apply Hl; reflexivity);
    try (exfalso; apply Hi; reflexivity);
    (split; [| split]); vm_compute; discriminate.
Qed.

(** Refute a membership of a literal in a list of other literals. *)
Ltac no_member H :=
  repeat (apply elem_of_cons in H; destruct H as [H | H]; [discriminate H |]);
  inversion H.

Ltac case_eqb s c :=
  destruct (String.eqb_spec s c); [subst s |].

(** X5. With the repository's risk matrix the operational risk level is
    critical exactly when the impact is high and the likelihood is high or
    critical: 0.9 is the only score the matrix or its default 0.5 reaches at
    or above 0.85, also for a likelihood or an impact that is no level at
    all. *)
Theorem operational_level_is_critical_iff (likelihood impact : string) :
  value (Operational._classify_risk_level
           (Operational._calculate_operational_risk Operational.__init__
              likelihood impact)) = "critical"
  <-> impact = "high" /\ (likelihood = "high" \/ likelihood = "critical").
Proof.
  unfold Operational._calculate_operational_risk.
  case_eqb likelihood "low"; [| case_eqb likelihood "medium";
    [| case_eqb likelihood "high"; [| case_eqb likelihood "critical"]]];
  (case_eqb impact "low"; [| case_eqb impact "medium"; [| case_eqb impact "high"]]);
  try (vm_compute; split; [intros H; discriminate H | intros [H [H' | H']]; congruence]);
  try (vm_compute; split; [auto | reflexivity]).
  all: cbn [Operational.get2 Operational.risk_matrix Operational.__init__ fst snd].
  all: try (repeat match goal with
         | |- context [String.eqb ?a ?b] =>
             first [ rewrite (proj2 (String.eqb_neq a b)) by congruence
                   | change (String.eqb a b) with true
                   | change (String.eqb a b) with false ]
         end; cbn [andb];
       vm_compute; split; [intros H; discriminate H | intros [H [H' | H']]; congruence]).
Qed.

Lemma assess_impact_values (rate : pyfloat) (n : Z) :
  Operational._assess_impact rate n ∈ ["high"; "medium"; "low"].
Proof.
  unfold Operational._assess_impact.
  repeat match goal with |- context [if ?b then _ else _] => destruct b end;
    repeat (first [apply list_elem_of_here | apply list_elem_of_further]).
Qed.

Lemma assess_fault_severity_values (score : Q) (rate : pyfloat) :
  Operational._assess_fault_severity score rate ∈ ["Critical"; "High"; "Medium"; "Low"].
Proof.
  unfold Operational._assess_fault_severity.
  repeat match goal with |- context [if ?b then _ else _] => destruct b end;
    repeat (first [apply list_elem_of_here | apply list_elem_of_further]).
Qed.

Lemma determine_priority_range (score : Q) (severity : string) :
  (1 <= Operational._determine_priority score severity <= 4)%Z /\
  (severity = "Critical" -> Operational._determine_priority score severity = 1%Z).
Proof.
  unfold Operational._determine_priority. split.
  - repeat match goal with |- context [if ?b then _ else _] => destruct b end; lia.
  - intros ->. reflexivity.
Qed.

Lemma affected_systems_shape (n : Z) (rate : pyfloat) :
  let affected := Operational._identify_affected_systems n rate in
  affected <> [] /\
  ("Safety Systems" ∈ affected ->
   "Primary Treatment" ∈ affected /\ "Distribution System" ∈ affected) /\
  ("Monitoring Systems" ∈ affected <-> affected = ["Monitoring Systems"]).
Proof.
  assert (Hcases :
    Operational._identify_affected_systems n rate
    ∈ [ ["Monitoring Systems"]; ["Control System"];
        ["Primary Treatment"; "Distribution System"];
        ["Primary Treatment"; "Distribution System"; "Control System"];
        ["Primary Treatment"; "Distribution System"; "Safety Systems"];
        ["Primary Treatment"; "Distribution System"; "Control System";
         "Safety Systems"] ]).
  { unfold Operational._identify_affected_systems, fgt, flt.
    destruct rate as [r|].
    - destruct (Qltb_spec 0.5 r), (Z.ltb 500 n), (Qltb_spec 0.8 r); try lra; cbn [app];
        repeat (first [apply list_elem_of_here | apply list_elem_of_further]).
    - destruct (Z.ltb 500 n); cbn [app];
        repeat (first [apply list_elem_of_here | apply list_elem_of_further]). }
  intros affected. fold affected in Hcases. clearbody affected.
  split_members; (split; [discriminate |]); split.
  all: first
    [ solve [intros H; exfalso; no_member H]
    | solve [intros _; split;
             repeat (first [apply list_elem_of_here | apply list_elem_of_further])]
    | solve [split; [intros H; exfalso; no_member H | intros H; discriminate H]]
    | solve [split; [reflexivity | intros _; left]] ].
Qed.

(** X6. What the operational agent's [assess_risk] answers: a KeyError
    naming anomaly_rate when that key is missing, then one naming
    num_anomalies. Otherwise an assessment whose likelihood is the cyber
    assessment's level. Its affected systems are never empty; Safety Systems
    come only together with Primary Treatment and Distribution System, and
    Monitoring Systems only alone. The downtime is one of 15, 30, 60, 120 and
    240 minutes, and 15 when the severity is Low or the impact low. The
    priority lies between 1 and 4 and is 1 for severity Critical. *)
Theorem operational_assess_risk_outcomes (self : Operational.OperationalRiskAssessmentAgent)
    (det : gmap string pyval) (cy : Cyber.CyberAssessment) :
  (det !! "anomaly_rate" = None ->
   Operational.assess_risk self det cy = Raise (KeyError "anomaly_rate")) /\
  (forall rate : pyfloat,
     det !! "anomaly_rate" = Some (VFloat rate) ->
     (det !! "num_anomalies" = None ->
      Operational.assess_risk self det cy = Raise (KeyError "num_anomalies")) /\
     (forall n : Z,
        det !! "num_anomalies" = Some (VInt n) ->
        exists op : Operational.OperationalAssessment,
          Operational.assess_risk self det cy = Ok op /\
          Operational.likelihood op = Cyber.risk_level cy /\
          Operational.affected_systems op <> [] /\
          ("Safety Systems" ∈ Operational.affected_systems op ->
           "Primary Treatment" ∈ Operational.affected_systems op /\
           "Distribution System" ∈ Operational.affected_systems op) /\
          ("Monitoring Systems" ∈ Operational.affected_systems op <->
           Operational.affected_systems op = ["Monitoring Systems"]) /\
          Operational.estimated_downtime_minutes op ∈ [15; 30; 60; 120; 240]%Z /\
          (Operational.fault_severity op = "Low" \/ Operational.impact_level op = "low" ->
           Operational.estimated_downtime_minutes op = 15%Z) /\
          (1 <= Operational.mitigation_priority op <= 4)%Z /\
          (Operational.fault_severity op = "Critical" ->
           Operational.mitigation_priority op = 1%Z))).
Proof.
  split.
  - intros Hnone. unfold Operational.assess_risk, getitem. rewrite Hnone. reflexivity.
  - intros rate Hr. split.
    + intros Hnone. unfold Operational.assess_risk, getitem. rewrite Hr, Hnone. reflexivity.
    + intros n Hn. unfold Operational.assess_risk, getitem. rewrite Hr, Hn.
      cbn [mbind result_bind as_float as_int].
      eexists. split; [reflexivity |].
      cbn [Operational.likelihood Operational.affected_systems
           Operational.estimated_downtime_minutes Operational.fault_severity
           Operational.impact_level Operational.mitigation_priority].
      split; [reflexivity |].
      destruct (affected_systems_shape n rate) as (Hne & Hsafety & Hmon).
      split; [exact Hne |]. split; [exact Hsafety |]. split; [exact Hmon |].
      set (imp := Operational._assess_impact rate n).
      set (score := Operational._calculate_operational_risk self (Cyber.risk_level cy) imp).
      set (sev := Operational._assess_fault_severity score rate).
      pose proof (assess_impact_values rate n) as Himp. fold imp in Himp.
      pose proof (assess_fault_severity_values score rate) as Hsev. fold sev in Hsev.
      destruct (determine_priority_range score sev) as [Hprio Hcrit].
      split; [| split; [| split; [exact Hprio | exact Hcrit]]].
      * clearbody imp sev. split_members; vm_compute;
          repeat (first [apply list_elem_of_here | apply list_elem_of_further]).
      * clearbody imp sev. intros [E | E]; subst; split_members; reflexivity.
Qed.

(** A low likelihood of medium impact against a critical one of high impact. *)
Lemma operational_risk_matrix_is_monotone_witness :
  (Operational._calculate_operational_risk Operational.__init__ "low" "medium"
   <= Operational._calculate_operational_risk Operational.__init__ "critical" "high")%Q.
Proof.
  apply (operational_risk_matrix_is_monotone "low" "critical" "medium" "high").
  - repeat (first [apply list_elem_of_here | apply list_elem_of_further]).
  - repeat (first [apply list_elem_of_here | apply list_elem_of_further]).
  - repeat (first [apply list_elem_of_here | apply list_elem_of_further]).
  - repeat (first [apply list_elem_of_here | apply list_elem_of_further]).
  - vm_compute. discriminate.
  - vm_compute. discriminate.
Defined.

End OperationalProofs.

(* ================================================================== *)
(** ** The decision agent: buckets, timeline and threat *)
(* ================================================================== *)

Module DecisionOutcomes.
Import Py PyFacts Spec.

Lemma buckets_of_slices (a b : nat) (actions : list string) :
  take a actions ++ take b (drop a actions) ++ drop (a + b) actions = actions.
Proof.
  rewrite <- (take_drop a actions) at 4. f_equal.
  rewrite <- (take_drop b (drop a actions)) at 2. f_equal.
  rewrite drop_drop. reflexivity.
Qed.

(** X7. [_prioritize_actions] partitions the action list: the immediate,
    short-term and ongoing buckets concatenated give the list back, in order
    and without loss or repetition. The immediate bucket holds the first three
    actions for priority 1, the first two for priority 2 and the first one for
    any other priority; the short-term bucket holds the next three. *)
Theorem prioritized_buckets_partition_the_actions (actions : list string) (priority : Z) :
  let buckets := Decision._prioritize_actions actions priority in
  let head_size := if (priority =? 1)%Z then 3%nat else if (priority =? 2)%Z then 2%nat else 1%nat in
  Decision.immediate buckets ++ Decision.short_term buckets ++ Decision.ongoing buckets
    = actions /\
  Decision.immediate buckets = take head_size actions /\
  Decision.short_term buckets = take 3 (drop head_size actions) /\
  Decision.ongoing buckets = drop (head_size + 3) actions.
Proof.
  intros buckets head_size.
  assert (H : Decision.immediate buckets = take head_size actions /\
              Decision.short_term buckets = take 3 (drop head_size actions) /\
              Decision.ongoing buckets = drop (head_size + 3) actions).
  { unfold buckets, head_size, Decision._prioritize_actions, Decision.slice.
    destruct (priority =? 1)%Z; [| destruct (priority =? 2)%Z];
      cbn [Decision.immediate Decision.short_term Decision.ongoing Nat.sub Nat.add drop].
    - split; [| split].
      + destruct (Nat.leb_spec 3 (length actions)); [reflexivity |].
        symmetry. apply take_ge. lia.
      + destruct (Nat.ltb_spec 3 (length actions)); [reflexivity |].
        rewrite drop_ge by lia. reflexivity.
      + destruct (Nat.ltb_spec 6 (length actions)); [reflexivity |].
        rewrite drop_ge by lia. reflexivity.
    - split; [| split].
      + destruct (Nat.leb_spec 2 (length actions)); [reflexivity |].
        symmetry. apply take_ge. lia.
      + destruct (Nat.ltb_spec 2 (length actions)); [reflexivity |].
        rewrite drop_ge by lia. reflexivity.
      + destruct (Nat.ltb_spec 5 (length actions)); [reflexivity |].
        rewrite drop_ge by lia. reflexivity.
    - split; [| split].
      + destruct actions; reflexivity.
      + destruct (Nat.ltb_spec 1 (length actions)); [reflexivity |].
        rewrite drop_ge by lia. reflexivity.
      + destruct (Nat.ltb_spec 4 (length actions)); [reflexivity |].
        rewrite drop_ge by lia. reflexivity. }
  split; [| exact H]. destruct H as (-> & -> & ->). apply buckets_of_slices.
Qed.

(** X8. A decision requires human approval exactly when its response
    timeline is IMMEDIATE (0-5 minutes), which is exactly when the cyber or
    the operational risk level is critical. The timeline is always one of the
    four strings IMMEDIATE, URGENT, PRIORITY and STANDARD. *)
Theorem human_approval_iff_immediate_timeline (self : Decision.DecisionMakingAgent)
    (cy : Cyber.CyberAssessment) (op : Operational.OperationalAssessment) :
  let d := Decision.decide self cy op in
  (Decision.requires_human_approval d = true
   <-> Decision.response_timeline d = "IMMEDIATE (0-5 minutes)") /\
  (Decision.requires_human_approval d = true
   <-> Cyber.risk_level cy = "critical" \/ Operational.risk_level op = "critical") /\
  Decision.response_timeline d
    ∈ ["IMMEDIATE (0-5 minutes)"; "URGENT (5-15 minutes)";
       "PRIORITY (15-60 minutes)"; "STANDARD (1-24 hours)"].
Proof.
  intros d. unfold d, Decision.decide.
  cbn [Decision.requires_human_approval Decision.response_timeline].
  unfold Decision._requires_human_approval, Decision._calculate_response_timeline.
  destruct (String.eqb_spec (Cyber.risk_level cy) "critical") as [Hc | Hc];
    destruct (String.eqb_spec (Operational.risk_level op) "critical") as [Ho | Ho];
    cbn [orb];
    try (split; [split; reflexivity | split; [split; auto | left]]).
  repeat match goal with |- context [if ?b then _ else _] => destruct b end;
    (split; [split; intros H; discriminate H |]);
    (split; [split; [intros H; discriminate H | intros [H | H]; contradiction] |]);
    repeat (first [apply list_elem_of_here | apply list_elem_of_further]).
Qed.

(** X9. The removal of duplicates never drops an action of the repository's
    library: for every cyber level, operational level and fault severity the
    selected actions are the collected ones unchanged, no cyber tier sharing
    an action with an operational tier. Between 2 and 10 actions are
    recommended. *)
Theorem repository_action_tiers_share_no_action
    (cyber_risk operational_risk fault_severity : string) :
  Decision._select_actions Decision.__init__ cyber_risk operational_risk fault_severity
    = Decision.collect_actions Decision.__init__ cyber_risk operational_risk fault_severity /\
  (2 <= length (Decision._select_actions Decision.__init__ cyber_risk operational_risk
                  fault_severity) <= 10)%nat.
Proof.
  unfold Decision._select_actions, Decision.collect_actions.
  repeat match goal with |- context [if ?b then _ else _] => destruct b end;
    (split; [vm_compute; reflexivity | vm_compute; lia]).
Qed.

(** X10. The primary threat compares the two risk levels by rank (low 1,
    medium 2, high 3, critical 4, anything else 0): Cyber Attack exactly when
    the cyber level ranks higher, Operational Failure exactly when the
    operational level does, Combined Cyber-Physical Threat exactly when the
    ranks are equal, so always for equal levels. Swapping the two levels
    swaps Cyber Attack and Operational Failure. Three or four emergency
    contacts are named. *)
Theorem primary_threat_compares_the_two_levels (cyber_risk operational_risk : string) :
  (Decision._identify_primary_threat cyber_risk operational_risk = "Cyber Attack"
   <-> (Decision.risk_scores_get operational_risk < Decision.risk_scores_get cyber_risk)%Z) /\
  (Decision._identify_primary_threat cyber_risk operational_risk = "Operational Failure"
   <-> (Decision.risk_scores_get cyber_risk < Decision.risk_scores_get operational_risk)%Z) /\
  (Decision._identify_primary_threat cyber_risk operational_risk
     = "Combined Cyber-Physical Threat"
   <-> Decision.risk_scores_get cyber_risk = Decision.risk_scores_get operational_risk) /\
  (Decision._identify_primary_threat cyber_risk operational_risk = "Cyber Attack"
   <-> Decision._identify_primary_threat operational_risk cyber_risk = "Operational Failure") /\
  Decision._identify_primary_threat cyber_risk cyber_risk = "Combined Cyber-Physical Threat" /\
  length (Decision._get_emergency_contacts
            (Decision._identify_primary_threat cyber_risk operational_risk)) ∈ [3; 4]%nat.
Proof.
  unfold Decision._identify_primary_threat.
  generalize (Decision.risk_scores_get cyber_risk) as c.
  generalize (Decision.risk_scores_get operational_risk) as o. intros o c.
  rewrite Z.ltb_irrefl.
  destruct (Z.ltb_spec o c) as [Hoc | Hoc], (Z.ltb_spec c o) as [Hco | Hco]; try lia.
  - split; [split; [intros _; exact Hoc | reflexivity] |].
    split; [split; [intros H; discriminate H | lia] |].
    split; [split; [intros H; discriminate H | lia] |].
    split; [split; reflexivity |].
    split; [reflexivity |]. vm_compute. left.
  - split; [split; [intros H; discriminate H | lia] |].
    split; [split; [intros _; exact Hco | reflexivity] |].
    split; [split; [intros H; discriminate H | lia] |].
    split; [split; intros H; discriminate H |].
    split; [reflexivity |]. vm_compute. left.
  - split; [split; [intros H; discriminate H | lia] |].
    split; [split; [intros H; discriminate H | lia] |].
    split; [split; [intros _; lia | reflexivity] |].
    split; [split; intros H; discriminate H |].
    split; [reflexivity |]. vm_compute. right. left.
Qed.

End DecisionOutcomes.

(* ================================================================== *)
(** ** The mapper: counters, categories and details *)
(* ================================================================== *)

Module MapperInvariants.
Import Py PyFacts Spec Laws.

(** *** Counters *)

Lemma counts_sum_insert (m : gmap string nat) (k : string) (n : nat) :
  m !! k = None -> counts_sum (<[k := n]> m) = (n + counts_sum m)%nat.
Proof.
  intros Hk. unfold counts_sum.
  rewrite map_fold_insert_L; [reflexivity | | exact Hk].
  intros; lia.
Qed.

Lemma counts_sum_incr (k : string) (m : gmap string nat) :
  counts_sum (RiskMapping.incr k m) = S (counts_sum m).
Proof.
  unfold RiskMapping.incr. destruct (m !! k) as [n|] eqn:E.
  - rewrite <- (insert_delete_id m k n E) at 2.
    rewrite <- insert_delete_eq.
    rewrite !counts_sum_insert by apply lookup_delete_eq.
    reflexivity.
  - rewrite counts_sum_insert by exact E. reflexivity.
Qed.

Lemma incr_lookup (k j : string) (m : gmap string nat) :
  default 0%nat (RiskMapping.incr k m !! j)
  = (default 0%nat (m !! j) + if decide (k = j) then 1 else 0)%nat.
Proof.
  unfold RiskMapping.incr. destruct (decide (k = j)) as [-> | Hne].
  - rewrite lookup_insert_eq. simpl. lia.
  - rewrite lookup_insert_ne by exact Hne. lia.
Qed.

Lemma occurrences_NoDup (r : string) (risks : list string) :
  NoDup risks -> occurrences r risks = if decide (r ∈ risks) then 1%nat else 0%nat.
Proof.
  unfold occurrences. induction 1 as [|x risks Hx Hnd IH]; [reflexivity |].
  rewrite filter_cons. destruct (decide (x = r)) as [-> | Hne].
  - cbn [length]. rewrite IH, decide_False by exact Hx.
    rewrite decide_True by left. reflexivity.
  - rewrite IH. destruct (decide (r ∈ risks)) as [Hin | Hout].
    + rewrite decide_True by now right. reflexivity.
    + rewrite decide_False; [reflexivity |].
      rewrite elem_of_cons. intros [-> | ?]; auto.
Qed.

Lemma table_rows_NoDup (sensor : string) : NoDup (risks_of sensor).
Proof.
  unfold risks_of.
  destruct (RiskMapping.assoc sensor RiskMapping.SENSOR_RISK_MAP) as [risks|] eqn:E;
    [| constructor].
  apply RiskMappingProofs.assoc_elem in E.
  assert (Hall : Forall (fun kv : string * list string => NoDup kv.2)
                   RiskMapping.SENSOR_RISK_MAP).
  { apply (bool_decide_unpack _). vm_compute. exact I. }
  rewrite Forall_forall in Hall. exact (Hall _ E).
Qed.

Lemma record_risk_total (sensor : string) (risks : list string) :
  forall st : RiskMapping.LoopState,
    RiskMapping.total_anomalies
      (RiskMapping.agent (foldl (RiskMapping.record_risk sensor) st risks))
    = RiskMapping.total_anomalies (RiskMapping.agent st).
Proof.
  induction risks as [|r risks IH]; intros st; simpl; [reflexivity |].
  rewrite IH. reflexivity.
Qed.

Lemma record_risk_history (sensor r r' s' : string) (st : RiskMapping.LoopState) :
  history_get (RiskMapping.agent (RiskMapping.record_risk sensor st r)) r' s'
  = (history_get (RiskMapping.agent st) r' s'
     + if decide (r = r') then if decide (sensor = s') then 1 else 0 else 0)%nat.
Proof.
  unfold history_get. cbn [RiskMapping.record_risk RiskMapping.agent RiskMapping.risk_history].
  destruct (decide (r = r')) as [-> | Hne].
  - rewrite lookup_insert_eq. cbn [default]. apply incr_lookup.
  - rewrite lookup_insert_ne by exact Hne. lia.
Qed.

Lemma record_risks_history (sensor r' s' : string) (risks : list string) :
  forall st : RiskMapping.LoopState,
    history_get (RiskMapping.agent (foldl (RiskMapping.record_risk sensor) st risks)) r' s'
    = (history_get (RiskMapping.agent st) r' s'
       + if decide (sensor = s') then occurrences r' risks else 0)%nat.
Proof.
  unfold occurrences.
  induction risks as [|r risks IH]; intros st; cbn [foldl].
  - destruct (decide (sensor = s')); simpl; lia.
  - rewrite IH, record_risk_history, filter_cons.
    destruct (decide (r = r')), (decide (sensor = s')); cbn [length]; lia.
Qed.

Section Mapper.

Variables series_mean series_std : list pyfloat -> pyfloat.
Variable list_of_set : list string -> list string.

Abbreviation visit := (RiskMapping.visit_sensor series_mean series_std).
Abbreviation analyze := (RiskMapping.analyze series_mean series_std).
Abbreviation map_anomalies :=
  (RiskMapping.map_anomalies_to_risks series_mean series_std list_of_set).

Lemma visit_sensor_agree (sensor_data : RiskMapping.DataFrame)
    (sample : list (string * pyfloat)) (st : RiskMapping.LoopState) (sensor : string) :
  counters_agree (RiskMapping.agent st) ->
  counters_agree (RiskMapping.agent (visit sensor_data sample st sensor)) /\
  (RiskMapping.total_anomalies (RiskMapping.agent st)
   <= RiskMapping.total_anomalies (RiskMapping.agent (visit sensor_data sample st sensor)))%nat.
Proof.
  intros [Hsum Hhist]. unfold RiskMapping.visit_sensor.
  destruct (RiskMapping.assoc sensor sample) as [value|]; [| split; [split |]; auto].
  destruct (RiskMapping._is_sensor_anomalous _ _ _ _ _); [| split; [split |]; auto].
  split; [split |].
  - rewrite RiskMappingProofs.record_risk_counts, record_risk_total.
    cbn [RiskMapping.agent RiskMapping.sensor_anomaly_counts RiskMapping.total_anomalies].
    rewrite counts_sum_incr, Hsum. reflexivity.
  - intros risk s'. rewrite record_risks_history.
    unfold counts_get. rewrite RiskMappingProofs.record_risk_counts.
    cbn [RiskMapping.agent RiskMapping.sensor_anomaly_counts].
    rewrite incr_lookup.
    assert (E : history_get
                  {| RiskMapping.risk_history := RiskMapping.risk_history (RiskMapping.agent st);
                     RiskMapping.sensor_anomaly_counts :=
                       RiskMapping.incr sensor
                         (RiskMapping.sensor_anomaly_counts (RiskMapping.agent st));
                     RiskMapping.total_anomalies :=
                       S (RiskMapping.total_anomalies (RiskMapping.agent st)) |} risk s'
                = history_get (RiskMapping.agent st) risk s') by reflexivity.
    rewrite E, Hhist. unfold counts_get, risks_of.
    destruct (decide (sensor = s')) as [-> | Hne]; lia.
  - rewrite record_risk_total. cbn [RiskMapping.agent RiskMapping.total_anomalies]. lia.
Qed.

Lemma visit_sensors_agree (sensor_data : RiskMapping.DataFrame)
    (sample : list (string * pyfloat)) (sensors : list string) :
  forall st : RiskMapping.LoopState,
    counters_agree (RiskMapping.agent st) ->
    counters_agree (RiskMapping.agent (foldl (visit sensor_data sample) st sensors)) /\
    (RiskMapping.total_anomalies (RiskMapping.agent st)
     <= RiskMapping.total_anomalies
          (RiskMapping.agent (foldl (visit sensor_data sample) st sensors)))%nat.
Proof.
  induction sensors as [|s sensors IH]; intros st Hst; [split; [exact Hst | cbn [foldl]; lia] |].
  cbn [foldl].
  destruct (visit_sensor_agree sensor_data sample st s Hst) as [H1 H2].
  destruct (IH _ H1) as [H3 H4]. split; [exact H3 | lia].
Qed.

Lemma analyze_agree (sensor_data : RiskMapping.DataFrame) (indices : list nat) :
  forall st : RiskMapping.LoopState,
    counters_agree (RiskMapping.agent st) ->
    counters_agree (RiskMapping.agent (analyze sensor_data indices st).1) /\
    (RiskMapping.total_anomalies (RiskMapping.agent st)
     <= RiskMapping.total_anomalies
          (RiskMapping.agent (analyze sensor_data indices st).1))%nat.
Proof.
  induction indices as [|idx indices IH]; intros st Hst; [split; [exact Hst | simpl; lia] |].
  cbn [RiskMapping.analyze].
  destruct (RiskMapping.iloc sensor_data idx) as [sample | e]; [| split; [exact Hst | simpl; lia]].
  destruct (visit_sensors_agree sensor_data sample (fst <$> RiskMapping.SENSOR_RISK_MAP) st Hst)
    as [H1 H2].
  destruct (IH _ H1) as [H3 H4]. split; [exact H3 | lia].
Qed.

Lemma map_anomalies_agree (self : RiskMapping.RiskMappingAgent)
    (data : RiskMapping.AnomalyData) :
  counters_agree self ->
  counters_agree (map_anomalies self data).1 /\
  (RiskMapping.total_anomalies self
   <= RiskMapping.total_anomalies (map_anomalies self data).1)%nat.
Proof.
  intros Hself. unfold RiskMapping.map_anomalies_to_risks.
  destruct (RiskMapping.sensor_data data) as [sensor_data|]; [| split; [exact Hself | simpl; lia]].
  destruct (RiskMapping.eq_1 _) as [is_1|]; [| split; [exact Hself | simpl; lia]].
  destruct (Nat.eqb (length is_1) 0); [split; [exact Hself | simpl; lia] |].
  destruct (Nat.eqb (length (RiskMapping.np_where 0 is_1)) 0);
    [split; [exact Hself | simpl; lia] |].
  pose proof (analyze_agree sensor_data (RiskMapping.np_where 0 is_1)
                {| RiskMapping.agent := self; RiskMapping.risk_contributions := ∅;
                   RiskMapping.sensor_contribs := [] |} Hself) as Hw.
  destruct (RiskMapping.analyze _ _ _ _ _) as [st [e|]]; exact Hw.
Qed.

Lemma counters_agree_init : counters_agree RiskMapping.__init__.
Proof.
  split; [reflexivity |]. intros risk sensor.
  unfold history_get, counts_get. cbn. rewrite !lookup_empty. cbn. rewrite lookup_empty. cbn. lia.
Qed.

Lemma after_calls_agree (calls : list RiskMapping.AnomalyData) :
  forall self : RiskMapping.RiskMappingAgent,
    counters_agree self ->
    counters_agree (after_calls series_mean series_std list_of_set self calls) /\
    (RiskMapping.total_anomalies self
     <= RiskMapping.total_anomalies
          (after_calls series_mean series_std list_of_set self calls))%nat.
Proof.
  unfold after_calls.
  induction calls as [|data calls IH]; intros self Hself; [split; [exact Hself | simpl; lia] |].
  cbn [foldl]. destruct (map_anomalies_agree self data Hself) as [H1 H2].
  destruct (IH _ H1) as [H3 H4]. split; [exact H3 | lia].
Qed.

(** X11. After any sequence of mapping calls on a new agent, or on one whose
    history was reset, the three process-lifetime counters agree: the
    per-sensor anomaly counts add up to [total_anomalies]; the history of a
    category counts a sensor exactly as often as the sensor was flagged when
    the category is in the sensor's row of the table, and not at all
    otherwise. A further call never lowers [total_anomalies], also when it
    answers the empty mapping after an exception. *)
Theorem mapper_counters_agree (old : RiskMapping.RiskMappingAgent)
    (calls : list RiskMapping.AnomalyData) (data : RiskMapping.AnomalyData) :
  let a := after_calls series_mean series_std list_of_set
             (RiskMapping.reset_history old) calls in
  counts_sum (RiskMapping.sensor_anomaly_counts a) = RiskMapping.total_anomalies a /\
  (forall risk sensor : string,
     history_get a risk sensor
     = if decide (risk ∈ risks_of sensor) then counts_get a sensor else 0%nat) /\
  (RiskMapping.total_anomalies a
   <= RiskMapping.total_anomalies (map_anomalies a data).1)%nat /\
  after_calls series_mean series_std list_of_set RiskMapping.__init__ calls = a.
Proof.
  intros a.
  destruct (after_calls_agree calls _ counters_agree_init) as [[Hsum Hhist] _].
  fold (RiskMapping.reset_history old) in Hsum, Hhist. fold a in Hsum, Hhist.
  split; [exact Hsum |]. split; [| split; [| reflexivity]].
  - intros risk sensor. rewrite Hhist, occurrences_NoDup by apply table_rows_NoDup.
    destruct (decide (risk ∈ risks_of sensor)); lia.
  - apply map_anomalies_agree. split; assumption.
Qed.

End Mapper.

End MapperInvariants.

Module MapperResults.
Import Py PyFacts Spec Laws.

(** *** Rounding a zero share *)

Lemma py_round_zero (x : Q) (n : nat) : (x == 0)%Q -> (py_round x n == 0)%Q.
Proof.
  intros Hx. unfold py_round.
  assert (Hy : (x * inject_Z (10 ^ Z.of_nat n) == 0)%Q) by (rewrite Hx; ring).
  set (y := (x * inject_Z (10 ^ Z.of_nat n))%Q) in *.
  assert (Hf : Qfloor y = 0%Z) by (rewrite (Qfloor_comp _ _ Hy); reflexivity).
  assert (Hr : round_half_even y = 0%Z).
  { unfold round_half_even. rewrite Hf.
    destruct (Qltb_spec (y - inject_Z 0) (1 # 2)) as [_ | H]; [reflexivity |].
    exfalso. change (inject_Z 0) with 0%Q in H. lra. }
  rewrite Hr. unfold Qdiv. change (inject_Z 0) with 0%Q. ring.
Qed.

(** *** The largest entry of a dictionary *)

Lemma argmax_from_elem {V : Type} (ltb : V -> V -> bool) (l : list (string * V)) :
  forall best : string * V,
    RiskMapping.argmax_from ltb best l = best \/ RiskMapping.argmax_from ltb best l ∈ l.
Proof.
  induction l as [|kv l IH]; intros best; [now left |].
  cbn [RiskMapping.argmax_from].
  destruct (IH (if ltb best.2 kv.2 then kv else best)) as [E | Hin].
  - rewrite E. destruct (ltb best.2 kv.2); [right; left | now left].
  - right. now right.
Qed.

Lemma argmax_elem {V : Type} (ltb : V -> V -> bool) (l : list (string * V))
    (kv : string * V) :
  RiskMapping.argmax ltb l = Some kv -> kv ∈ l.
Proof.
  destruct l as [|kv0 l]; [discriminate |]. intros [= <-].
  destruct (argmax_from_elem ltb l kv0) as [-> | Hin]; [left | now right].
Qed.

(** *** Counting the sensors of a category *)

Lemma assoc_incr_keys (s : string) (acc : list (string * nat)) :
  fst <$> RiskMapping.assoc_incr s acc
  = if decide (s ∈ fst <$> acc) then fst <$> acc else (fst <$> acc) ++ [s].
Proof.
  induction acc as [|[k n] acc IH]; [reflexivity |].
  cbn [RiskMapping.assoc_incr]. destruct (String.eqb_spec s k) as [-> | Hne].
  - rewrite decide_True by (rewrite fmap_cons; left). reflexivity.
  - rewrite !fmap_cons, IH. cbn [fst].
    destruct (decide (s ∈ fst <$> acc)) as [Hin | Hout].
    + rewrite decide_True by now right. reflexivity.
    + rewrite decide_False; [reflexivity |].
      rewrite elem_of_cons. intros [? | ?]; auto.
Qed.

Lemma assoc_incr_NoDup (s : string) (acc : list (string * nat)) :
  NoDup (fst <$> acc) -> NoDup (fst <$> RiskMapping.assoc_incr s acc).
Proof.
  intros Hnd. rewrite assoc_incr_keys.
  destruct (decide (s ∈ fst <$> acc)) as [Hin | Hout]; [exact Hnd |].
  apply NoDup_app. split; [exact Hnd |]. split; [| apply NoDup_singleton].
  intros x Hx Hx'. apply list_elem_of_singleton in Hx'. now subst.
Qed.

Lemma assoc_incr_sum (s : string) (acc : list (string * nat)) :
  foldr Nat.add 0%nat (snd <$> RiskMapping.assoc_incr s acc)
  = S (foldr Nat.add 0%nat (snd <$> acc)).
Proof.
  induction acc as [|[k n] acc IH]; [reflexivity |].
  cbn [RiskMapping.assoc_incr]. destruct (String.eqb s k).
  - reflexivity.
  - rewrite !fmap_cons. cbn [foldr snd]. rewrite IH. lia.
Qed.

Lemma assoc_incr_positive (s : string) (acc : list (string * nat)) :
  Forall (fun kv => (1 <= kv.2)%nat) acc ->
  Forall (fun kv => (1 <= kv.2)%nat) (RiskMapping.assoc_incr s acc).
Proof.
  induction 1 as [|[k n] acc Hk Hacc IH]; cbn [RiskMapping.assoc_incr].
  - repeat constructor.
  - destruct (String.eqb s k); constructor; auto. cbn. lia.
Qed.

Lemma assoc_incr_length (s : string) (acc : list (string * nat)) :
  (length (RiskMapping.assoc_incr s acc) <= S (length acc))%nat.
Proof.
  induction acc as [|[k n] acc IH]; cbn [RiskMapping.assoc_incr]; [simpl; lia |].
  destruct (String.eqb s k); simpl in *; lia.
Qed.

Lemma counts_of_spec (sensors : list string) :
  NoDup (fst <$> counts_of sensors) /\
  Forall (fun kv => (1 <= kv.2)%nat) (counts_of sensors) /\
  foldr Nat.add 0%nat (snd <$> counts_of sensors) = length sensors /\
  (length (counts_of sensors) <= length sensors)%nat.
Proof.
  unfold counts_of.
  assert (G : forall acc : list (string * nat),
    NoDup (fst <$> acc) -> Forall (fun kv => (1 <= kv.2)%nat) acc ->
    let out := foldl (fun acc s => RiskMapping.assoc_incr s acc) acc sensors in
    NoDup (fst <$> out) /\ Forall (fun kv => (1 <= kv.2)%nat) out /\
    foldr Nat.add 0%nat (snd <$> out)
    = (foldr Nat.add 0%nat (snd <$> acc) + length sensors)%nat /\
    (length out <= length acc + length sensors)%nat).
  { induction sensors as [|s sensors IH]; intros acc Hnd Hpos; cbn [foldl length].
    - repeat split; auto; lia.
    - destruct (IH (RiskMapping.assoc_incr s acc)) as (H1 & H2 & H3 & H4).
      + now apply assoc_incr_NoDup.
      + now apply assoc_incr_positive.
      + repeat split; auto.
        * rewrite H3, assoc_incr_sum. lia.
        * pose proof (assoc_incr_length s acc). lia. }
  apply (G []); constructor.
Qed.

Lemma sum_bounds_each (l : list (string * nat)) (kv : string * nat) :
  kv ∈ l -> (kv.2 <= foldr Nat.add 0%nat (snd <$> l))%nat.
Proof.
  induction 1 as [kv l | kv kv' l Hin IH]; rewrite fmap_cons; cbn [foldr]; lia.
Qed.

(** *** Sorting by count, largest first *)

Lemma insert_desc_perm (x : string * nat) (l : list (string * nat)) :
  RiskMapping.insert_desc x l ≡ₚ x :: l.
Proof.
  induction l as [|y l IH]; [reflexivity |].
  cbn [RiskMapping.insert_desc]. destruct (Nat.ltb y.2 x.2); [reflexivity |].
  rewrite IH. apply Permutation_swap.
Qed.

Lemma insert_desc_sorted (x : string * nat) (l : list (string * nat)) :
  StronglySorted count_ge l -> StronglySorted count_ge (RiskMapping.insert_desc x l).
Proof.
  induction 1 as [|y l Hl IH Hy]; cbn [RiskMapping.insert_desc].
  - repeat constructor.
  - destruct (Nat.ltb_spec y.2 x.2) as [Hlt | Hge].
    + constructor; [now constructor |].
      constructor; [unfold count_ge; lia |].
      eapply Forall_impl; [exact Hy |]. unfold count_ge. intros z Hz. lia.
    + constructor; [exact IH |].
      rewrite insert_desc_perm. constructor; [exact Hge | exact Hy].
Qed.

Lemma sorted_desc_spec (l : list (string * nat)) :
  StronglySorted count_ge (RiskMapping.sorted_desc l) /\ RiskMapping.sorted_desc l ≡ₚ l.
Proof.
  unfold RiskMapping.sorted_desc.
  assert (G : forall acc : list (string * nat),
    StronglySorted count_ge acc ->
    StronglySorted count_ge (foldl (fun acc x => RiskMapping.insert_desc x acc) acc l) /\
    foldl (fun acc x => RiskMapping.insert_desc x acc) acc l ≡ₚ acc ++ l).
  { induction l as [|x l IH]; intros acc Hacc; cbn [foldl].
    - split; [exact Hacc | now rewrite app_nil_r].
    - destruct (IH _ (insert_desc_sorted x acc Hacc)) as [H1 H2].
      split; [exact H1 |]. rewrite H2, insert_desc_perm.
      cbn [app]. apply Permutation_middle. }
  apply (G []). constructor.
Qed.

Lemma prefix_sorted {A : Type} (R : relation A) (n : nat) (l : list A) :
  StronglySorted R l -> StronglySorted R (take n l).
Proof.
  intros H. rewrite <- (take_drop n l) in H. now apply StronglySorted_app_1_l in H.
Qed.

(** The entry that [_get_risk_details] builds for one category. *)
Lemma risk_detail_spec (rc : gmap string (list string)) (risk : string)
    (d : RiskMapping.RiskDetail) :
  (risk, d) ∈ RiskMapping._get_risk_details rc ->
  RiskMapping.total d = length (RiskMapping.rc_get rc risk) /\
  counts_descending (RiskMapping.sensors d) /\
  length (RiskMapping.sensors d) = Nat.min 10 (RiskMapping.unique_sensors d) /\
  (RiskMapping.unique_sensors d <= RiskMapping.total d)%nat /\
  NoDup (RiskMapping.sensor_id <$> RiskMapping.sensors d) /\
  (forall s : RiskMapping.SensorCount, s ∈ RiskMapping.sensors d ->
     RiskMapping.sensor_id s ∈ RiskMapping.rc_get rc risk /\
     (1 <= RiskMapping.sensor_count s <= RiskMapping.total d)%nat /\
     RiskMapping.sensor_stage s = RiskMapping.stage_of (RiskMapping.sensor_id s)).
Proof.
  unfold RiskMapping._get_risk_details. intros Hin.
  apply list_elem_of_fmap in Hin. destruct Hin as (c & [= -> ->] & _).
  cbn [RiskMapping.total RiskMapping.sensors RiskMapping.unique_sensors].
  fold (counts_of (RiskMapping.rc_get rc c)).
  set (sensors := RiskMapping.rc_get rc c).
  destruct (counts_of_spec sensors) as (Hnd & Hpos & Hsum & Hlen).
  destruct (sorted_desc_spec (counts_of sensors)) as [Hsorted Hperm].
  set (f := fun sc : string * nat =>
              {| RiskMapping.sensor_id := sc.1; RiskMapping.sensor_count := sc.2;
                 RiskMapping.sensor_stage := RiskMapping.stage_of sc.1 |}).
  split; [reflexivity |]. split; [| split; [| split; [exact Hlen | split]]].
  - apply prefix_sorted.
    apply (StronglySorted_fmap f count_ge); [| exact Hsorted]. auto.
  - rewrite length_take, length_fmap, Hperm. reflexivity.
  - rewrite fmap_take, <- list_fmap_compose.
    change (RiskMapping.sensor_id ∘ f) with (@fst string nat).
    apply (sublist_NoDup _ (fst <$> RiskMapping.sorted_desc (counts_of sensors))); [now rewrite Hperm | apply sublist_take].
  - intros s Hs. apply subseteq_take in Hs.
    apply list_elem_of_fmap in Hs. destruct Hs as (kv & -> & Hkv).
    rewrite Hperm in Hkv. cbn [f RiskMapping.sensor_id RiskMapping.sensor_count
      RiskMapping.sensor_stage].
    split; [| split; [split |]]; [| | | reflexivity].
    + assert (Hkeys : forall l acc,
        forall k, k ∈ fst <$> foldl (fun acc s => RiskMapping.assoc_incr s acc) acc l ->
        k ∈ fst <$> acc \/ k ∈ l).
      { clear. induction l as [|x l IH]; intros acc k Hk; cbn [foldl] in Hk; [now left |].
        apply IH in Hk. destruct Hk as [Hk | Hk]; [| right; now right].
        rewrite assoc_incr_keys in Hk.
        destruct (decide (x ∈ fst <$> acc)); [now left |].
        apply elem_of_app in Hk. destruct Hk as [Hk | Hk]; [now left |].
        apply list_elem_of_singleton in Hk. subst. right. left. }
      destruct (Hkeys sensors [] kv.1) as [H | H]; [| inversion H | exact H].
      apply list_elem_of_fmap. exists kv. auto.
    + rewrite Forall_forall in Hpos. now apply Hpos.
    + rewrite <- Hsum. now apply sum_bounds_each.
Qed.

(** *** Where the positive labels are *)

Lemma np_where_positives (labels : list Z) (i : nat) :
  length (RiskMapping.np_where i ((fun z => Z.eqb z 1) <$> labels)) = positives labels.
Proof.
  unfold positives. revert i.
  induction labels as [|z labels IH]; intros i; [reflexivity |].
  rewrite fmap_cons, filter_cons. cbn [RiskMapping.np_where].
  destruct (Z.eqb_spec z 1) as [E | Hne].
  - rewrite decide_True by exact E. cbn [length]. now rewrite IH.
  - rewrite decide_False by exact Hne. apply IH.
Qed.

Lemma np_where_bound (flags : list bool) :
  forall i j : nat, j ∈ RiskMapping.np_where i flags -> (i <= j < i + length flags)%nat.
Proof.
  induction flags as [|b flags IH]; intros i j Hj; [inversion Hj |].
  cbn [RiskMapping.np_where] in Hj. cbn [length].
  destruct b.
  - apply elem_of_cons in Hj. destruct Hj as [-> | Hj]; [lia |].
    apply IH in Hj. lia.
  - apply IH in Hj. lia.
Qed.

Lemma np_where_elem (flags : list bool) :
  forall i k : nat, flags !! k = Some true -> (i + k)%nat ∈ RiskMapping.np_where i flags.
Proof.
  induction flags as [|b flags IH]; intros i k Hk; [discriminate |].
  cbn [RiskMapping.np_where]. destruct k as [|k].
  - injection Hk as ->. rewrite Nat.add_0_r. left.
  - cbn in Hk. replace (i + S k)%nat with (S i + k)%nat by lia.
    destruct b; [right |]; now apply IH.
Qed.

Section Mapper.

Variables series_mean series_std : list pyfloat -> pyfloat.
Variable list_of_set : list string -> list string.

Abbreviation visit := (RiskMapping.visit_sensor series_mean series_std).
Abbreviation analyze := (RiskMapping.analyze series_mean series_std).
Abbreviation map_anomalies :=
  (RiskMapping.map_anomalies_to_risks series_mean series_std list_of_set).

Abbreviation mapping_of := (Laws.mapping_of list_of_set).

Section LoopInvariant.

Variable P : RiskMapping.LoopState -> Prop.
Hypothesis visit_preserves :
  forall (sensor_data : RiskMapping.DataFrame) (sample : list (string * pyfloat))
         (st : RiskMapping.LoopState) (sensor : string),
    P st -> P (visit sensor_data sample st sensor).

Lemma analyze_preserves (sensor_data : RiskMapping.DataFrame) (indices : list nat) :
  forall st : RiskMapping.LoopState, P st -> P (analyze sensor_data indices st).1.
Proof.
  induction indices as [|idx indices IH]; intros st Hst; [exact Hst |].
  cbn [RiskMapping.analyze].
  destruct (RiskMapping.iloc sensor_data idx) as [sample | e]; [| exact Hst].
  apply IH. clear IH. revert st Hst.
  induction (fst <$> RiskMapping.SENSOR_RISK_MAP) as [|s sensors IH]; intros st Hst;
    [exact Hst |].
  cbn [foldl]. apply IH. now apply visit_preserves.
Qed.

(** The call answers the empty mapping or the mapping of a loop state that
    the loop invariant holds of. *)
Lemma map_anomalies_shape (self : RiskMapping.RiskMappingAgent)
    (data : RiskMapping.AnomalyData) :
  P {| RiskMapping.agent := self; RiskMapping.risk_contributions := ∅;
       RiskMapping.sensor_contribs := [] |} ->
  (map_anomalies self data).2 = RiskMapping._empty_risk_mapping \/
  exists (st : RiskMapping.LoopState) (analyzed : nat),
    P st /\ (map_anomalies self data).2 = mapping_of st analyzed.
Proof.
  intros H0. unfold RiskMapping.map_anomalies_to_risks.
  destruct (RiskMapping.sensor_data data) as [sensor_data|]; [| now left].
  destruct (RiskMapping.eq_1 _) as [is_1|]; [| now left].
  destruct (Nat.eqb (length is_1) 0); [now left |].
  destruct (Nat.eqb (length (RiskMapping.np_where 0 is_1)) 0); [now left |].
  pose proof (analyze_preserves sensor_data (RiskMapping.np_where 0 is_1) _ H0) as Hw.
  destruct (RiskMapping.analyze _ _ _ _ _) as [st [e|]]; [now left |].
  right. exists st, (length (RiskMapping.np_where 0 is_1)). split; [exact Hw | reflexivity].
Qed.

End LoopInvariant.

Lemma record_risks_keys (sensor : string) (risks : list string) :
  (forall r : string, r ∈ risks -> exists s : string, r ∈ risks_of s) ->
  forall st : RiskMapping.LoopState,
    keys_from_table (RiskMapping.risk_contributions st) ->
    keys_from_table
      (RiskMapping.risk_contributions (foldl (RiskMapping.record_risk sensor) st risks)).
Proof.
  induction risks as [|r risks IH]; intros Hin st Hst; [exact Hst |].
  cbn [foldl]. apply IH.
  - intros r' Hr'. apply Hin. now right.
  - intros k Hk. cbn [RiskMapping.record_risk RiskMapping.risk_contributions] in Hk.
    destruct (decide (r = k)) as [<- | Hne]; [apply Hin; left |].
    rewrite lookup_insert_ne in Hk by exact Hne. now apply Hst.
Qed.

Lemma visit_sensor_keys (sensor_data : RiskMapping.DataFrame)
    (sample : list (string * pyfloat)) (st : RiskMapping.LoopState) (sensor : string) :
  keys_from_table (RiskMapping.risk_contributions st) ->
  keys_from_table (RiskMapping.risk_contributions (visit sensor_data sample st sensor)).
Proof.
  intros Hst. unfold RiskMapping.visit_sensor.
  destruct (RiskMapping.assoc sensor sample) as [value|]; [| exact Hst].
  destruct (RiskMapping._is_sensor_anomalous _ _ _ _ _); [| exact Hst].
  apply record_risks_keys; [| exact Hst].
  intros r Hr. exists sensor. exact Hr.
Qed.

(** X12. A category that no row of the sensor table lists is never reported:
    its share of the distribution is 0, its detail entry is empty and it is
    never the majority category, whatever the batch. Unauthorized Access and
    Denial of Service are two such categories. *)
Theorem category_without_sensor_is_never_reported (self : RiskMapping.RiskMappingAgent)
    (data : RiskMapping.AnomalyData) (risk : string) :
  let r := (map_anomalies self data).2 in
  ((risk ∈ RiskMapping.RISK_CATEGORIES /\ forall sensor : string, risk ∉ risks_of sensor) ->
     (forall v : Q, (risk, v) ∈ RiskMapping.distribution r -> (v == 0)%Q) /\
     (forall d : RiskMapping.RiskDetail, (risk, d) ∈ RiskMapping.risk_details r ->
        d = {| RiskMapping.sensors := []; RiskMapping.total := 0;
               RiskMapping.unique_sensors := 0 |}) /\
     RiskMapping.category (RiskMapping.majority_risk r) <> risk) /\
  (forall sensor : string,
     ("Unauthorized Access" ∉ risks_of sensor) /\ ("Denial of Service" ∉ risks_of sensor)).
Proof.
  intros r. split.
  2: { intros sensor. unfold risks_of.
       destruct (RiskMapping.assoc sensor RiskMapping.SENSOR_RISK_MAP) as [risks|] eqn:E.
       2: { split; intros H; inversion H. }
       apply RiskMappingProofs.assoc_elem in E.
       assert (Hall : Forall (fun kv : string * list string =>
                                ("Unauthorized Access" ∉ kv.2) /\ ("Denial of Service" ∉ kv.2))
                        RiskMapping.SENSOR_RISK_MAP).
       { apply (bool_decide_unpack _). vm_compute. exact I. }
       rewrite Forall_forall in Hall. exact (Hall _ E). }
  intros [Hcat Hno].
  assert (Hnone : "None" <> risk).
  { intros <-. revert Hcat. apply (bool_decide_unpack _). vm_compute. exact I. }
  assert (Hempty : keys_from_table (∅ : gmap string (list string))).
  { intros k [v Hv]. rewrite lookup_empty in Hv. discriminate. }
  destruct (map_anomalies_shape
              (fun st => keys_from_table (RiskMapping.risk_contributions st))
              visit_sensor_keys self data Hempty) as [E | (st & n & Hst & E)]; fold r in E.
  - rewrite E. cbn [RiskMapping.distribution RiskMapping.risk_details
      RiskMapping.majority_risk RiskMapping.category RiskMapping._empty_risk_mapping].
    split; [| split; [| exact Hnone]].
    + intros v Hv. apply list_elem_of_fmap in Hv. destruct Hv as (c & [= _ ->] & _).
      reflexivity.
    + intros d Hd. apply list_elem_of_fmap in Hd. destruct Hd as (c & [= _ ->] & _).
      reflexivity.
  - rewrite E. unfold Laws.mapping_of.
    cbn [RiskMapping.distribution RiskMapping.risk_details RiskMapping.majority_risk].
    set (rc := RiskMapping.risk_contributions st) in *.
    assert (Hget : RiskMapping.rc_get rc risk = []).
    { unfold RiskMapping.rc_get. destruct (rc !! risk) as [l|] eqn:El; [| reflexivity].
      destruct (Hst risk) as [s Hs]; [eauto |]. exfalso. exact (Hno s Hs). }
    assert (Hdist : forall v : Q,
              (risk, v) ∈ RiskMapping._calculate_risk_distribution rc -> (v == 0)%Q).
    { unfold RiskMapping._calculate_risk_distribution. intros v Hv.
      destruct (Nat.eqb (RiskMapping.total_contributions rc) 0);
        apply list_elem_of_fmap in Hv; destruct Hv as (c & [= <- ->] & _);
        [reflexivity |].
      apply py_round_zero. rewrite Hget. cbn [length]. reflexivity. }
    split; [exact Hdist |]. split.
    + intros d Hd. unfold RiskMapping._get_risk_details in Hd.
      apply list_elem_of_fmap in Hd. destruct Hd as (c & [= <- ->] & _).
      rewrite Hget. reflexivity.
    + unfold RiskMapping._identify_majority_risk.
      destruct (RiskMapping.argmax Qltb (RiskMapping._calculate_risk_distribution rc))
        as [[name pct]|] eqn:Emax; [| exact Hnone].
      destruct (Qeq_bool_spec pct 0) as [H0 | Hne]; [exact Hnone |].
      cbn [RiskMapping.category]. intros ->.
      apply argmax_elem in Emax. apply Hne. now apply Hdist.
Qed.

(** X13. In every returned mapping the detail entry of a category lists at
    most ten sensors, without repetition and largest count first; each listed
    count is at least 1 and at most the category's total, the number of
    distinct sensors is at most the total, the list holds ten entries or
    every distinct sensor, and a listed stage is the table's stage of the
    sensor. The entries come in the order of the eight categories. *)
Theorem risk_details_list_top_sensors (self : RiskMapping.RiskMappingAgent)
    (data : RiskMapping.AnomalyData) (risk : string) (d : RiskMapping.RiskDetail) :
  let r := (map_anomalies self data).2 in
  fst <$> RiskMapping.risk_details r = RiskMapping.RISK_CATEGORIES /\
  ((risk, d) ∈ RiskMapping.risk_details r ->
     counts_descending (RiskMapping.sensors d) /\
     length (RiskMapping.sensors d) = Nat.min 10 (RiskMapping.unique_sensors d) /\
     (RiskMapping.unique_sensors d <= RiskMapping.total d)%nat /\
     NoDup (RiskMapping.sensor_id <$> RiskMapping.sensors d) /\
     (forall s : RiskMapping.SensorCount, s ∈ RiskMapping.sensors d ->
        (1 <= RiskMapping.sensor_count s <= RiskMapping.total d)%nat /\
        RiskMapping.sensor_stage s = RiskMapping.stage_of (RiskMapping.sensor_id s))).
Proof.
  intros r.
  destruct (map_anomalies_shape (fun _ => True) (fun _ _ _ _ _ => I) self data I)
    as [E | (st & n & _ & E)]; fold r in E; rewrite E.
  - split; [reflexivity |]. intros Hd.
    cbn [RiskMapping.risk_details RiskMapping._empty_risk_mapping] in Hd.
    apply list_elem_of_fmap in Hd. destruct Hd as (c & [= _ ->] & _).
    cbn [RiskMapping.sensors RiskMapping.total RiskMapping.unique_sensors].
    split; [constructor | split; [reflexivity | split; [lia | split; [constructor |]]]].
    intros s Hs. inversion Hs.
  - split.
    + unfold Laws.mapping_of, RiskMapping._get_risk_details. cbn [RiskMapping.risk_details].
      rewrite <- list_fmap_compose. apply list_fmap_id.
    + intros Hd. cbn [Laws.mapping_of RiskMapping.risk_details] in Hd.
      destruct (risk_detail_spec _ _ _ Hd) as (_ & H1 & H2 & H3 & H4 & H5).
      split; [exact H1 |]. split; [exact H2 |]. split; [exact H3 |]. split; [exact H4 |].
      intros s Hs. destruct (H5 s Hs) as (_ & H6 & H7). split; assumption.
Qed.

Lemma analyze_in_range (sensor_data : RiskMapping.DataFrame) (indices : list nat) :
  Forall (fun j => (j < RiskMapping.nrows sensor_data)%nat) indices ->
  forall st : RiskMapping.LoopState, (analyze sensor_data indices st).2 = None.
Proof.
  induction 1 as [|idx indices Hidx Hrest IH]; intros st; [reflexivity |].
  cbn [RiskMapping.analyze]. unfold RiskMapping.iloc.
  destruct (Nat.ltb_spec idx (RiskMapping.nrows sensor_data)) as [_ | Hge]; [apply IH | lia].
Qed.

Lemma analyze_out_of_range (sensor_data : RiskMapping.DataFrame) (indices : list nat) :
  Exists (fun j => (RiskMapping.nrows sensor_data <= j)%nat) indices ->
  forall st : RiskMapping.LoopState,
    (analyze sensor_data indices st).2
    = Some (IndexError "single positional indexer is out-of-bounds").
Proof.
  induction indices as [|idx indices IH]; intros Hex st; [inversion Hex |].
  cbn [RiskMapping.analyze]. unfold RiskMapping.iloc.
  destruct (Nat.ltb_spec idx (RiskMapping.nrows sensor_data)) as [Hlt | Hge]; [| reflexivity].
  apply IH. inversion Hex as [? ? H | ? ? H]; subst; [lia | exact H].
Qed.

(** X14. The number of anomalies a call reports as analysed is the number of
    labels equal to 1 when the frame has a row for every label. When a label
    equal to 1 stands at a position past the last row of the frame, reading
    the row raises and the call answers the empty mapping, positive labels
    notwithstanding. In every case the reported number is at most the number
    of labels equal to 1. *)
Theorem analysed_count_and_short_frame (self : RiskMapping.RiskMappingAgent)
    (labels : list Z) (probabilities : option pyval) (frame : RiskMapping.DataFrame) :
  let r := (map_anomalies self
              {| RiskMapping.predictions := Some (VIntArr labels);
                 RiskMapping.attack_probabilities := probabilities;
                 RiskMapping.sensor_data := Some frame |}).2 in
  ((length labels <= RiskMapping.nrows frame)%nat ->
     RiskMapping.total_anomalies_analyzed r = positives labels) /\
  (forall i : nat, labels !! i = Some 1%Z -> (RiskMapping.nrows frame <= i)%nat ->
     r = RiskMapping._empty_risk_mapping) /\
  (RiskMapping.total_anomalies_analyzed r <= positives labels)%nat.
Proof.
  cbv zeta. unfold RiskMapping.map_anomalies_to_risks. cbv zeta.
  cbn [RiskMapping.sensor_data RiskMapping.predictions].
  change (RiskMapping.eq_1 (default (VIntArr []) (Some (VIntArr labels))))
    with (Some ((fun z => Z.eqb z 1) <$> labels)).
  cbv iota beta.
  pose proof (np_where_positives labels 0) as Hcount.
  set (flags := (fun z => Z.eqb z 1) <$> labels) in *.
  assert (Hflag : forall i : nat, labels !! i = Some 1%Z -> flags !! i = Some true).
  { intros i Hi. unfold flags. rewrite list_lookup_fmap, Hi. reflexivity. }
  destruct (Nat.eqb (length flags) 0) eqn:Elen.
  { cbn. split; [| split; [reflexivity | lia]].
    apply Nat.eqb_eq in Elen. unfold flags in Elen. rewrite length_fmap in Elen.
    destruct labels; [reflexivity | discriminate]. }
  destruct (Nat.eqb_spec (length (RiskMapping.np_where 0 flags)) 0) as [E0 | Hne].
  { cbn. rewrite <- Hcount, E0. split; [reflexivity | split; [reflexivity | lia]]. }
  split; [| split].
  - intros Hlen.
    rewrite (surjective_pairing (RiskMapping.analyze _ _ _ _ _)).
    rewrite analyze_in_range; [cbn; exact Hcount |].
    apply Forall_forall. intros j Hj. apply np_where_bound in Hj.
    unfold flags in Hj. rewrite length_fmap in Hj. lia.
  - intros i Hi Hge.
    rewrite (surjective_pairing (RiskMapping.analyze _ _ _ _ _)).
    rewrite analyze_out_of_range; [reflexivity |].
    apply Exists_exists. exists i. split; [| exact Hge].
    exact (np_where_elem flags 0 i (Hflag i Hi)).
  - destruct (RiskMapping.analyze _ _ _ _ _) as [st [e|]]; cbn; lia.
Qed.

End Mapper.

End MapperResults.

Module SensorContributions.
Import Py PyFacts Spec Laws.

(** *** The per-sensor counters of one call *)

Lemma assoc_incr_fresh (r : string) (n : nat) (done : list string) :
  r ∉ done ->
  RiskMapping.assoc_incr r ((fun x => (x, n)) <$> done)
  = ((fun x => (x, n)) <$> done) ++ [(r, 1%nat)].
Proof.
  induction done as [|d done IH]; intros Hr; [reflexivity |].
  rewrite fmap_cons. cbn [RiskMapping.assoc_incr].
  destruct (String.eqb_spec r d) as [-> | _]; [exfalso; apply Hr; left |].
  rewrite IH; [reflexivity |]. intros H. apply Hr. now right.
Qed.

Lemma assoc_incr_next (r : string) (n : nat) (done todo : list string) :
  r ∉ done ->
  RiskMapping.assoc_incr r
    (((fun x => (x, S n)) <$> done) ++ (r, n) :: ((fun x => (x, n)) <$> todo))
  = ((fun x => (x, S n)) <$> (done ++ [r])) ++ ((fun x => (x, n)) <$> todo).
Proof.
  induction done as [|d done IH]; intros Hr.
  - cbn. rewrite String.eqb_refl. reflexivity.
  - rewrite fmap_cons. cbn [app RiskMapping.assoc_incr].
    destruct (String.eqb_spec r d) as [-> | _]; [exfalso; apply Hr; left |].
    rewrite IH; [reflexivity |]. intros H. apply Hr. now right.
Qed.

(** A first visit lists the sensor's categories at count 1. *)
Lemma count_risks_first (todo : list string) :
  forall done : list string,
    NoDup (done ++ todo) ->
    foldl (fun c r => RiskMapping.assoc_incr r c) ((fun x => (x, 1%nat)) <$> done) todo
    = (fun x => (x, 1%nat)) <$> (done ++ todo).
Proof.
  induction todo as [|r todo IH]; intros done Hnd; cbn [foldl].
  - now rewrite app_nil_r.
  - rewrite assoc_incr_fresh.
    + change [(r, 1%nat)] with ((fun x : string => (x, 1%nat)) <$> [r]).
      rewrite <- fmap_app, IH, <- app_assoc; [reflexivity |].
      now rewrite <- app_assoc.
    + apply NoDup_app in Hnd. destruct Hnd as (_ & Hd & _).
      intros H. apply (Hd r H). left.
Qed.

(** A later visit raises every count of the sensor by one. *)
Lemma count_risks_again (n : nat) (todo : list string) :
  forall done : list string,
    NoDup (done ++ todo) ->
    foldl (fun c r => RiskMapping.assoc_incr r c)
      (((fun x => (x, S n)) <$> done) ++ ((fun x => (x, n)) <$> todo)) todo
    = (fun x => (x, S n)) <$> (done ++ todo).
Proof.
  induction todo as [|r todo IH]; intros done Hnd; cbn [foldl].
  - now rewrite !app_nil_r.
  - rewrite fmap_cons, assoc_incr_next.
    + rewrite IH, <- app_assoc; [reflexivity |]. now rewrite <- app_assoc.
    + apply NoDup_app in Hnd. destruct Hnd as (_ & Hd & _).
      intros H. apply (Hd r H). left.
Qed.

Lemma count_risks_raise (n : nat) (risks : list string) :
  NoDup risks ->
  foldl (fun c r => RiskMapping.assoc_incr r c) ((fun x => (x, n)) <$> risks) risks
  = (fun x => (x, S n)) <$> risks.
Proof. intros H. exact (count_risks_again n risks [] H). Qed.

Lemma count_risks_start (r0 : string) (rest : list string) :
  NoDup (r0 :: rest) ->
  foldl (fun c r => RiskMapping.assoc_incr r c) [(r0, 1%nat)] rest
  = (fun x => (x, 1%nat)) <$> (r0 :: rest).
Proof. intros H. exact (count_risks_first rest [r0] H). Qed.

Lemma assoc_incr2_absent (s r : string) (sc : list (string * list (string * nat))) :
  s ∉ fst <$> sc ->
  RiskMapping.assoc_incr2 s r sc = sc ++ [(s, [(r, 1%nat)])].
Proof.
  induction sc as [|[k c] sc IH]; intros Hs; [reflexivity |].
  cbn [RiskMapping.assoc_incr2].
  destruct (String.eqb_spec s k) as [-> | _]; [exfalso; apply Hs; left |].
  rewrite IH; [reflexivity |]. intros H. apply Hs. now right.
Qed.

Lemma assoc_incr2_present (s r : string) (c : list (string * nat))
    (pre post : list (string * list (string * nat))) :
  s ∉ fst <$> pre ->
  RiskMapping.assoc_incr2 s r (pre ++ (s, c) :: post)
  = pre ++ (s, RiskMapping.assoc_incr r c) :: post.
Proof.
  induction pre as [|[k c'] pre IH]; intros Hs.
  - cbn. rewrite String.eqb_refl. reflexivity.
  - cbn [app RiskMapping.assoc_incr2].
    destruct (String.eqb_spec s k) as [-> | _]; [exfalso; apply Hs; left |].
    rewrite IH; [reflexivity |]. intros H. apply Hs. now right.
Qed.

Lemma assoc_incr2_fold_present (s : string) (risks : list string)
    (pre post : list (string * list (string * nat))) :
  s ∉ fst <$> pre ->
  forall c : list (string * nat),
    foldl (fun sc r => RiskMapping.assoc_incr2 s r sc) (pre ++ (s, c) :: post) risks
    = pre ++ (s, foldl (fun c r => RiskMapping.assoc_incr r c) c risks) :: post.
Proof.
  intros Hs. induction risks as [|r risks IH]; intros c; cbn [foldl]; [reflexivity |].
  rewrite assoc_incr2_present by exact Hs. apply IH.
Qed.

Lemma record_risks_contribs (sensor : string) (risks : list string) :
  forall st : RiskMapping.LoopState,
    RiskMapping.sensor_contribs (foldl (RiskMapping.record_risk sensor) st risks)
    = foldl (fun sc r => RiskMapping.assoc_incr2 sensor r sc)
        (RiskMapping.sensor_contribs st) risks.
Proof.
  induction risks as [|r risks IH]; intros st; cbn [foldl]; [reflexivity |].
  rewrite IH. reflexivity.
Qed.

(** The counters of one visit of a flagged sensor. *)
Lemma visit_contribs (s : string) (sc : list (string * list (string * nat))) :
  contribs_uniform sc ->
  contribs_uniform
    (foldl (fun sc r => RiskMapping.assoc_incr2 s r sc) sc (risks_of s)).
Proof.
  intros [Hnd Hall].
  pose proof (MapperInvariants.table_rows_NoDup s) as Hrows.
  destruct (decide (s ∈ fst <$> sc)) as [Hin | Hout].
  - apply list_elem_of_fmap in Hin. destruct Hin as ([s' c] & -> & Hin).
    apply list_elem_of_split in Hin. destruct Hin as (pre & post & ->).
    cbn [fst] in *. rewrite fmap_app, fmap_cons in Hnd. cbn [fst] in Hnd.
    apply NoDup_app in Hnd. destruct Hnd as (Hpre & Hdisj & Hpost).
    assert (Hs : s' ∉ fst <$> pre).
    { intros H. apply (Hdisj s' H). left. }
    rewrite assoc_incr2_fold_present by exact Hs.
    rewrite Forall_app, Forall_cons in Hall. destruct Hall as (Hall1 & Hc & Hall2).
    destruct Hc as (n & Hn & Hc & Hne). cbn [fst snd] in Hc, Hne. subst c.
    rewrite count_risks_raise by exact Hrows.
    split.
    + rewrite fmap_app, fmap_cons. cbn [fst]. apply NoDup_app. auto.
    + rewrite Forall_app, Forall_cons. split; [exact Hall1 |]. split; [| exact Hall2].
      exists (S n). cbn [fst snd]. split; [lia |]. split; [reflexivity | exact Hne].
  - destruct (risks_of s) as [|r0 rest] eqn:Er; [split; assumption |].
    cbn [foldl]. rewrite assoc_incr2_absent by exact Hout.
    assert (Hs : s ∉ fst <$> sc) by exact Hout.
    rewrite (assoc_incr2_fold_present s rest sc [] Hs).
    rewrite count_risks_start by exact Hrows. split.
    + rewrite fmap_app. cbn [fmap list_fmap fst]. apply NoDup_app.
      split; [exact Hnd |]. split; [| apply NoDup_singleton].
      intros x Hx Hx'. apply list_elem_of_singleton in Hx'. now subst.
    + rewrite Forall_app. split; [exact Hall |]. constructor; [| constructor].
      exists 1%nat. cbn [fst snd]. rewrite Er.
      split; [lia |]. split; [reflexivity | discriminate].
Qed.

(** With every count equal, the first key is the largest. *)
Lemma argmax_uniform (n : nat) (l : list string) (best : string * nat) :
  best.2 = n ->
  RiskMapping.argmax_from Nat.ltb best ((fun x => (x, n)) <$> l) = best.
Proof.
  intros Hb. induction l as [|x l IH]; [reflexivity |].
  rewrite fmap_cons. cbn [RiskMapping.argmax_from snd].
  rewrite Hb, Nat.ltb_irrefl. exact IH.
Qed.

Lemma sum_uniform (n : nat) (l : list string) :
  foldr Nat.add 0%nat (snd <$> ((fun x : string => (x, n)) <$> l)) = (n * length l)%nat.
Proof.
  induction l as [|x l IH]; [cbn; lia |].
  rewrite !fmap_cons. cbn [foldr snd length]. rewrite IH. lia.
Qed.

Lemma table_stages (sensor : string) :
  risks_of sensor <> [] ->
  sensor ∈ fst <$> RiskMapping.SENSOR_RISK_MAP /\
  RiskMapping.stage_of sensor ∈ ["P1"; "P2"; "P3"; "P4"; "P5"; "P6"].
Proof.
  unfold risks_of. intros Hne.
  destruct (RiskMapping.assoc sensor RiskMapping.SENSOR_RISK_MAP) as [risks|] eqn:E;
    [| now contradiction Hne].
  apply RiskMappingProofs.assoc_elem in E.
  assert (Hall : Forall (fun kv : string * list string =>
                           RiskMapping.stage_of kv.1 ∈ ["P1"; "P2"; "P3"; "P4"; "P5"; "P6"])
                   RiskMapping.SENSOR_RISK_MAP).
  { apply (bool_decide_unpack _). vm_compute. exact I. }
  rewrite Forall_forall in Hall. split; [| exact (Hall _ E)].
  apply list_elem_of_fmap. exists (sensor, risks). auto.
Qed.

Section Mapper.

Variables series_mean series_std : list pyfloat -> pyfloat.
Variable list_of_set : list string -> list string.

Abbreviation visit := (RiskMapping.visit_sensor series_mean series_std).
Abbreviation map_anomalies :=
  (RiskMapping.map_anomalies_to_risks series_mean series_std list_of_set).

Lemma visit_sensor_contribs (sensor_data : RiskMapping.DataFrame)
    (sample : list (string * pyfloat)) (st : RiskMapping.LoopState) (sensor : string) :
  contribs_uniform (RiskMapping.sensor_contribs st) ->
  contribs_uniform (RiskMapping.sensor_contribs (visit sensor_data sample st sensor)).
Proof.
  intros Hst. unfold RiskMapping.visit_sensor.
  destruct (RiskMapping.assoc sensor sample) as [value|]; [| exact Hst].
  destruct (RiskMapping._is_sensor_anomalous _ _ _ _ _); [| exact Hst].
  rewrite record_risks_contribs. cbn [RiskMapping.sensor_contribs].
  now apply visit_contribs.
Qed.

(** X15. In every returned mapping each sensor appears once among the sensor
    contributions, is a sensor of the table, and its entry lists exactly the
    table's categories of the sensor, in the table's order. Each of them was
    counted once per flagged row, so the entry's anomaly count is a positive
    multiple of the number of its categories (not the number of flagged
    rows), and its primary risk is always the first category of the
    sensor's row. The stage is the table's and never Unknown. *)
Theorem sensor_contribution_repeats_the_table (self : RiskMapping.RiskMappingAgent)
    (data : RiskMapping.AnomalyData) :
  let r := (map_anomalies self data).2 in
  NoDup (fst <$> RiskMapping.sensor_contributions r) /\
  forall (sensor : string) (e : RiskMapping.SensorContribution),
    (sensor, e) ∈ RiskMapping.sensor_contributions r ->
    sensor ∈ fst <$> RiskMapping.SENSOR_RISK_MAP /\
    RiskMapping.risks e = risks_of sensor /\
    (exists n : nat,
       (1 <= n)%nat /\
       RiskMapping.anomaly_count e = (n * length (RiskMapping.risks e))%nat) /\
    head (RiskMapping.risks e) = Some (RiskMapping.primary_risk e) /\
    RiskMapping.stage e = RiskMapping.stage_of sensor /\
    RiskMapping.stage e ∈ ["P1"; "P2"; "P3"; "P4"; "P5"; "P6"].
Proof.
  intros r.
  assert (H0 : contribs_uniform []) by (split; constructor).
  destruct (MapperResults.map_anomalies_shape series_mean series_std list_of_set
              (fun st => contribs_uniform (RiskMapping.sensor_contribs st))
              visit_sensor_contribs self data H0) as [E | (st & n & [Hnd Hall] & E)];
    fold r in E; rewrite E.
  - split; [constructor |]. intros sensor e He. inversion He.
  - unfold mapping_of, RiskMapping._get_sensor_contributions.
    cbn [RiskMapping.sensor_contributions]. split.
    + rewrite <- list_fmap_compose. exact Hnd.
    + intros sensor e He. apply list_elem_of_fmap in He.
      destruct He as ([s c] & [= -> ->] & Hin). cbn [fst snd].
      rewrite Forall_forall in Hall. destruct (Hall _ Hin) as (k & Hk & Hc & Hne).
      cbn [fst snd] in Hc, Hne. subst c.
      cbn [RiskMapping.risks RiskMapping.anomaly_count RiskMapping.primary_risk
           RiskMapping.stage].
      destruct (table_stages s Hne) as [Hkey Hstage].
      assert (Hkeys : fst <$> ((fun x : string => (x, k)) <$> risks_of s) = risks_of s).
      { rewrite <- list_fmap_compose. apply list_fmap_id. }
      split; [exact Hkey |]. split; [exact Hkeys |]. split; [| split; [| split]].
      * exists k. split; [exact Hk |]. rewrite Hkeys. apply sum_uniform.
      * rewrite Hkeys. destruct (risks_of s) as [|r0 rest]; [contradiction |].
        rewrite fmap_cons. cbn [RiskMapping.argmax head].
        rewrite argmax_uniform by reflexivity. reflexivity.
      * reflexivity.
      * exact Hstage.
Qed.

End Mapper.

End SensorContributions.

(* ================================================================== *)
(** ** The coordinator: every outcome of a run *)
(* ================================================================== *)

Module CoordinatorRuns.
Import Py PyFacts Spec Laws Coordination.

Section Coordinator.

Context {P D C O K M : Type}.
Context `{!PerceptionLike P, !DetectorLike D, !CyberLike C,
          !OperationalLike O, !DecisionLike K, !RiskMapperLike M}.
Variable now : nat -> string.

Abbreviation agent := (CoordinationAgent (P := P) (D := D) (C := C) (O := O) (K := K) (M := M)).

(** X16. Every call of [process_data] returns, with a SUCCESS or an ERROR
    result. It is a SUCCESS exactly when the five mandatory stages answered,
    and then carries their answers, the state is COMPLETED, and the log grew
    by the start entry, one entry of the mapping step when a mapper is
    registered (INFO with the mapping in the result, or WARNING with the
    exception's message and no mapping), and the success entry. It is an
    ERROR exactly when a mandatory stage raised, and then carries the
    exception's message, the state is ERROR, the log grew by the start and the
    error entry, and the mapper was not called. The result carries the state
    and the whole log; the five mandatory collaborators are never replaced. *)
Theorem process_data_outcomes (self : agent) (raw_data : RiskMapping.DataFrame) :
  let out := process_data now self raw_data in
  let n := length (execution_log self) in
  let started :=
    {| timestamp := now n; level := "INFO";
       message := "Starting data processing pipeline" |} in
  (perception_agent out.1 = perception_agent self /\
   fault_detection_agent out.1 = fault_detection_agent self /\
   cyber_risk_agent out.1 = cyber_risk_agent self /\
   operational_risk_agent out.1 = operational_risk_agent self /\
   decision_agent out.1 = decision_agent self) /\
  match out.2 with
  | SUCCESS r =>
      mandatory_chain self raw_data
      = Ok (detection_results r, cyber_assessment r, operational_assessment r, decisions r) /\
      system_state out.1 = "COMPLETED" /\
      s_system_state r = "COMPLETED" /\
      s_execution_log r = execution_log out.1 /\
      match risk_mapping_agent self with
      | None =>
          risk_mapping r = None /\ risk_mapping_agent out.1 = None /\
          execution_log out.1
          = execution_log self
              ++ [started;
                  {| timestamp := now (S n); level := "SUCCESS";
                     message := "Pipeline completed successfully" |}]
      | Some m =>
          let answer := invoke_risk_mapper m (detection_results r) raw_data in
          risk_mapping_agent out.1 = Some answer.2 /\
          exists entry : LogEntry,
            execution_log out.1
            = execution_log self
                ++ [started; entry;
                    {| timestamp := now (S (S n)); level := "SUCCESS";
                       message := "Pipeline completed successfully" |}] /\
            match answer.1 with
            | Ok mapping =>
                risk_mapping r = Some mapping /\
                entry = {| timestamp := now (S n); level := "INFO";
                           message := "Risk mapping completed" |}
            | Raise e =>
                risk_mapping r = None /\
                entry = {| timestamp := now (S n); level := "WARNING";
                           message := "Risk mapping error: " ++ str e |}
            end
      end
  | ERROR r =>
      exists e : exn,
        mandatory_chain self raw_data = Raise e /\
        error r = str e /\
        system_state out.1 = "ERROR" /\
        e_system_state r = "ERROR" /\
        e_execution_log r = execution_log out.1 /\
        execution_log out.1
        = execution_log self
            ++ [started;
                {| timestamp := now (S n); level := "ERROR";
                   message := "Pipeline error: " ++ str e |}] /\
        risk_mapping_agent out.1 = risk_mapping_agent self
  end.
Proof.
  cbv zeta. unfold process_data.
  rewrite CoordinationProofs.mandatory_chain_frame.
  destruct (mandatory_chain self raw_data) as [[[[det cy] op] dec] | e].
  - unfold risk_mapping_step.
    cbn [risk_mapping_agent _log_event set_system_state].
    destruct (risk_mapping_agent self) as [m|] eqn:Hm.
    + destruct (invoke_risk_mapper m det raw_data) as [[mapping | e] m'] eqn:Hcall;
        cbn [fst snd system_state execution_log perception_agent fault_detection_agent
             cyber_risk_agent operational_risk_agent decision_agent risk_mapping_agent
             _log_event set_system_state set_risk_mapping_agent
             detection_results cyber_assessment operational_assessment decisions
             s_system_state s_execution_log risk_mapping];
        rewrite Hcall; cbn [fst snd];
        rewrite !length_app; cbn [length]; rewrite !Nat.add_1_r, <- !app_assoc;
        (split; [repeat split |]);
        (split; [reflexivity |]); (split; [reflexivity |]); (split; [reflexivity |]);
        (split; [reflexivity |]); (split; [reflexivity |]);
        eexists; (split; [reflexivity |]); split; reflexivity.
    + cbn [fst snd system_state execution_log perception_agent fault_detection_agent
           cyber_risk_agent operational_risk_agent decision_agent risk_mapping_agent
           _log_event set_system_state
           detection_results cyber_assessment operational_assessment decisions
           s_system_state s_execution_log risk_mapping].
      rewrite !length_app. cbn [length]. rewrite !Nat.add_1_r, <- !app_assoc.
      repeat split. exact Hm.
  - cbn [fst snd system_state execution_log perception_agent fault_detection_agent
         cyber_risk_agent operational_risk_agent decision_agent risk_mapping_agent
         _log_event set_system_state error e_system_state e_execution_log].
    rewrite !length_app. cbn [length]. rewrite !Nat.add_1_r, <- !app_assoc.
    split; [repeat split |]. exists e. repeat split.
Qed.

Lemma process_data_step (self : agent) (raw_data : RiskMapping.DataFrame) :
  let after := (process_data now self raw_data).1 in
  (perception_agent after = perception_agent self /\
   fault_detection_agent after = fault_detection_agent self /\
   cyber_risk_agent after = cyber_risk_agent self /\
   operational_risk_agent after = operational_risk_agent self /\
   decision_agent after = decision_agent self) /\
  (exists added : list LogEntry,
     execution_log after = execution_log self ++ added /\
     (2 <= length added <= 3)%nat) /\
  (system_state after = "COMPLETED" \/ system_state after = "ERROR") /\
  (system_state after = "COMPLETED" <-> is_Ok (mandatory_chain self raw_data) = true).
Proof.
  cbv zeta. unfold process_data.
  rewrite CoordinationProofs.mandatory_chain_frame.
  destruct (mandatory_chain self raw_data) as [[[[det cy] op] dec] | e].
  - unfold risk_mapping_step.
    cbn [risk_mapping_agent _log_event set_system_state].
    destruct (risk_mapping_agent self) as [m|];
      [destruct (invoke_risk_mapper m det raw_data) as [[mapping | e] m'] |];
      cbn [fst snd system_state execution_log perception_agent fault_detection_agent
           cyber_risk_agent operational_risk_agent decision_agent risk_mapping_agent
           _log_event set_system_state set_risk_mapping_agent is_Ok];
      rewrite <- !app_assoc;
      (split; [repeat split |]);
      (split; [eexists; split; [reflexivity | cbn; lia] |]);
      (split; [now left |]); split; reflexivity.
  - cbn [fst snd system_state execution_log perception_agent fault_detection_agent
         cyber_risk_agent operational_risk_agent decision_agent risk_mapping_agent
         _log_event set_system_state is_Ok].
    rewrite <- !app_assoc.
    split; [repeat split |].
    split; [eexists; split; [reflexivity | cbn; lia] |].
    split; [now right |]. split; discriminate.
Qed.

(** X17. Over any sequence of [process_data] calls the log only grows: what
    it held stays in front, and each call appends two or three entries. The
    five mandatory collaborators stay as registered, and after at least one
    call the state is COMPLETED or ERROR, never PROCESSING; it is COMPLETED
    exactly when the mandatory stages of the last call answered. *)
Theorem pipeline_runs_extend_the_log (self : agent)
    (frames : list RiskMapping.DataFrame) (last : RiskMapping.DataFrame) :
  let before := after_runs now self frames in
  let after := after_runs now self (frames ++ [last]) in
  (exists added : list LogEntry,
     execution_log before = execution_log self ++ added /\
     (2 * length frames <= length added <= 3 * length frames)%nat) /\
  (perception_agent before = perception_agent self /\
   fault_detection_agent before = fault_detection_agent self /\
   cyber_risk_agent before = cyber_risk_agent self /\
   operational_risk_agent before = operational_risk_agent self /\
   decision_agent before = decision_agent self) /\
  (system_state after = "COMPLETED" \/ system_state after = "ERROR") /\
  (system_state after = "COMPLETED" <-> is_Ok (mandatory_chain self last) = true) /\
  get_system_status after = system_state after.
Proof.
  cbv zeta.
  assert (G : forall (frames : list RiskMapping.DataFrame) (c : agent),
    (exists added : list LogEntry,
       execution_log (after_runs now c frames) = execution_log c ++ added /\
       (2 * length frames <= length added <= 3 * length frames)%nat) /\
    (perception_agent (after_runs now c frames) = perception_agent c /\
     fault_detection_agent (after_runs now c frames) = fault_detection_agent c /\
     cyber_risk_agent (after_runs now c frames) = cyber_risk_agent c /\
     operational_risk_agent (after_runs now c frames) = operational_risk_agent c /\
     decision_agent (after_runs now c frames) = decision_agent c)).
  { clear. unfold after_runs.
    induction frames as [|raw frames IH]; intros c; cbn [foldl length].
    - split; [exists []; rewrite app_nil_r; split; [reflexivity | cbn; lia] | repeat split].
    - destruct (process_data_step c raw) as ((E1 & E2 & E3 & E4 & E5) & (a1 & Ha1 & Hl1) & _).
      destruct (IH (process_data now c raw).1)
        as ((a2 & Ha2 & Hl2) & (F1 & F2 & F3 & F4 & F5)).
      split.
      + exists (a1 ++ a2). rewrite Ha2, Ha1, <- app_assoc. split; [reflexivity |].
        rewrite length_app. lia.
      + rewrite F1, F2, F3, F4, F5. repeat split; assumption. }
  split; [apply G |]. split; [apply G |].
  unfold after_runs. rewrite foldl_app. cbn [foldl].
  fold (after_runs now self frames).
  destruct (process_data_step (after_runs now self frames) last) as (_ & _ & Hs & Hiff).
  split; [exact Hs |]. split; [| reflexivity].
  rewrite Hiff. destruct (G frames self) as (_ & (F1 & F2 & F3 & F4 & F5)).
  unfold mandatory_chain. rewrite F1, F2, F3, F4, F5. reflexivity.
Qed.

End Coordinator.

End CoordinatorRuns.

(* ================================================================== *)
(** ** The detector and what its dictionary feeds *)
(* ================================================================== *)

Module DetectionProofs.
Import Py PyFacts Spec Laws Coordination.

Lemma count_true_positives (labels : list Z) :
  count_true ((fun y => Z.eqb y 1) <$> labels) = positives labels.
Proof.
  unfold count_true, positives.
  induction labels as [|z labels IH]; [reflexivity |].
  rewrite fmap_cons, !filter_cons.
  destruct (Z.eqb_spec z 1) as [E | Hne].
  - rewrite decide_True by reflexivity. rewrite decide_True by exact E.
    cbn [length]. now rewrite IH.
  - rewrite decide_False by discriminate. rewrite decide_False by exact Hne. exact IH.
Qed.

Lemma count_true_le (flags : list bool) : (count_true flags <= length flags)%nat.
Proof. unfold count_true. apply length_filter. Qed.

(** The confidence of a sample is at least its attack probability. *)
Lemma column_1_le_row_max (proba : list (list Q)) :
  forall y_prob confidence : list Q,
    FaultDetection.column_1 proba = Ok y_prob ->
    FaultDetection.row_max proba = Ok confidence ->
    Forall2 Qle y_prob confidence /\ length y_prob = length proba.
Proof.
  induction proba as [|row proba IH]; intros y_prob confidence.
  - intros [= <-] [= <-]. split; [constructor | reflexivity].
  - cbn [FaultDetection.column_1 FaultDetection.row_max].
    destruct (row !! 1%nat) as [p|] eqn:Ep; [| discriminate].
    destruct (FaultDetection.column_1 proba) as [t|]; [| discriminate].
    cbn [mbind result_bind]. intros [= <-].
    destruct (np_max row) as [m|] eqn:Em; [| discriminate].
    cbn [mbind result_bind].
    destruct (FaultDetection.row_max proba) as [c|]; [| discriminate].
    cbn [mbind result_bind]. intros [= <-].
    destruct (IH t c eq_refl eq_refl) as [Hle Hlen].
    split; [| cbn [length]; now rewrite Hlen].
    constructor; [| exact Hle].
    apply (CyberOutcomes.np_max_spec row m Em). now apply list_elem_of_lookup_2 in Ep.
Qed.

(** What a successful [detect] returns. *)
Lemma detect_dictionary (self : FaultDetection.FaultDetectionAgent)
    (X : FaultDetection.Features) (det : gmap string pyval) :
  FaultDetection.detect self X = Ok det ->
  exists (clf : FaultDetection.Classifier) (y_pred : list Z) (proba : list (list Q))
         (y_prob confidence : list Q),
    FaultDetection.model self = Some clf /\
    FaultDetection.predict clf X = Ok y_pred /\
    FaultDetection.predict_proba clf X = Ok proba /\
    FaultDetection.column_1 proba = Ok y_prob /\
    FaultDetection.row_max proba = Ok confidence /\
    det = <["anomaly_detected" := VBoolArr ((fun y => Z.eqb y 1) <$> y_pred)]>
          (<["attack_probability" := VFloatArr y_prob]>
          (<["predictions" := VIntArr y_pred]>
          (<["confidence" := VFloatArr confidence]>
          (<["num_anomalies" := VInt (np_sum_flags ((fun y => Z.eqb y 1) <$> y_pred))]>
          (<["anomaly_rate" := VFloat (np_mean_flags ((fun y => Z.eqb y 1) <$> y_pred))]>
             ∅))))).
Proof.
  unfold FaultDetection.detect.
  destruct (FaultDetection.model self) as [clf|] eqn:Em; [| discriminate].
  destruct (FaultDetection.predict clf X) as [y_pred|] eqn:Ey; [| discriminate].
  cbn [mbind result_bind].
  destruct (FaultDetection.predict_proba clf X) as [proba|] eqn:Ep; [| discriminate].
  cbn [mbind result_bind].
  destruct (FaultDetection.column_1 proba) as [y_prob|] eqn:Ec; [| discriminate].
  destruct (FaultDetection.row_max proba) as [confidence|] eqn:Er; [| discriminate].
  intros [= <-]. exists clf, y_pred, proba, y_prob, confidence.
  split; [reflexivity |]. split; [exact Ey |]. split; [exact Ep |].
  split; [exact Ec |]. split; [exact Er | reflexivity].
Qed.

Lemma mean_flags_range (flags : list bool) :
  match np_mean_flags flags with
  | NaN => flags = []
  | Fin r =>
      flags <> [] /\ (0 <= r <= 1)%Q /\
      (r == inject_Z (Z.of_nat (count_true flags)) / inject_Z (Z.of_nat (length flags)))%Q
  end.
Proof.
  destruct flags as [|b rest] eqn:E; [reflexivity |]. rewrite <- E.
  assert (Hlen : length flags = S (length rest)) by (rewrite E; reflexivity).
  destruct (ScenarioProofs.np_mean_flags_rate flags (length rest) _ Hlen eq_refl)
    as [r [Er Hr]].
  rewrite Er. split; [rewrite E; discriminate |]. rewrite Hlen. split; [| exact Hr].
  pose proof (count_true_le flags) as Hc. rewrite Hlen in Hc.
  assert (Hpos : (0 < inject_Z (Z.of_nat (S (length rest))))%Q).
  { change 0%Q with (inject_Z 0). rewrite <- Zlt_Qlt. lia. }
  assert (H0 : (0 <= inject_Z (Z.of_nat (count_true flags)))%Q).
  { change 0%Q with (inject_Z 0). rewrite <- Zle_Qle. lia. }
  assert (H1 : (inject_Z (Z.of_nat (count_true flags))
                <= inject_Z (Z.of_nat (S (length rest))))%Q).
  { rewrite <- Zle_Qle. lia. }
  rewrite Hr. split.
  - apply Qle_shift_div_l; [exact Hpos | lra].
  - apply Qle_shift_div_r; [exact Hpos | lra].
Qed.

(** X18. [detect] raises ValueError on an agent without a model. When it
    returns, the dictionary holds exactly six keys: the classifier's labels,
    the flags (label equal to 1), the second column of the class
    probabilities, the row maxima as confidence, the number of labels equal
    to 1 and their share of the batch. The share is NaN for an empty batch
    and otherwise lies between 0 and 1; a sample's confidence is never below
    its attack probability. The plural key attack_probabilities is not among
    the six. *)
Theorem detect_outcomes (self : FaultDetection.FaultDetectionAgent)
    (X : FaultDetection.Features) :
  (FaultDetection.model self = None ->
   FaultDetection.detect self X
   = Raise (ValueError "Model not trained. Call train() or load_model() first.")) /\
  (forall det : gmap string pyval,
     FaultDetection.detect self X = Ok det ->
     exists (y_pred : list Z) (y_prob confidence : list Q) (rate : pyfloat),
       det !! "predictions" = Some (VIntArr y_pred) /\
       det !! "anomaly_detected" = Some (VBoolArr ((fun y => Z.eqb y 1) <$> y_pred)) /\
       det !! "attack_probability" = Some (VFloatArr y_prob) /\
       det !! "confidence" = Some (VFloatArr confidence) /\
       det !! "num_anomalies" = Some (VInt (Z.of_nat (positives y_pred))) /\
       det !! "anomaly_rate" = Some (VFloat rate) /\
       (forall k : string,
          is_Some (det !! k) <->
          k ∈ ["anomaly_detected"; "attack_probability"; "predictions"; "confidence";
               "num_anomalies"; "anomaly_rate"]) /\
       Forall2 Qle y_prob confidence /\
       match rate with
       | NaN => y_pred = []
       | Fin r =>
           y_pred <> [] /\ (0 <= r <= 1)%Q /\
           (r == inject_Z (Z.of_nat (positives y_pred))
                 / inject_Z (Z.of_nat (length y_pred)))%Q
       end).
Proof.
  split.
  - intros Hnone. unfold FaultDetection.detect. rewrite Hnone. reflexivity.
  - intros det Hdet.
    destruct (detect_dictionary self X det Hdet)
      as (clf & y_pred & proba & y_prob & confidence & _ & _ & _ & Hc & Hr & ->).
    exists y_pred, y_prob, confidence, (np_mean_flags ((fun y => Z.eqb y 1) <$> y_pred)).
    split; [rewrite !lookup_insert_ne by discriminate; apply lookup_insert_eq |].
    split; [apply lookup_insert_eq |].
    split; [rewrite !lookup_insert_ne by discriminate; apply lookup_insert_eq |].
    split; [rewrite !lookup_insert_ne by discriminate; apply lookup_insert_eq |].
    split.
    { rewrite !lookup_insert_ne by discriminate. rewrite lookup_insert_eq.
      unfold np_sum_flags. now rewrite count_true_positives. }
    split; [rewrite !lookup_insert_ne by discriminate; apply lookup_insert_eq |].
    split.
    { intros k. rewrite !lookup_insert_is_Some, lookup_empty, is_Some_alt.
      rewrite !elem_of_cons, elem_of_nil. intuition congruence. }
    split; [exact (proj1 (column_1_le_row_max proba y_prob confidence Hc Hr)) |].
    pose proof (mean_flags_range ((fun y => Z.eqb y 1) <$> y_pred)) as Hrange.
    destruct (np_mean_flags _) as [r|].
    + destruct Hrange as (Hne & Hr01 & Hreq).
      rewrite count_true_positives, length_fmap in Hreq.
      split; [intros ->; now apply Hne | split; assumption].
    + now destruct y_pred.
Qed.

(** X19. The dictionary of a successful [detect] always satisfies the
    operational agent, whatever the cyber assessment: it holds both keys at
    the right types. The cyber agent finds its two keys as well; it raises
    only ValueError (no probability row) or IndexError (a positive label and
    as many probabilities as labels not given), and when it answers, its
    anomaly count and anomaly rate are the dictionary's, and the operational
    agent takes the assessment's level as likelihood. *)
Theorem detection_dictionary_feeds_the_risk_agents
    (self : FaultDetection.FaultDetectionAgent) (X : FaultDetection.Features)
    (det : gmap string pyval) :
  FaultDetection.detect self X = Ok det ->
  (forall (o : Operational.OperationalRiskAssessmentAgent) (cy : Cyber.CyberAssessment),
     exists op : Operational.OperationalAssessment,
       Operational.assess_risk o det cy = Ok op /\
       Operational.likelihood op = Cyber.risk_level cy) /\
  (forall (c : Cyber.CyberRiskAssessmentAgent) (ts : option (list string)) (e : exn),
     Cyber.assess_risk c det ts = Raise e ->
     exists msg : string, e = ValueError msg \/ e = IndexError msg) /\
  (forall (c : Cyber.CyberRiskAssessmentAgent) (ts : option (list string))
          (a : Cyber.CyberAssessment),
     Cyber.assess_risk c det ts = Ok a ->
     det !! "num_anomalies" = Some (VInt (Cyber.anomaly_count a)) /\
     det !! "anomaly_rate" = Some (VFloat (Cyber.anomaly_rate a)) /\
     (0 <= Cyber.anomaly_count a)%Z).
Proof.
  intros Hdet.
  destruct (detect_dictionary self X det Hdet)
    as (clf & y_pred & proba & y_prob & confidence & _ & _ & _ & Hc & Hr & ->).
  set (flags := (fun y => Z.eqb y 1) <$> y_pred).
  set (det := <["anomaly_detected" := VBoolArr flags]> _).
  assert (Hf : det !! "anomaly_detected" = Some (VBoolArr flags))
    by apply lookup_insert_eq.
  assert (Hp : det !! "attack_probability" = Some (VFloatArr y_prob)).
  { unfold det. rewrite !lookup_insert_ne by discriminate. apply lookup_insert_eq. }
  assert (Hn : det !! "num_anomalies" = Some (VInt (np_sum_flags flags))).
  { unfold det. rewrite !lookup_insert_ne by discriminate. apply lookup_insert_eq. }
  assert (Hrate : det !! "anomaly_rate" = Some (VFloat (np_mean_flags flags))).
  { unfold det. rewrite !lookup_insert_ne by discriminate. apply lookup_insert_eq. }
  clearbody det. split; [| split].
  - intros o cy. unfold Operational.assess_risk, getitem. rewrite Hrate, Hn.
    cbn [mbind result_bind as_float as_int]. eexists. split; reflexivity.
  - intros c ts e. unfold Cyber.assess_risk, getitem. rewrite Hp, Hf.
    cbn [mbind result_bind as_floats as_bools].
    destruct y_prob as [|p0 y_prob']; [intros [= <-]; eexists; now left |].
    cbn [np_max mbind result_bind].
    unfold Cyber._identify_attack_pattern, bool_index.
    destruct (np_any flags); cbn [mbind result_bind].
    + destruct (Nat.eqb _ _); cbn [mbind result_bind].
      * repeat match goal with |- context [if ?b then _ else _] => destruct b end;
          discriminate.
      * intros [= <-]. eexists. now right.
    + repeat match goal with |- context [if ?b then _ else _] => destruct b end;
        discriminate.
  - intros c ts a. unfold Cyber.assess_risk, getitem. rewrite Hp, Hf.
    cbn [mbind result_bind as_floats as_bools].
    destruct (np_max y_prob) as [mx|]; [| discriminate].
    cbn [mbind result_bind].
    destruct (Cyber._identify_attack_pattern flags y_prob) as [sig|]; [| discriminate].
    cbn [mbind result_bind]. intros [= <-].
    cbn [Cyber.anomaly_count Cyber.anomaly_rate].
    split; [exact Hn |]. split; [exact Hrate |]. unfold np_sum_flags. lia.
Qed.

(** Three rows through the trained detector of the examples. *)
Lemma detection_dictionary_feeds_the_risk_agents_witness :
  exists det : gmap string pyval,
    FaultDetection.detect trained_detector [[0%Q]; [0%Q]; [0%Q]] = Ok det /\
    forall (c : Cyber.CyberRiskAssessmentAgent) (ts : option (list string)) (e : exn),
      Cyber.assess_risk c det ts = Raise e ->
      exists msg : string, e = ValueError msg \/ e = IndexError msg.
Proof.
  assert (Hok : is_Ok (FaultDetection.detect trained_detector [[0%Q]; [0%Q]; [0%Q]]) = true)
    by (vm_compute; reflexivity).
  destruct (FaultDetection.detect trained_detector [[0%Q]; [0%Q]; [0%Q]])
    as [det | e] eqn:Hdet; [| discriminate Hok].
  exists det. split; [reflexivity |].
  exact (proj1 (proj2 (detection_dictionary_feeds_the_risk_agents
                         trained_detector [[0%Q]; [0%Q]; [0%Q]] det Hdet))).
Defined.

Section RepositoryMapper.

Context {P D C O K : Type}.
Context `{!PerceptionLike P, !DetectorLike D, !CyberLike C,
          !OperationalLike O, !DecisionLike K}.
Variable now : nat -> string.

Abbreviation reference_mapper :=
  (RiskMapping.map_anomalies_to_risks pandas_mean pandas_std first_seen_order).

(** X20. With the mapper of [risk_mapping.py] registered, building the
    argument is the only step of the mapping call that can raise: the first
    of the keys predictions and attack_probabilities missing from the
    detection dictionary is reported as a KeyError and the mapper is not
    called. With both keys present the mapper answers, since it catches its
    own exceptions, and a SUCCESS result carries a risk mapping exactly then.
    The mapper never reads the probabilities it is passed. *)
Theorem mapping_reported_iff_both_keys
    (self : CoordinationAgent (P := P) (D := D) (C := C) (O := O) (K := K)
              (M := RiskMapping.RiskMappingAgent))
    (raw_data : RiskMapping.DataFrame) (m : RiskMapping.RiskMappingAgent)
    (det : gmap string pyval) :
  (det !! "predictions" = None ->
   invoke_risk_mapper m det raw_data = (Raise (KeyError "predictions"), m)) /\
  (is_Some (det !! "predictions") -> det !! "attack_probabilities" = None ->
   invoke_risk_mapper m det raw_data = (Raise (KeyError "attack_probabilities"), m)) /\
  (forall predictions probabilities : pyval,
     det !! "predictions" = Some predictions ->
     det !! "attack_probabilities" = Some probabilities ->
     forall other : option pyval,
       let data :=
         {| RiskMapping.predictions := Some predictions;
            RiskMapping.attack_probabilities := other;
            RiskMapping.sensor_data := Some raw_data |} in
       invoke_risk_mapper m det raw_data
       = (Ok (reference_mapper m data).2, (reference_mapper m data).1)) /\
  match (process_data now self raw_data).2 with
  | SUCCESS r =>
      is_Some (risk_mapping r) <->
      is_Some (risk_mapping_agent self) /\
      is_Some (detection_results r !! "predictions") /\
      is_Some (detection_results r !! "attack_probabilities")
  | ERROR r => risk_mapping_agent (process_data now self raw_data).1 = risk_mapping_agent self
  end.
Proof.
  assert (Hcall : forall (m : RiskMapping.RiskMappingAgent) (det : gmap string pyval),
    is_Ok (invoke_risk_mapper m det raw_data).1 = true <->
    is_Some (det !! "predictions") /\ is_Some (det !! "attack_probabilities")).
  { clear. intros m det. unfold invoke_risk_mapper, getitem.
    destruct (det !! "predictions") as [p|].
    - destruct (det !! "attack_probabilities") as [a|]; cbn.
      + split; [intros _; split; eauto | reflexivity].
      + split; [discriminate | intros [_ [x Hx]]; discriminate].
    - cbn. split; [discriminate | intros [[x Hx] _]; discriminate]. }
  split; [| split; [| split]].
  - intros Hnone. unfold invoke_risk_mapper, getitem. rewrite Hnone. reflexivity.
  - intros [p Hp] Hnone. unfold invoke_risk_mapper, getitem. rewrite Hp, Hnone. reflexivity.
  - intros p a Hp Ha other data. unfold invoke_risk_mapper, getitem. rewrite Hp, Ha.
    reflexivity.
  - unfold process_data. rewrite CoordinationProofs.mandatory_chain_frame.
    destruct (mandatory_chain self raw_data) as [[[[det' cy] op] dec] | e];
      [| reflexivity].
    unfold risk_mapping_step. cbn [risk_mapping_agent _log_event set_system_state].
    destruct (risk_mapping_agent self) as [m'|].
    + specialize (Hcall m' det').
      destruct (invoke_risk_mapper m' det' raw_data) as [[mapping | e] m''];
        cbn [fst snd risk_mapping detection_results is_Ok] in *.
      * split; [intros _; split; [eauto | now apply Hcall] | eauto].
      * split; [intros [x Hx]; discriminate |].
        intros [_ H]. apply Hcall in H. discriminate.
    + cbn [fst snd risk_mapping detection_results].
      split; [intros [x Hx]; discriminate | intros [[x Hx] _]; discriminate].
Qed.

End RepositoryMapper.

End DetectionProofs.

(* ================================================================== *)
(** ** From the operational assessment to the decision *)
(* ================================================================== *)

Module PipelineProofs.
Import Py PyFacts Spec Laws.

Lemma severity_critical_needs_score (score : Q) (rate : pyfloat) :
  match rate with Fin r => (r <= 1)%Q | NaN => True end ->
  Operational._assess_fault_severity score rate = "Critical" ->
  (0.6 < score)%Q.
Proof.
  unfold Operational._assess_fault_severity, fgt, flt, fdiv, fadd, lift2.
  destruct rate as [r|]; [| intros _ H; discriminate H].
  intros Hr. change (Qeq_bool 2 0) with false. cbv iota.
  decide_Qltb; intros E; discriminate E.
Qed.

(** X21. For an anomaly rate of at most 1 (every rate [detect] reports), an
    operational assessment of fault severity Critical has risk level high or
    critical, whatever the risk matrix. The decision then never answers a
    slower timeline than URGENT for a fault of severity Critical or High,
    although [_calculate_response_timeline] itself tests only for High. The
    decision's resolution time is the assessment's downtime, and an
    assessment naming only the monitoring systems gets no stage-specific
    action. *)
Theorem critical_fault_gets_urgent_timeline
    (o : Operational.OperationalRiskAssessmentAgent) (det : gmap string pyval)
    (cy : Cyber.CyberAssessment) (op : Operational.OperationalAssessment)
    (rate : pyfloat) :
  det !! "anomaly_rate" = Some (VFloat rate) ->
  match rate with Fin r => (r <= 1)%Q | NaN => True end ->
  Operational.assess_risk o det cy = Ok op ->
  (Operational.fault_severity op = "Critical" ->
   Operational.risk_level op = "high" \/ Operational.risk_level op = "critical") /\
  forall k : Decision.DecisionMakingAgent,
    let d := Decision.decide k cy op in
    (Operational.fault_severity op = "Critical" \/ Operational.fault_severity op = "High" ->
     Decision.response_timeline d = "IMMEDIATE (0-5 minutes)" \/
     Decision.response_timeline d = "URGENT (5-15 minutes)") /\
    Decision.estimated_resolution_time d = Operational.estimated_downtime_minutes op /\
    (Operational.affected_systems op = ["Monitoring Systems"] ->
     Decision.stage_specific_actions d = []).
Proof.
  intros Hrate Hle. unfold Operational.assess_risk, getitem. rewrite Hrate.
  cbn [mbind result_bind as_float].
  destruct (det !! "num_anomalies") as [v|]; [| discriminate].
  cbn [mbind result_bind]. destruct (as_int v) as [n|]; [| discriminate].
  cbn [mbind result_bind]. intros [= <-].
  cbn [Operational.fault_severity Operational.risk_level Operational.affected_systems
       Operational.estimated_downtime_minutes].
  set (score := Operational._calculate_operational_risk o _ _).
  assert (Hcrit : Operational._assess_fault_severity score rate = "Critical" ->
                  value (Operational._classify_risk_level score) = "high" \/
                  value (Operational._classify_risk_level score) = "critical").
  { intros Hsev. pose proof (severity_critical_needs_score score rate Hle Hsev) as Hs.
    unfold Operational._classify_risk_level. decide_Qltb; cbn [value]; auto. }
  split; [exact Hcrit |].
  intros k. cbv zeta. unfold Decision.decide.
  cbn [Decision.response_timeline Decision.estimated_resolution_time
       Decision.stage_specific_actions Operational.fault_severity Operational.risk_level
       Operational.affected_systems Operational.estimated_downtime_minutes].
  split; [| split; [reflexivity |]].
  - unfold Decision._calculate_response_timeline. intros [Hsev | Hsev].
    + destruct (Hcrit Hsev) as [E | E]; rewrite E;
        destruct (String.eqb (Cyber.risk_level cy) "critical"),
                 (String.eqb (Cyber.risk_level cy) "high"); cbn; auto.
    + rewrite Hsev.
      destruct (String.eqb (Cyber.risk_level cy) "critical"),
               (String.eqb (Cyber.risk_level cy) "high"),
               (String.eqb (value (Operational._classify_risk_level score)) "critical"),
               (String.eqb (value (Operational._classify_risk_level score)) "high");
        cbn; auto.
  - intros ->. reflexivity.
Qed.

(** The batch of the end-to-end scenario, 85 positive labels in 100 under a
    critical cyber level, is a fault of severity Critical and is answered
    IMMEDIATE or URGENT. A batch of twelve negative labels names only the
    monitoring systems and gets no stage-specific action. *)
Lemma critical_fault_gets_urgent_timeline_witness :
  (exists (cy : Cyber.CyberAssessment) (op : Operational.OperationalAssessment),
     Cyber.assess_risk Cyber.__init__ (detection_of flags_100 probs_100_flat)
       (Some (stamps 100)) = Ok cy /\
     Operational.assess_risk Operational.__init__
       (detection_of flags_100 probs_100_flat) cy = Ok op /\
     Operational.fault_severity op = "Critical" /\
     (Operational.risk_level op = "high" \/ Operational.risk_level op = "critical") /\
     (Decision.response_timeline (Decision.decide Decision.__init__ cy op)
      = "IMMEDIATE (0-5 minutes)" \/
      Decision.response_timeline (Decision.decide Decision.__init__ cy op)
      = "URGENT (5-15 minutes)")) /\
  (exists (cy : Cyber.CyberAssessment) (op : Operational.OperationalAssessment),
     Cyber.assess_risk Cyber.__init__
       (detection_of (replicate 12 false) (replicate 12 0.2%Q)) None = Ok cy /\
     Operational.assess_risk Operational.__init__
       (detection_of (replicate 12 false) (replicate 12 0.2%Q)) cy = Ok op /\
     Operational.affected_systems op = ["Monitoring Systems"] /\
     Decision.stage_specific_actions (Decision.decide Decision.__init__ cy op) = []).
Proof.
  split.
  - assert (Hsev :
      match Cyber.assess_risk Cyber.__init__ (detection_of flags_100 probs_100_flat)
              (Some (stamps 100)) with
      | Ok cy =>
          match Operational.assess_risk Operational.__init__
                  (detection_of flags_100 probs_100_flat) cy with
          | Ok op => Operational.fault_severity op
          | Raise _ => ""
          end
      | Raise _ => ""
      end = "Critical") by (vm_compute; reflexivity).
    destruct (Cyber.assess_risk Cyber.__init__ (detection_of flags_100 probs_100_flat)
                (Some (stamps 100))) as [cy | e] eqn:Hcy; [| discriminate Hsev].
    destruct (Operational.assess_risk Operational.__init__
                (detection_of flags_100 probs_100_flat) cy) as [op | e] eqn:Hop;
      [| discriminate Hsev].
    assert (Hrate : detection_of flags_100 probs_100_flat !! "anomaly_rate"
                    = Some (VFloat (np_mean_flags flags_100)))
      by reflexivity.
    assert (Hle : match np_mean_flags flags_100 with
                  | Fin r => (r <= 1)%Q
                  | NaN => True
                  end)
      by (vm_compute; discriminate).
    destruct (critical_fault_gets_urgent_timeline Operational.__init__
                (detection_of flags_100 probs_100_flat) cy op (np_mean_flags flags_100)
                Hrate Hle Hop) as [Hlevel Hdec].
    destruct (Hdec Decision.__init__) as (Htime & _ & _).
    exists cy, op. split; [reflexivity |]. split; [exact Hop |]. split; [exact Hsev |].
    split; [exact (Hlevel Hsev) | exact (Htime (or_introl Hsev))].
  - assert (Haff :
      match Cyber.assess_risk Cyber.__init__
              (detection_of (replicate 12 false) (replicate 12 0.2%Q)) None with
      | Ok cy =>
          match Operational.assess_risk Operational.__init__
                  (detection_of (replicate 12 false) (replicate 12 0.2%Q)) cy with
          | Ok op => Operational.affected_systems op
          | Raise _ => []
          end
      | Raise _ => []
      end = ["Monitoring Systems"]) by (vm_compute; reflexivity).
    destruct (Cyber.assess_risk Cyber.__init__
                (detection_of (replicate 12 false) (replicate 12 0.2%Q)) None)
      as [cy | e] eqn:Hcy; [| discriminate Haff].
    destruct (Operational.assess_risk Operational.__init__
                (detection_of (replicate 12 false) (replicate 12 0.2%Q)) cy)
      as [op | e] eqn:Hop; [| discriminate Haff].
    assert (Hrate : detection_of (replicate 12 false) (replicate 12 0.2%Q) !! "anomaly_rate"
                    = Some (VFloat (np_mean_flags (replicate 12 false))))
      by reflexivity.
    assert (Hle : match np_mean_flags (replicate 12 false) with
                  | Fin r => (r <= 1)%Q
                  | NaN => True
                  end)
      by (vm_compute; discriminate).
    destruct (critical_fault_gets_urgent_timeline Operational.__init__
                (detection_of (replicate 12 false) (replicate 12 0.2%Q)) cy op
                (np_mean_flags (replicate 12 false)) Hrate Hle Hop) as [_ Hdec].
    destruct (Hdec Decision.__init__) as (_ & _ & Hstage).
    exists cy, op. split; [reflexivity |]. split; [exact Hop |]. split; [exact Haff |].
    exact (Hstage Haff).
Defined.

End PipelineProofs.
